(** * Finance ETL monthly close: a shallow embedding of the pipeline

    The development follows the Python package [finance_etl]:
    - [quality.py]   : the declarative schemas and [validate_or_collect];
    - [transform.py] : FX resolution, currency conversion, the ledger
                       unifier and the KPI aggregator;
    - [pipeline.py]  : severity tagging and the orchestrator [run_month];
    - [cli.py]       : the command [run] and what it prints.

    Data frames are lists of rows, the index of a row being its position
    (every frame the pipeline builds has a default integer index).  Float
    columns are modelled by exact rationals and the missing value of pandas
    by [NaN] (a cell) or [None] (a typed field); rounding to two decimals is
    the one numeric operation of the code that is not exact, and it is
    modelled as numpy does it (scale, round half to even, unscale), on the
    exact value.  The code rounds the binary float of that value: where the
    exact value is a tie between two cents (2.345), the float lies on one
    side of it, and the code may go the other way than [Num.round2] does.
    The properties of a rounded amount are therefore stated in a form that
    holds whichever way a tie goes ([cents.rounded]). *)

From Stdlib Require Import List String Ascii ZArith QArith Qabs Bool Lia Permutation Arith.
Import ListNotations.
Local Open Scope string_scope.
Local Open Scope Z_scope.

(* ------------------------------------------------------------------ *)
(** * Strings *)

Module Str.

Definition lower_ascii (c : ascii) : ascii :=
  let n := nat_of_ascii c in
  if ((65 <=? n) && (n <=? 90))%nat then ascii_of_nat (n + 32) else c.

Definition upper_ascii (c : ascii) : ascii :=
  let n := nat_of_ascii c in
  if ((97 <=? n) && (n <=? 122))%nat then ascii_of_nat (n - 32) else c.

Fixpoint map_string (f : ascii -> ascii) (s : string) : string :=
  match s with
  | EmptyString => EmptyString
  | String c r => String (f c) (map_string f r)
  end.

(** [str.lower] and [str.upper] on ASCII text. *)
Definition lower : string -> string := map_string lower_ascii.
Definition upper : string -> string := map_string upper_ascii.

(** [str.isspace] on one ASCII character: the space, the controls 9 to 13
    and the separators 28 to 31. *)
Definition is_space (c : ascii) : bool :=
  let n := nat_of_ascii c in
  ((n =? 32) || ((9 <=? n) && (n <=? 13)) || ((28 <=? n) && (n <=? 31)))%nat.

Fixpoint lstrip (s : string) : string :=
  match s with
  | String c r => if is_space c then lstrip r else s
  | EmptyString => EmptyString
  end.

Fixpoint rstrip (s : string) : string :=
  match s with
  | EmptyString => EmptyString
  | String c r =>
      match rstrip r with
      | EmptyString => if is_space c then EmptyString else String c EmptyString
      | r' => String c r'
      end
  end.

(** [str.strip]. *)
Definition strip (s : string) : string := rstrip (lstrip s).

(** [sub in s] for Python strings. *)
Fixpoint contains (sub s : string) : bool :=
  prefix sub s ||
  match s with
  | EmptyString => false
  | String _ r => contains sub r
  end.

(** [sep.join(xs)]. *)
Fixpoint join (sep : string) (xs : list string) : string :=
  match xs with
  | [] => ""
  | [x] => x
  | x :: r => x ++ sep ++ join sep r
  end.

(** [s.split(sep)] for a one-character separator. *)
Fixpoint split (sep : ascii) (s : string) : list string :=
  match s with
  | EmptyString => [EmptyString]
  | String c r =>
      if Ascii.eqb c sep then EmptyString :: split sep r
      else match split sep r with
           | [] => [String c EmptyString]
           | x :: xs => String c x :: xs
           end
  end.

Definition digit (n : nat) : string := String (ascii_of_nat (48 + n)) "".

Fixpoint of_nat_fuel (fuel n : nat) : string :=
  match fuel with
  | O => ""
  | S f => if (n <? 10)%nat then digit n
           else of_nat_fuel f (n / 10) ++ digit (n mod 10)
  end.

(** [str(n)] for a natural number. *)
Definition of_nat (n : nat) : string := of_nat_fuel (S n) n.

(** [str(z)] for an integer. *)
Definition of_Z (z : Z) : string :=
  if z <? 0 then "-" ++ of_nat (Z.to_nat (- z)) else of_nat (Z.to_nat z).

(** A number printed on at least [w] digits, zero padded: [f"{n:0wd}"]. *)
Fixpoint pad0 (w : nat) (s : string) : string :=
  match w with
  | O => s
  | S w' => if (String.length s <=? w')%nat then pad0 w' ("0" ++ s) else s
  end.

Definition is_digit (c : ascii) : bool :=
  let n := nat_of_ascii c in ((48 <=? n) && (n <=? 57))%nat.

Definition digit_val (c : ascii) : Z := Z.of_nat (nat_of_ascii c - 48).

(** Lexicographic order on code points, the order of Python strings. *)
Definition leb (a b : string) : bool :=
  match String.compare a b with Gt => false | _ => true end.

End Str.

(* ------------------------------------------------------------------ *)
(** * Numbers: float columns as exact rationals *)

Module Num.

(** [numpy.rint]: the nearest integer, ties to the even one. *)
Definition rint (x : Q) : Z :=
  let n := Qnum x in
  let d := Zpos (Qden x) in
  let f := n / d in
  let r2 := 2 * (n mod d) in
  if r2 <? d then f
  else if d <? r2 then f + 1
  else if Z.even f then f else f + 1.

(** [Series.round(2)]: scale by 100, round to the nearest integer, unscale.
    On a value that is a tie between two cents the code, which rounds the
    binary float of the value, may return the other cent. *)
Definition round2 (x : Q) : Q := Qmake (rint (x * 100)) 100.

(** A NaN-aware float: [None] is NaN. *)
Definition float := option Q.

(** [Series.max()]: NaN entries are skipped, and the maximum of nothing
    is NaN. *)
Fixpoint series_max (xs : list float) : float :=
  match xs with
  | [] => None
  | None :: r => series_max r
  | Some x :: r =>
      match series_max r with
      | None => Some x
      | Some m => Some (if Qle_bool x m then m else x)
      end
  end.

(** Comparisons with NaN are false. *)
Definition float_lt (x : float) (b : Q) : bool :=
  match x with
  | None => false
  | Some q => negb (Qle_bool b q)
  end.

Definition float_eq (x : float) (b : Q) : bool :=
  match x with
  | None => false
  | Some q => Qeq_bool q b
  end.

End Num.

(* ------------------------------------------------------------------ *)
(** * Calendar dates and timestamps *)

Record Date := mkDate { year : Z; month : Z; day : Z }.

(** A [pd.Timestamp]: a calendar day and the time of day in seconds. *)
Record Timestamp := mkTimestamp { ts_date : Date; ts_time : Z }.

Module Cal.

Definition date_eqb (a b : Date) : bool :=
  (year a =? year b) && (month a =? month b) && (day a =? day b).

Definition date_compare (a b : Date) : comparison :=
  match year a ?= year b with
  | Eq => match month a ?= month b with
          | Eq => day a ?= day b
          | c => c
          end
  | c => c
  end.

Definition ts_compare (a b : Timestamp) : comparison :=
  match date_compare (ts_date a) (ts_date b) with
  | Eq => ts_time a ?= ts_time b
  | c => c
  end.

Definition ts_eqb (a b : Timestamp) : bool :=
  date_eqb (ts_date a) (ts_date b) && (ts_time a =? ts_time b).

(** [a >= b] and [a < b] on timestamps. *)
Definition ts_geb (a b : Timestamp) : bool :=
  match ts_compare a b with Lt => false | _ => true end.
Definition ts_ltb (a b : Timestamp) : bool :=
  match ts_compare a b with Lt => true | _ => false end.

Definition midnight (d : Date) : Timestamp := mkTimestamp d 0.

Definition is_leap (y : Z) : bool :=
  ((y mod 4 =? 0) && negb (y mod 100 =? 0)) || (y mod 400 =? 0).

Definition days_in_month (y m : Z) : Z :=
  if m =? 2 then (if is_leap y then 29 else 28)
  else if (m =? 4) || (m =? 6) || (m =? 9) || (m =? 11) then 30
  else 31.

(** [t + pd.offsets.MonthBegin(1)]: the first day of the next month
    (for any [t], the first month start strictly after it). *)
Definition month_begin_1 (t : Timestamp) : Timestamp :=
  let d := ts_date t in
  let nxt := if month d =? 12 then mkDate (year d + 1) 1 1
             else mkDate (year d) (month d + 1) 1 in
  mkTimestamp nxt (ts_time t).

(** [t + pd.offsets.MonthEnd(0)]: the last day of the month of [t]. *)
Definition month_end_0 (t : Timestamp) : Timestamp :=
  let d := ts_date t in
  mkTimestamp (mkDate (year d) (month d) (days_in_month (year d) (month d)))
              (ts_time t).

Definition digits_val (cs : list ascii) : Z :=
  fold_left (fun acc c => 10 * acc + Str.digit_val c) cs 0.

(** [pd.to_datetime(s)] on the text [YYYY-MM-DD]; [None] stands for the
    parse error pandas raises.  Only this ISO form, the one the pipeline
    builds from a [YYYY-MM] month, is accepted: pandas reads other spellings
    of a date as well ([2025-1-01]) and refuses the years its timestamps
    cannot hold, so the properties that depend on the parse are stated for
    months written [YYYY-MM] with such a year ([window.canonical]). *)
Definition to_datetime (s : string) : option Timestamp :=
  match list_ascii_of_string s with
  | [y1; y2; y3; y4; h1; m1; m2; h2; d1; d2] =>
      if Ascii.eqb h1 "-" && Ascii.eqb h2 "-"
         && forallb Str.is_digit [y1; y2; y3; y4; m1; m2; d1; d2] then
        let y := digits_val [y1; y2; y3; y4] in
        let m := digits_val [m1; m2] in
        let d := digits_val [d1; d2] in
        if (1 <=? m) && (m <=? 12) && (1 <=? d) && (d <=? days_in_month y m)
        then Some (midnight (mkDate y m d))
        else None
      else None
  | _ => None
  end.

(** [str] of a period [M]: [YYYY-MM]. *)
Definition period_M (d : Date) : string :=
  Str.pad0 4 (Str.of_Z (year d)) ++ "-" ++ Str.pad0 2 (Str.of_Z (month d)).

(** [str] of a date, [YYYY-MM-DD]. *)
Definition date_str (d : Date) : string :=
  period_M d ++ "-" ++ Str.pad0 2 (Str.of_Z (day d)).

(** A timestamp written with its time of day, [YYYY-MM-DD HH:MM:SS]. *)
Definition datetime_str (t : Timestamp) : string :=
  date_str (ts_date t) ++ " "
  ++ Str.pad0 2 (Str.of_Z (ts_time t / 3600)) ++ ":"
  ++ Str.pad0 2 (Str.of_Z (ts_time t / 60 mod 60)) ++ ":"
  ++ Str.pad0 2 (Str.of_Z (ts_time t mod 60)).

(** [str] of one timestamp: the date, followed by [HH:MM:SS] when the time
    of day is not midnight. *)
Definition ts_str (t : Timestamp) : string :=
  if ts_time t =? 0 then date_str (ts_date t) else datetime_str t.

(** [Series.astype(str)] on a datetime column: one format for the whole
    column, the date alone when every time of day is midnight and the date
    with the time otherwise. *)
Definition astype_str (ts : list Timestamp) : list string :=
  if forallb (fun t => ts_time t =? 0) ts
  then map (fun t => date_str (ts_date t)) ts
  else map datetime_str ts.

End Cal.

(* ------------------------------------------------------------------ *)
(** * Data frames (pandas) *)

Module pd.

(** The value of one cell, as the CSV loader delivers it. *)
Inductive cell :=
| NaN
| VStr (s : string)
| VNum (q : Q)
| VTime (t : Timestamp)
| VBool (b : bool).

(** A frame: its column labels and its rows, each row giving one cell per
    column.  The index of a row is its position. *)
Record DataFrame := mkDataFrame {
  columns : list string;
  rows : list (list cell)
}.

Definition isna (c : cell) : bool :=
  match c with NaN => true | _ => false end.

Definition cell_eqb (a b : cell) : bool :=
  match a, b with
  | NaN, NaN => true
  | VStr x, VStr y => String.eqb x y
  | VNum x, VNum y => Qeq_bool x y
  | VTime x, VTime y => Cal.ts_eqb x y
  | VBool x, VBool y => Bool.eqb x y
  | _, _ => false
  end.

Fixpoint index_of (name : string) (cols : list string) : option nat :=
  match cols with
  | [] => None
  | c :: r => if String.eqb c name then Some O
              else option_map S (index_of name r)
  end.

(** [row[name]]; [None] when the frame has no such column (a KeyError). *)
Definition get (cols : list string) (row : list cell) (name : string) : option cell :=
  option_map (fun i => nth i row NaN) (index_of name cols).

(** [df[name]]. *)
Definition column (df : DataFrame) (name : string) : option (list cell) :=
  option_map (fun i => map (fun r => nth i r NaN) (rows df))
             (index_of name (columns df)).

Section Groupby.
Context {K V : Type} (eqb : K -> K -> bool).

Fixpoint add_to_group (k : K) (v : V) (gs : list (K * list V)) : list (K * list V) :=
  match gs with
  | [] => [(k, [v])]
  | (k', vs) :: r =>
      if eqb k' k then (k', (vs ++ [v])%list) :: r
      else (k', vs) :: add_to_group k v r
  end.

(** [groupby]: the values of each distinct key, groups in the order their
    key first occurs and values in row order. *)
Definition groupby (kvs : list (K * V)) : list (K * list V) :=
  fold_left (fun gs kv => add_to_group (fst kv) (snd kv) gs) kvs [].
End Groupby.

(** Stable insertion sort, for [sort_values]. *)
Section Sort.
Context {A : Type} (le : A -> A -> bool).

Fixpoint insert_sorted (x : A) (l : list A) : list A :=
  match l with
  | [] => [x]
  | y :: r => if le x y then x :: l else y :: insert_sorted x r
  end.

Definition sort_values (l : list A) : list A :=
  fold_right insert_sorted [] l.
End Sort.

(** The key of a row for [groupby(keys)]: [None] when a key column is
    missing from the frame; rows with a NaN key are left out of the groups
    (pandas drops them). *)
Fixpoint row_key (cols : list string) (row : list cell) (keys : list string)
  : option (list cell) :=
  match keys with
  | [] => Some []
  | k :: r =>
      match get cols row k, row_key cols row r with
      | Some c, Some cs => Some (c :: cs)
      | _, _ => None
      end
  end.

Definition keys_eqb (a b : list cell) : bool :=
  (List.length a =? List.length b)%nat && forallb (fun p => cell_eqb (fst p) (snd p)) (combine a b).

(** [df.groupby(keys).size()], as the list of group sizes; [None] when a
    key column does not exist. *)
Definition groupby_size (df : DataFrame) (keys : list string) : option (list nat) :=
  if forallb (fun k => existsb (String.eqb k) (columns df)) keys then
    let ks := flat_map (fun row =>
                match row_key (columns df) row keys with
                | Some k => if existsb isna k then [] else [(k, tt)]
                | None => []
                end) (rows df) in
    Some (map (fun g => List.length (snd g)) (groupby keys_eqb ks))
  else None.

(** [repr(df)], by the rows it shows: all of them for a frame of at most 60
    rows ([display.max_rows]), and only the first five and the last five
    ([display.min_rows]) for a longer one. *)
Definition repr_rows {A : Type} (l : list A) : list A :=
  if (List.length l <=? 60)%nat then l
  else (firstn 5 l ++ skipn (List.length l - 5) l)%list.

End pd.

(* ------------------------------------------------------------------ *)
(** * Schema validation (pandera) *)

Module pa.

Inductive dtype := str | float | DateTime.

(** Built-in element-wise checks of a column. *)
Inductive Check :=
| isin (allowed : list string)
| gt (min_value : Z)
| ge (min_value : Z)
| ne (value : Z).

(** A whole-table check, [Check(fn, element_wise=False, error=...)]. *)
Record FrameCheck := mkFrameCheck {
  check_fn : pd.DataFrame -> bool;
  error : string
}.

Record Column := mkColumn {
  col_dtype : dtype;
  checks : list Check;
  coerce : bool;
  nullable : bool
}.

Record DataFrameSchema := mkSchema {
  columns : list (string * Column);
  frame_checks : list FrameCheck;
  strict : bool
}.

(** One row of [SchemaErrors.failure_cases]. *)
Record FailureCase := mkFailureCase {
  schema_context : string;
  column : option string;
  check : string;
  failure_case : pd.cell;
  index : option nat
}.

Definition quote (s : string) : string := "'" ++ s ++ "'".

(** [str(xs)] for a list of strings. *)
Definition list_repr (xs : list string) : string :=
  "[" ++ Str.join ", " (map quote xs) ++ "]".

Definition dtype_name (d : dtype) : string :=
  match d with
  | str => "str"
  | float => "float64"
  | DateTime => "datetime64[ns]"
  end.

(** The name under which a check is reported. *)
Definition check_name (c : Check) : string :=
  match c with
  | isin allowed => "isin(" ++ list_repr allowed ++ ")"
  | gt b => "greater_than(" ++ Str.of_Z b ++ ")"
  | ge b => "greater_than_or_equal_to(" ++ Str.of_Z b ++ ")"
  | ne b => "not_equal_to(" ++ Str.of_Z b ++ ")"
  end.

Definition has_dtype (d : dtype) (c : pd.cell) : bool :=
  match c, d with
  | pd.NaN, _ => true
  | pd.VStr _, str => true
  | pd.VNum _, float => true
  | pd.VTime _, DateTime => true
  | _, _ => false
  end.

(** Element-wise checks skip missing values.  A value of another type than
    the check expects, in a column that could not be coerced, is in no set
    of allowed values of that type and fails every comparison of order; it
    differs from every number. *)
Definition check_cell (c : Check) (v : pd.cell) : bool :=
  match v with
  | pd.NaN => true
  | pd.VStr s =>
      match c with
      | isin allowed => existsb (String.eqb s) allowed
      | ne _ => true
      | _ => false
      end
  | pd.VNum q =>
      match c with
      | gt b => negb (Qle_bool q (inject_Z b))
      | ge b => Qle_bool (inject_Z b) q
      | ne b => negb (Qeq_bool q (inject_Z b))
      | isin _ => false
      end
  | _ =>
      match c with
      | ne _ => true
      | _ => false
      end
  end.

Definition enumerate {A} (l : list A) : list (nat * A) :=
  combine (seq 0 (List.length l)) l.

(** The failures of the column type.  A column that is coerced reports
    every value that does not convert, under [coerce_dtype]; the column is
    then left as it was, and the type check that follows reports it once
    more, under [dtype], as it does for a column that is not coerced. *)
Definition dtype_failures (name : string) (col : Column) (cells : list pd.cell)
  : list FailureCase :=
  let mismatch := mkFailureCase "Column" (Some name)
                    ("dtype('" ++ dtype_name (col_dtype col) ++ "')")
                    (pd.VStr "object") None in
  if forallb (has_dtype (col_dtype col)) cells then []
  else if coerce col then
    (flat_map (fun ic =>
       if has_dtype (col_dtype col) (snd ic) then []
       else [mkFailureCase "Column" (Some name)
               ("coerce_dtype('" ++ dtype_name (col_dtype col) ++ "')")
               (snd ic) (Some (fst ic))])
       (enumerate cells)
     ++ [mismatch])%list
  else [mismatch].

Definition null_failures (name : string) (col : Column) (cells : list pd.cell)
  : list FailureCase :=
  if nullable col then []
  else flat_map (fun ic =>
         if pd.isna (snd ic)
         then [mkFailureCase "Column" (Some name) "not_nullable" (snd ic) (Some (fst ic))]
         else [])
       (enumerate cells).

(** The failures of the checks of the column; they run on the column as
    it is, coerced or not. *)
Definition check_failures (name : string) (col : Column) (cells : list pd.cell)
  : list FailureCase :=
  flat_map (fun c =>
    flat_map (fun ic =>
      if check_cell c (snd ic) then []
      else [mkFailureCase "Column" (Some name) (check_name c) (snd ic) (Some (fst ic))])
      (enumerate cells))
    (checks col).

Definition column_failures (df : pd.DataFrame) (nc : string * Column)
  : list FailureCase :=
  let (name, col) := nc in
  match pd.column df name with
  | None => [mkFailureCase "DataFrameSchema" None "column_in_dataframe" (pd.VStr name) None]
  | Some cells =>
      (dtype_failures name col cells ++ null_failures name col cells
       ++ check_failures name col cells)%list
  end.

Definition strict_failures (s : DataFrameSchema) (df : pd.DataFrame)
  : list FailureCase :=
  if strict s then
    flat_map (fun c =>
      if existsb (fun nc => String.eqb (fst nc) c) (columns s) then []
      else [mkFailureCase "DataFrameSchema" None "column_in_schema" (pd.VStr c) None])
      (pd.columns df)
  else [].

Definition frame_check_failures (s : DataFrameSchema) (df : pd.DataFrame)
  : list FailureCase :=
  flat_map (fun fc =>
    if check_fn fc df then []
    else [mkFailureCase "DataFrameSchema" None (error fc) (pd.VBool false) None])
    (frame_checks s).

(** Every failure of the frame against the schema, in the order they are
    found: lazy validation goes through all the columns and all the checks
    before it reports. *)
Definition collected (s : DataFrameSchema) (df : pd.DataFrame) : list FailureCase :=
  (strict_failures s df ++ flat_map (column_failures df) (columns s)
   ++ frame_check_failures s df)%list.

Definition table_level (fc : FailureCase) : bool :=
  String.eqb (schema_context fc) "DataFrameSchema".

(** [SchemaErrors.failure_cases]: the failures found, sorted by
    [schema_context] in descending order, so that the failures of the whole
    table come before those of the columns. *)
Definition failure_cases (s : DataFrameSchema) (df : pd.DataFrame) : list FailureCase :=
  let fcs := collected s df in
  (filter table_level fcs ++ filter (fun fc => negb (table_level fc)) fcs)%list.

(** [schema.validate(df, lazy=True)]: the frame, or the exception
    [SchemaErrors] carrying its failure cases. *)
Inductive validated :=
| Valid (df : pd.DataFrame)
| SchemaErrors (failure_cases : list FailureCase).

Definition validate (s : DataFrameSchema) (df : pd.DataFrame) : validated :=
  match failure_cases s df with
  | [] => Valid df
  | fcs => SchemaErrors fcs
  end.

End pa.

(* ------------------------------------------------------------------ *)
(** * config.py *)

Module config.

Record Settings := mkSettings {
  base_currency : string;
  allowed_currencies : list string
}.

Definition settings : Settings := mkSettings "USD" ["USD"; "TZS"; "EUR"].

End config.

(* ------------------------------------------------------------------ *)
(** * quality.py *)

Module quality.

(** A float column as a series; [None] when the column is missing or holds
    a value that is not a number (the arithmetic on it raises). *)
Definition float_series (df : pd.DataFrame) (name : string) : option (list Num.float) :=
  match pd.column df name with
  | None => None
  | Some cells =>
      fold_right (fun c acc =>
        match c, acc with
        | pd.NaN, Some l => Some (None :: l)
        | pd.VNum q, Some l => Some (Some q :: l)
        | _, _ => None
        end) (Some []) cells
  end.

Definition size_series (sizes : list nat) : list Num.float :=
  map (fun n => Some (inject_Z (Z.of_nat n))) sizes.

(** [lambda df: df.groupby(keys).size().max() == 1] *)
Definition dup_check_fn (keys : list string) (df : pd.DataFrame) : bool :=
  match pd.groupby_size df keys with
  | Some sizes => Num.float_eq (Num.series_max (size_series sizes)) 1
  | None => false
  end.

Definition _dup_check (keys : list string) (label : string) : pa.FrameCheck :=
  pa.mkFrameCheck (dup_check_fn keys)
    ("Duplicates found for keys " ++ pa.list_repr keys ++ " in " ++ label).

Definition sales_schema (allowed_currencies : list string) : pa.DataFrameSchema :=
  pa.mkSchema
    [ ("date", pa.mkColumn pa.DateTime [] true false);
      ("entity", pa.mkColumn pa.str [] false false);
      ("invoice_id", pa.mkColumn pa.str [] false false);
      ("account_code", pa.mkColumn pa.str [] false false);
      ("currency", pa.mkColumn pa.str [pa.isin allowed_currencies] false false);
      ("amount", pa.mkColumn pa.float [pa.gt 0] true false);
      ("description", pa.mkColumn pa.str [] false true) ]
    [ _dup_check ["entity"; "invoice_id"] "sales" ]
    true.

Definition expenses_schema (allowed_currencies : list string) : pa.DataFrameSchema :=
  pa.mkSchema
    [ ("date", pa.mkColumn pa.DateTime [] true false);
      ("entity", pa.mkColumn pa.str [] false false);
      ("bill_id", pa.mkColumn pa.str [] false false);
      ("account_code", pa.mkColumn pa.str [] false false);
      ("currency", pa.mkColumn pa.str [pa.isin allowed_currencies] false false);
      ("amount", pa.mkColumn pa.float [pa.gt 0] true false);
      ("description", pa.mkColumn pa.str [] false true) ]
    [ _dup_check ["entity"; "bill_id"] "expenses" ]
    true.

Definition abs_diff3 (g d n : Num.float) : Num.float :=
  match g, d, n with
  | Some g, Some d, Some n => Some (Qabs (g - d - n))
  | _, _, _ => None
  end.

Fixpoint zip3 {A B C D} (f : A -> B -> C -> D) (a : list A) (b : list B) (c : list C)
  : list D :=
  match a, b, c with
  | x :: a', y :: b', z :: c' => f x y z :: zip3 f a' b' c'
  | _, _, _ => []
  end.

(** [lambda df: (df["gross"] - df["deductions"] - df["net"]).abs().max() < 0.01],
    on the exact values; the code subtracts and compares floats, and a
    difference of one cent, up to the error of the floats, may fall on either
    side of the bound there. *)
Definition payroll_identity_fn (df : pd.DataFrame) : bool :=
  match float_series df "gross", float_series df "deductions", float_series df "net" with
  | Some g, Some d, Some n => Num.float_lt (Num.series_max (zip3 abs_diff3 g d n)) (1 # 100)
  | _, _, _ => false
  end.

Definition payroll_schema (allowed_currencies : list string) : pa.DataFrameSchema :=
  pa.mkSchema
    [ ("month", pa.mkColumn pa.str [] false false);
      ("entity", pa.mkColumn pa.str [] false false);
      ("employee_id", pa.mkColumn pa.str [] false false);
      ("currency", pa.mkColumn pa.str [pa.isin allowed_currencies] false false);
      ("gross", pa.mkColumn pa.float [pa.ge 0] true false);
      ("deductions", pa.mkColumn pa.float [pa.ge 0] true false);
      ("net", pa.mkColumn pa.float [pa.ge 0] true false) ]
    [ pa.mkFrameCheck payroll_identity_fn
        "Payroll identity gross - deductions = net violated" ]
    true.

Definition inventory_schema (allowed_currencies : list string) : pa.DataFrameSchema :=
  pa.mkSchema
    [ ("date", pa.mkColumn pa.DateTime [] true false);
      ("entity", pa.mkColumn pa.str [] false false);
      ("sku", pa.mkColumn pa.str [] false false);
      ("movement_type",
        pa.mkColumn pa.str [pa.isin ["receipt"; "issue"; "adjustment"]] false false);
      ("qty", pa.mkColumn pa.float [pa.ne 0] true false);
      ("unit_cost", pa.mkColumn pa.float [pa.ge 0] true false);
      ("currency", pa.mkColumn pa.str [pa.isin allowed_currencies] false false) ]
    []
    true.

Definition fx_schema (allowed_currencies : list string) (base_currency : string)
  : pa.DataFrameSchema :=
  pa.mkSchema
    [ ("date", pa.mkColumn pa.DateTime [] true false);
      ("from_currency", pa.mkColumn pa.str [pa.isin allowed_currencies] false false);
      ("to_currency", pa.mkColumn pa.str [pa.isin [base_currency]] false false);
      ("rate", pa.mkColumn pa.float [pa.gt 0] true false) ]
    [ _dup_check ["date"; "from_currency"; "to_currency"] "fx_rates" ]
    true.

(** One row of an issue frame: a failure case with its dataset. *)
Record DqIssue := mkDqIssue {
  dataset : string;
  index : option nat;
  column : option string;
  check : string;
  failure_case : pd.cell;
  schema_context : string
}.

Definition issue_of (dataset_name : string) (fc : pa.FailureCase) : DqIssue :=
  mkDqIssue dataset_name (pa.index fc) (pa.column fc) (pa.check fc)
            (pa.failure_case fc) (pa.schema_context fc).

(** [validate_or_collect]: the validated frame, or [None] after the failure
    cases, as one frame, were appended to the list [issues] (the list the
    caller passed is returned extended). *)
Definition validate_or_collect (df : pd.DataFrame) (schema : pa.DataFrameSchema)
    (dataset_name : string) (issues : list (list DqIssue))
  : option pd.DataFrame * list (list DqIssue) :=
  match pa.validate schema df with
  | pa.Valid df' => (Some df', issues)
  | pa.SchemaErrors fcs => (None, (issues ++ [map (issue_of dataset_name) fcs])%list)
  end.

End quality.

(* ------------------------------------------------------------------ *)
(** * Exceptions *)

Module py.

(** The exceptions the pipeline can raise. *)
Inductive exn :=
| FileNotFoundError (file : string)
| ValueError_fail_on                      (* fail_on must be one of: ERROR, WARN, NEVER *)
| ValueError_DQ (threshold : string)      (* DQ failed (...) *)
| ValueError_MissingFx (shown : list (Date * string))    (* Missing FX rates for: ... *)
| AssertionError                          (* the mask no longer aligns with the frame *)
| TypeError_NoneType                      (* 'NoneType' object is not subscriptable *)
| AttributeError_NoneType                 (* 'NoneType' object has no attribute 'copy' *)
| DateParseError                          (* to_datetime could not parse *)
| KeyError (column : string).

Inductive result (A : Type) :=
| Ok (a : A)
| Raise (e : exn).
Arguments Ok {A} a.
Arguments Raise {A} e.

Definition bind {A B} (r : result A) (k : A -> result B) : result B :=
  match r with
  | Ok a => k a
  | Raise e => Raise e
  end.

Fixpoint mapM {A B} (f : A -> result B) (l : list A) : result (list B) :=
  match l with
  | [] => Ok []
  | x :: r => bind (f x) (fun y => bind (mapM f r) (fun ys => Ok (y :: ys)))
  end.

End py.

Notation "x <- c ;; k" := (py.bind c (fun x => k))
  (at level 61, c at next level, right associativity).

(* ------------------------------------------------------------------ *)
(** * transform.py *)

(** The typed rows of the validated frames. *)

Module Sale.
Record t := mk {
  date : Timestamp; entity : string; invoice_id : string; account_code : string;
  currency : string; amount : Q; description : option string
}.
End Sale.

Module Expense.
Record t := mk {
  date : Timestamp; entity : string; bill_id : string; account_code : string;
  currency : string; amount : Q; description : option string
}.
End Expense.

Module Payroll.
Record t := mk {
  month : string; entity : string; employee_id : string; currency : string;
  gross : Q; deductions : Q; net : Q
}.
End Payroll.

Module Inventory.
Record t := mk {
  date : Timestamp; entity : string; sku : string; movement_type : string;
  qty : Q; unit_cost : Q; currency : string
}.
End Inventory.

Module FxRate.
Record t := mk {
  date : Timestamp; from_currency : string; to_currency : string; rate : Q
}.
End FxRate.

(** A row of the lookup [fx_to_base] returns: the date is a calendar day. *)
Module Fx.
Record t := mk {
  date : Date; from_currency : string; to_currency : string; rate : Q
}.
End Fx.

(** A row of the chart of accounts, read as text. *)
Module Coa.
Record t := mk {
  account_code : option string; account_name : option string;
  account_type : option string
}.
End Coa.

Module Account.
Record t := mk {
  account_code : string; account_name : option string; account_type : option string
}.
End Account.

(** The canonical transaction, before conversion. *)
Module Txn.
Record t := mk {
  date : Timestamp; entity : string; source : string; document_id : string;
  account_code : string; currency : string; amount : Q; description : option string
}.
End Txn.

(** A converted transaction: the columns of [Txn] with [rate] and
    [amount_base]. *)
Module Conv.
Record t := mk { txn : Txn.t; rate : Q; amount_base : Q }.
End Conv.

(** A ledger record: a converted transaction with its [txn_id]. *)
Module Fact.
Record t := mk { txn_id : string; txn : Txn.t; rate : Q; amount_base : Q }.
End Fact.

Module Kpi.
(** A row of the KPI table: [by_type] holds the account-type columns, in
    column order. *)
Record t := mk {
  entity : string; month : string; by_type : list (string * Q);
  gross_profit : Q; operating_profit : Q
}.
End Kpi.

Module transform.

(** NaN prints as [nan] under [astype(str)]. *)
Definition astype_str (s : option string) : string :=
  match s with Some x => x | None => "nan" end.

Definition build_dim_accounts (chart_of_accounts : list Coa.t) : list Account.t :=
  map (fun c => Account.mk (astype_str (Coa.account_code c))
                           (Coa.account_name c) (Coa.account_type c))
      chart_of_accounts.

Definition fx_to_base (fx_rates : list FxRate.t) (base_currency : string) : list Fx.t :=
  let fx := map (fun r => Fx.mk (ts_date (FxRate.date r)) (FxRate.from_currency r)
                                (FxRate.to_currency r) (FxRate.rate r)) fx_rates in
  filter (fun r => String.eqb (Fx.to_currency r) base_currency) fx.

(** A row of [out] inside [add_fx_amount_base]: the input columns,
    [date_key], [rate] and, after the merge, [rate_fx]. *)
Record Rated := mkRated {
  r_txn : Txn.t;
  date_key : Date;
  rate : Num.float;
  rate_fx : Num.float
}.

Definition fx_matches (o : Rated) (f : Fx.t) : bool :=
  Cal.date_eqb (date_key o) (Fx.date f)
  && String.eqb (Txn.currency (r_txn o)) (Fx.from_currency f).

(** [out.merge(fx_lookup, how="left", left_on=["date_key", "currency"],
    right_on=["date", "from_currency"])]: every left row, in order, once per
    matching right row, and once with a NaN [rate_fx] when nothing
    matches. *)
Definition merge_fx (out : list Rated) (fx_lookup : list Fx.t) : list Rated :=
  flat_map (fun o =>
    match filter (fx_matches o) fx_lookup with
    | [] => [mkRated (r_txn o) (date_key o) (rate o) None]
    | ms => map (fun f => mkRated (r_txn o) (date_key o) (rate o) (Some (Fx.rate f))) ms
    end) out.

(** [out.loc[mask, "rate"] = out.loc[mask, "rate_fx"]].  [mask] was computed
    before the merge and carries the index of the frame it came from; the
    merged frame has a fresh index, so the two align exactly when the merge
    kept the number of rows, and pandas fails otherwise, on an assertion. *)
Definition assign_rate_fx (mask : list bool) (out : list Rated) : py.result (list Rated) :=
  if (List.length out =? List.length mask)%nat then
    py.Ok (map (fun mo : bool * Rated =>
                 let (m, o) := mo in
                 if m then mkRated (r_txn o) (date_key o) (rate_fx o) (rate_fx o) else o)
               (combine mask out))
  else py.Raise py.AssertionError.

Definition rate_isna (o : Rated) : bool :=
  match rate o with None => true | Some _ => false end.

Definition pair_eqb (a b : Date * string) : bool :=
  Cal.date_eqb (fst a) (fst b) && String.eqb (snd a) (snd b).

(** [drop_duplicates]: the first occurrence of each row is kept. *)
Fixpoint drop_duplicates {A} (eqb : A -> A -> bool) (seen : list A) (l : list A) : list A :=
  match l with
  | [] => []
  | x :: r => if existsb (eqb x) seen then drop_duplicates eqb seen r
              else x :: drop_duplicates eqb (x :: seen) r
  end.

(** [(out["amount"] * out["rate"]).round(2)] on every row; [None] when a rate
    is NaN, that is when [out["rate"].isna().any()]. *)
Fixpoint with_amount_base (out : list Rated) : option (list Conv.t) :=
  match out with
  | [] => Some []
  | o :: r =>
      match rate o, with_amount_base r with
      | Some q, Some l =>
          Some (Conv.mk (r_txn o) q (Num.round2 (Txn.amount (r_txn o) * q)) :: l)
      | _, _ => None
      end
  end.

(** [out[out["rate"].isna()][["date_key", "currency"]].drop_duplicates()] *)
Definition missing_pairs (out : list Rated) : list (Date * string) :=
  drop_duplicates pair_eqb []
    (map (fun o => (date_key o, Txn.currency (r_txn o))) (filter rate_isna out)).

(** The error carries the text [f"Missing FX rates for:\n{missing}"], that
    is the frame [missing] as it prints: the pairs are those [repr] shows. *)
Definition add_fx_amount_base (df : list Txn.t) (fx : list Fx.t) (base_currency : string)
  : py.result (list Conv.t) :=
  let out := map (fun r => mkRated r (ts_date (Txn.date r)) (Some 1%Q) None) df in
  let mask := map (fun r => negb (String.eqb (Txn.currency r) base_currency)) df in
  out <- (if existsb (fun b => b) mask
          then assign_rate_fx mask (merge_fx out fx)
          else py.Ok out) ;;
  match with_amount_base out with
  | None => py.Raise (py.ValueError_MissingFx (pd.repr_rows (missing_pairs out)))
  | Some l => py.Ok l
  end.

Definition inventory_account (movement_type : string) : option string :=
  if String.eqb movement_type "issue" then Some "50000001"
  else if String.eqb movement_type "receipt" then Some "10000001"
  else if String.eqb movement_type "adjustment" then Some "10000001"
  else None.

Definition sale_txn (s : Sale.t) : Txn.t :=
  Txn.mk (Sale.date s) (Sale.entity s) "sales" (Sale.invoice_id s)
         (Sale.account_code s) (Sale.currency s) (Sale.amount s) (Sale.description s).

Definition expense_txn (e : Expense.t) : Txn.t :=
  Txn.mk (Expense.date e) (Expense.entity e) "expenses" (Expense.bill_id e)
         (Expense.account_code e) (Expense.currency e) (- Expense.amount e)
         (Expense.description e).

(** The date of a payroll row: [pd.to_datetime(month + "-01") +
    pd.offsets.MonthEnd(0)]. *)
Definition payroll_date (month : string) : py.result Timestamp :=
  match Cal.to_datetime (month ++ "-01") with
  | Some t => py.Ok (Cal.month_end_0 t)
  | None => py.Raise py.DateParseError
  end.

Definition payroll_txn (p : Payroll.t) : py.result Txn.t :=
  d <- payroll_date (Payroll.month p) ;;
  py.Ok (Txn.mk d (Payroll.entity p) "payroll"
           (Payroll.employee_id p ++ "_" ++ Payroll.month p)
           "61000001" (Payroll.currency p) (- Payroll.net p) (Some "Payroll net")).

(** The transaction of an inventory row, given the text of its date. *)
Definition inventory_row (i : Inventory.t) (date_text : string) : Txn.t :=
  let amount := Num.round2 (Inventory.qty i * Inventory.unit_cost i) in
  Txn.mk (Inventory.date i) (Inventory.entity i) "inventory"
         (Inventory.sku i ++ "_" ++ date_text)
         (astype_str (inventory_account (Inventory.movement_type i)))
         (Inventory.currency i)
         (if String.eqb (Inventory.movement_type i) "issue" then - amount else amount)
         (Some (Inventory.movement_type i ++ " " ++ Inventory.sku i)).

(** The transaction of an inventory row that is alone in its batch. *)
Definition inventory_txn (i : Inventory.t) : Txn.t :=
  inventory_row i (Cal.ts_str (Inventory.date i)).

(** The transactions of the inventory batch: [inv["date"].astype(str)]
    writes the dates of the whole column in one format. *)
Definition inventory_txns (inventory : list Inventory.t) : list Txn.t :=
  map (fun it : Inventory.t * string => inventory_row (fst it) (snd it))
      (combine inventory (Cal.astype_str (map Inventory.date inventory))).

Definition lex (c : comparison) (k : comparison) : comparison :=
  match c with Eq => k | _ => c end.

(** The order of [sort_values(["date", "entity", "source", "document_id"])]. *)
Definition conv_leb (a b : Conv.t) : bool :=
  let x := Conv.txn a in
  let y := Conv.txn b in
  match lex (Cal.ts_compare (Txn.date x) (Txn.date y))
       (lex (String.compare (Txn.entity x) (Txn.entity y))
       (lex (String.compare (Txn.source x) (Txn.source y))
            (String.compare (Txn.document_id x) (Txn.document_id y)))) with
  | Gt => false
  | _ => true
  end.

Definition with_txn_id (c : Conv.t) : Fact.t :=
  let x := Conv.txn c in
  Fact.mk (Txn.entity x ++ "|" ++ Txn.source x ++ "|" ++ Txn.document_id x)
          x (Conv.rate c) (Conv.amount_base c).

Definition to_fact_transactions (sales : list Sale.t) (expenses : list Expense.t)
    (payroll : list Payroll.t) (inventory : list Inventory.t) (fx : list Fx.t)
    (base_currency : string) : py.result (list Fact.t) :=
  let s := map sale_txn sales in
  let e := map expense_txn expenses in
  p <- py.mapM payroll_txn payroll ;;
  let inv := inventory_txns inventory in
  let fact := (s ++ e ++ p ++ inv)%list in
  fact <- add_fx_amount_base fact fx base_currency ;;
  let fact := pd.sort_values conv_leb fact in
  py.Ok (map with_txn_id fact).

(** A ledger record joined to its account type, and the key it is grouped
    under: entity, month and account type (NaN when the chart has no such
    account code, or no type for it). *)
Definition kpi_key : Type := string * string * option string.

Definition opt_string_eqb (a b : option string) : bool :=
  match a, b with
  | Some x, Some y => String.eqb x y
  | None, None => true
  | _, _ => false
  end.

Definition kpi_key_eqb (a b : kpi_key) : bool :=
  let '(e1, m1, t1) := a in
  let '(e2, m2, t2) := b in
  String.eqb e1 e2 && String.eqb m1 m2 && opt_string_eqb t1 t2.

(** [fact.merge(dim_accounts[["account_code", "account_type"]],
    on="account_code", how="left")] *)
Definition merge_accounts (fact : list Fact.t) (dim_accounts : list Account.t)
  : list (Fact.t * option string) :=
  flat_map (fun f =>
    match filter (fun a => String.eqb (Txn.account_code (Fact.txn f))
                                      (Account.account_code a)) dim_accounts with
    | [] => [(f, None)]
    | ms => map (fun a => (f, Account.account_type a)) ms
    end) fact.

Definition Qsum (l : list Q) : Q := fold_left Qplus l 0%Q.

Definition Qmean (l : list Q) : Q := (Qsum l / inject_Z (Z.of_nat (List.length l)))%Q.

(** [df.groupby(["entity", "month", "account_type"], dropna=False)
    ["amount_base"].sum().reset_index()]: the group of the NaN account type
    is kept. *)
Definition groupby_sum (df : list (Fact.t * option string)) : list (kpi_key * Q) :=
  map (fun g => (fst g, Qsum (snd g)))
      (pd.groupby kpi_key_eqb
         (map (fun ft : Fact.t * option string =>
                 let (f, ty) := ft in
                 ((Txn.entity (Fact.txn f),
                   Cal.period_M (ts_date (Txn.date (Fact.txn f))), ty),
                  Fact.amount_base f)) df)).

Definition index_eqb (a b : string * string) : bool :=
  String.eqb (fst a) (fst b) && String.eqb (snd a) (snd b).

Definition index_leb (a b : string * string) : bool :=
  match lex (String.compare (fst a) (fst b)) (String.compare (snd a) (snd b)) with
  | Gt => false
  | _ => true
  end.

(** The rows of [pivot] that [pivot_table] groups: with its default
    [dropna=True] the rows whose [account_type] is NaN are left out. *)
Definition pivot_dropna (pivot : list (kpi_key * Q)) : list (string * string * string * Q) :=
  flat_map (fun r : kpi_key * Q =>
    let '((e, m, ty), v) := r in
    match ty with
    | Some t => [(e, m, t, v)]
    | None => []
    end) pivot.

(** [pivot.pivot_table(index=["entity", "month"], columns="account_type",
    values="amount_base", fill_value=0).reset_index()]: one row per (entity,
    month) and one column per account type, both sorted; a cell is the mean
    of the values of its group, and 0 where the group is empty. *)
Definition pivot_table (pivot : list (kpi_key * Q))
  : list (string * string * list (string * Q)) :=
  let kept := pivot_dropna pivot in
  let index := pd.sort_values index_leb
                 (drop_duplicates index_eqb []
                    (map (fun r : string * string * string * Q =>
                            let '(e, m, _, _) := r in (e, m)) kept)) in
  let cols := pd.sort_values Str.leb
                (drop_duplicates String.eqb []
                   (map (fun r : string * string * string * Q =>
                           let '(_, _, t, _) := r in t) kept)) in
  map (fun em : string * string =>
         (fst em, snd em,
          map (fun c =>
                 let vals := flat_map (fun r : string * string * string * Q =>
                               let '(e, m, t, v) := r in
                               if index_eqb (e, m) em && String.eqb t c then [v] else [])
                             kept in
                 (c, match vals with [] => 0%Q | _ => Qmean vals end))
              cols))
      index.

(** [if col not in wide.columns: wide[col] = 0.0] *)
Definition add_default (col : string) (by_type : list (string * Q)) : list (string * Q) :=
  if existsb (fun cv => String.eqb (fst cv) col) by_type then by_type
  else (by_type ++ [(col, 0%Q)])%list.

(** [wide[col]] on one row; the three columns read below exist once the
    defaults are added. *)
Definition col_value (col : string) (by_type : list (string * Q)) : Q :=
  match find (fun cv => String.eqb (fst cv) col) by_type with
  | Some cv => snd cv
  | None => 0%Q
  end.

Definition kpi_leb (a b : Kpi.t) : bool :=
  index_leb (Kpi.entity a, Kpi.month a) (Kpi.entity b, Kpi.month b).

Definition kpi_monthly (fact : list Fact.t) (dim_accounts : list Account.t) : list Kpi.t :=
  let df := merge_accounts fact dim_accounts in
  let pivot := groupby_sum df in
  let wide := pivot_table pivot in
  let wide := map (fun r : string * string * list (string * Q) =>
                let '(e, m, by_type) := r in
                let by_type := fold_left (fun acc col => add_default col acc)
                                 ["Revenue"; "COGS"; "Expense"] by_type in
                let gross_profit :=
                  Num.round2 (col_value "Revenue" by_type + col_value "COGS" by_type) in
                let operating_profit :=
                  Num.round2 (gross_profit + col_value "Expense" by_type) in
                Kpi.mk e m by_type gross_profit operating_profit) wide in
  pd.sort_values kpi_leb wide.

End transform.

(* ------------------------------------------------------------------ *)
(** * Reading a validated frame at the types of its schema

    The Python code keeps working on the frame the validator returned and
    reads its columns by name.  The typed rows of [transform] are read here
    from such a frame; a missing column or a cell of another type gives the
    [KeyError] the column access would raise. *)

Module typed.

Section Row.
Variables (cols : list string) (row : list pd.cell).

Definition get_str (name : string) : py.result string :=
  match pd.get cols row name with
  | Some (pd.VStr s) => py.Ok s
  | _ => py.Raise (py.KeyError name)
  end.

Definition get_opt_str (name : string) : py.result (option string) :=
  match pd.get cols row name with
  | Some (pd.VStr s) => py.Ok (Some s)
  | Some pd.NaN => py.Ok None
  | _ => py.Raise (py.KeyError name)
  end.

Definition get_num (name : string) : py.result Q :=
  match pd.get cols row name with
  | Some (pd.VNum q) => py.Ok q
  | _ => py.Raise (py.KeyError name)
  end.

Definition get_time (name : string) : py.result Timestamp :=
  match pd.get cols row name with
  | Some (pd.VTime t) => py.Ok t
  | _ => py.Raise (py.KeyError name)
  end.

Definition sale : py.result Sale.t :=
  d <- get_time "date" ;; e <- get_str "entity" ;; i <- get_str "invoice_id" ;;
  a <- get_str "account_code" ;; c <- get_str "currency" ;; m <- get_num "amount" ;;
  t <- get_opt_str "description" ;;
  py.Ok (Sale.mk d e i a c m t).

Definition expense : py.result Expense.t :=
  d <- get_time "date" ;; e <- get_str "entity" ;; i <- get_str "bill_id" ;;
  a <- get_str "account_code" ;; c <- get_str "currency" ;; m <- get_num "amount" ;;
  t <- get_opt_str "description" ;;
  py.Ok (Expense.mk d e i a c m t).

Definition payroll : py.result Payroll.t :=
  m <- get_str "month" ;; e <- get_str "entity" ;; i <- get_str "employee_id" ;;
  c <- get_str "currency" ;; g <- get_num "gross" ;; d <- get_num "deductions" ;;
  n <- get_num "net" ;;
  py.Ok (Payroll.mk m e i c g d n).

Definition inventory : py.result Inventory.t :=
  d <- get_time "date" ;; e <- get_str "entity" ;; s <- get_str "sku" ;;
  m <- get_str "movement_type" ;; q <- get_num "qty" ;; u <- get_num "unit_cost" ;;
  c <- get_str "currency" ;;
  py.Ok (Inventory.mk d e s m q u c).

Definition fx_rate : py.result FxRate.t :=
  d <- get_time "date" ;; f <- get_str "from_currency" ;; t <- get_str "to_currency" ;;
  r <- get_num "rate" ;;
  py.Ok (FxRate.mk d f t r).
End Row.

Definition read {A} (row_of : list string -> list pd.cell -> py.result A)
    (df : pd.DataFrame) : py.result (list A) :=
  py.mapM (row_of (pd.columns df)) (pd.rows df).

End typed.

(* ------------------------------------------------------------------ *)
(** * The DQ reports *)

Module dq.

(** A row of the exceptions log: an issue with its severity. *)
Record DqException := mkDqException {
  issue : quality.DqIssue;
  severity : string
}.

(** The DQ summary file: the pass marker, or the issue count of each
    (dataset, severity). *)
Inductive Summary :=
| SummaryPass (status : string) (month : string)
| SummaryCounts (counts : list (string * string * nat)).

End dq.

(* ------------------------------------------------------------------ *)
(** * io_utils.py: the files a run reads and writes *)

Module io_utils.

(** The files of the curated directory. *)
Inductive Artifact :=
| dq_exceptions_csv (rows : list dq.DqException)
| dq_summary_csv (summary : dq.Summary)
| fact_transactions_parquet (rows : list Fact.t)
| dim_accounts_parquet (rows : list Account.t)
| kpi_monthly_parquet (rows : list Kpi.t).

(** The name of the file an artifact is written to. *)
Definition artifact_name (a : Artifact) : string :=
  match a with
  | dq_exceptions_csv _ => "dq_exceptions.csv"
  | dq_summary_csv _ => "dq_summary.csv"
  | fact_transactions_parquet _ => "fact_transactions.parquet"
  | dim_accounts_parquet _ => "dim_accounts.parquet"
  | kpi_monthly_parquet _ => "kpi_monthly.parquet"
  end.

(** The raw and reference directories: each file, or [None] when it does
    not exist. *)
Record Files := mkFiles {
  chart_of_accounts_csv : option (list Coa.t);
  sales_csv : option pd.DataFrame;
  expenses_csv : option pd.DataFrame;
  payroll_csv : option pd.DataFrame;
  inventory_movements_csv : option pd.DataFrame;
  fx_rates_csv : option pd.DataFrame
}.

(** A computation that writes files and may raise: from the files written so
    far to the files written at the end, in the order of writing, with the
    value returned or the exception raised. *)
Definition IO (A : Type) : Type := list Artifact -> list Artifact * py.result A.

Definition ret {A} (a : A) : IO A := fun w => (w, py.Ok a).

Definition bind {A B} (c : IO A) (k : A -> IO B) : IO B :=
  fun w =>
    match c w with
    | (w', py.Ok a) => k a w'
    | (w', py.Raise e) => (w', py.Raise e)
    end.

Definition raise {A} (e : py.exn) : IO A := fun w => (w, py.Raise e).

Definition lift {A} (r : py.result A) : IO A := fun w => (w, r).

Definition read_csv {A} (file : option A) (name : string) : IO A :=
  match file with
  | Some df => ret df
  | None => raise (py.FileNotFoundError name)
  end.

Definition write (a : Artifact) : IO unit := fun w => ((w ++ [a])%list, py.Ok tt).

Definition write_csv := write.
Definition write_parquet := write.

End io_utils.

Notation "'do' x <- c ; k" := (io_utils.bind c (fun x => k))
  (at level 61, x name, c at next level, right associativity).
Notation "c ;;; k" := (io_utils.bind c (fun _ => k))
  (at level 61, right associativity).

(* ------------------------------------------------------------------ *)
(** * pipeline.py *)

Module pipeline.
Import io_utils.

Definition _month_window (month : string) : py.result (Timestamp * Timestamp) :=
  match Cal.to_datetime (month ++ "-01") with
  | Some start => py.Ok (start, Cal.month_begin_1 start)
  | None => py.Raise py.DateParseError
  end.

Definition critical_checks : list string :=
  ["dtype"; "required"; "Duplicates found"; "Payroll identity"].

(** [Series.str.contains(patt, case=False)] for a pattern that is an
    alternation of literal texts, the only patterns built here. *)
Definition str_contains (patt : string) (s : string) : bool :=
  existsb (fun alt => Str.contains (Str.lower alt) (Str.lower s))
          (Str.split "|"%char patt).

Definition _tag_severity (dq : list quality.DqIssue) : list dq.DqException :=
  let patt := Str.join "|" critical_checks in
  map (fun i =>
         dq.mkDqException i
           (if str_contains patt (quality.check i) then "ERROR" else "WARN"))
      dq.

Definition summary_key_eqb (a b : string * string) : bool :=
  String.eqb (fst a) (fst b) && String.eqb (snd a) (snd b).

Definition summary_key_leb (a b : string * string * nat) : bool :=
  transform.index_leb (fst a) (fst b).

(** The order of [sort_values(["severity", "issue_count"],
    ascending=[True, False])]. *)
Definition summary_leb (a b : string * string * nat) : bool :=
  let '(_, s1, n1) := a in
  let '(_, s2, n2) := b in
  match transform.lex (String.compare s1 s2) (Nat.compare n2 n1) with
  | Gt => false
  | _ => true
  end.

(** [dq_exceptions.groupby(["dataset", "severity"]).size()
    .reset_index(name="issue_count").sort_values(...)] *)
Definition summarize (dq_exceptions : list dq.DqException) : list (string * string * nat) :=
  let groups := pd.groupby summary_key_eqb
                  (map (fun x => ((quality.dataset (dq.issue x), dq.severity x), tt))
                       dq_exceptions) in
  let sizes := pd.sort_values summary_key_leb
                 (map (fun g => (fst g, List.length (snd g))) groups) in
  pd.sort_values summary_leb sizes.

Definition in_window (start end_ : Timestamp) (t : Timestamp) : bool :=
  Cal.ts_geb t start && Cal.ts_ltb t end_.

(** [v[...]] on what [validate_or_collect] returned: subscripting [None]
    raises. *)
Definition subscript {A} (v : option pd.DataFrame)
    (row_of : list string -> list pd.cell -> py.result A) : py.result (list A) :=
  match v with
  | Some df => typed.read row_of df
  | None => py.Raise py.TypeError_NoneType
  end.

(** [fx_rates.copy()] at the head of [fx_to_base]: on [None] the attribute
    access raises. *)
Definition copy_fx (v : option pd.DataFrame) : py.result (list FxRate.t) :=
  match v with
  | Some df => typed.read typed.fx_rate df
  | None => py.Raise py.AttributeError_NoneType
  end.

Definition outputs : list string :=
  ["dq_exceptions"; "dq_summary"; "fact"; "dim_accounts"; "kpi"].

Definition is_nil {A} (l : list A) : bool :=
  match l with [] => true | _ => false end.

Definition run_month (settings : config.Settings) (month : string) (files : Files)
    (fail_on : string) : IO (list string) :=
  (* Load reference *)
  do coa <- read_csv (chart_of_accounts_csv files) "chart_of_accounts.csv" ;
  let dim_accounts := transform.build_dim_accounts coa in
  (* Load raw *)
  do sales <- read_csv (sales_csv files) "sales.csv" ;
  do expenses <- read_csv (expenses_csv files) "expenses.csv" ;
  do payroll <- read_csv (payroll_csv files) "payroll.csv" ;
  do inventory <- read_csv (inventory_movements_csv files) "inventory_movements.csv" ;
  do fx_rates <- read_csv (fx_rates_csv files) "fx_rates.csv" ;
  (* Validate raw + collect DQ issues *)
  let issues : list (list quality.DqIssue) := [] in
  let allowed := config.allowed_currencies settings in
  let '(v_sales, issues) :=
    quality.validate_or_collect sales (quality.sales_schema allowed) "sales" issues in
  let '(v_exp, issues) :=
    quality.validate_or_collect expenses (quality.expenses_schema allowed) "expenses" issues in
  let '(v_pay, issues) :=
    quality.validate_or_collect payroll (quality.payroll_schema allowed) "payroll" issues in
  let '(v_inv, issues) :=
    quality.validate_or_collect inventory (quality.inventory_schema allowed)
      "inventory_movements" issues in
  let '(v_fx, issues) :=
    quality.validate_or_collect fx_rates
      (quality.fx_schema allowed (config.base_currency settings)) "fx_rates" issues in
  (if negb (is_nil issues) then
     let dq_exceptions := _tag_severity (List.concat issues) in
     write_csv (dq_exceptions_csv dq_exceptions) ;;;
     let summary := summarize dq_exceptions in
     write_csv (dq_summary_csv (dq.SummaryCounts summary)) ;;;
     let fail_on := Str.strip (Str.upper fail_on) in
     if negb (existsb (String.eqb fail_on) ["ERROR"; "WARN"; "NEVER"]) then
       raise py.ValueError_fail_on
     else if String.eqb fail_on "WARN" then
       raise (py.ValueError_DQ "WARN+ERROR")
     else if String.eqb fail_on "ERROR"
             && existsb (fun x => String.eqb (dq.severity x) "ERROR") dq_exceptions then
       raise (py.ValueError_DQ "ERROR")
     else
       (* NEVER, or only WARNs and fail_on=ERROR: continue *)
       ret tt
   else
     (* If all passed, write empty reports *)
     write_csv (dq_exceptions_csv []) ;;;
     write_csv (dq_summary_csv (dq.SummaryPass "PASS" month))) ;;;
  (* Filter to month window *)
  do window <- lift (_month_window month) ;
  let (start, end_) := window in
  do v_sales <- lift (subscript v_sales typed.sale) ;
  let v_sales := filter (fun r => in_window start end_ (Sale.date r)) v_sales in
  do v_exp <- lift (subscript v_exp typed.expense) ;
  let v_exp := filter (fun r => in_window start end_ (Expense.date r)) v_exp in
  do v_inv <- lift (subscript v_inv typed.inventory) ;
  let v_inv := filter (fun r => in_window start end_ (Inventory.date r)) v_inv in
  do v_pay <- lift (subscript v_pay typed.payroll) ;
  let v_pay := filter (fun r => String.eqb (Payroll.month r) month) v_pay in
  do v_fx <- lift (copy_fx v_fx) ;
  let fx := transform.fx_to_base v_fx (config.base_currency settings) in
  do fact <- lift (transform.to_fact_transactions v_sales v_exp v_pay v_inv fx
                     (config.base_currency settings)) ;
  let kpi := transform.kpi_monthly fact dim_accounts in
  write_parquet (fact_transactions_parquet fact) ;;;
  write_parquet (dim_accounts_parquet dim_accounts) ;;;
  write_parquet (kpi_monthly_parquet kpi) ;;;
  ret outputs.

End pipeline.

(* ------------------------------------------------------------------ *)
(** * cli.py *)

Module cli.
Import io_utils.

(** The content of [dq_summary.csv] in the curated directory: what was
    written to it last, [None] when the file does not exist. *)
Definition dq_summary_file (w : list Artifact) : option dq.Summary :=
  fold_left (fun acc a => match a with
                          | dq_summary_csv s => Some s
                          | _ => acc
                          end) w None.

(** [_print_dq_summary]: the texts passed to [rprint], in order. *)
Definition _print_dq_summary (file : option dq.Summary) : list string :=
  match file with
  | None => []
  | Some (dq.SummaryPass status _) => ["[bold green]DQ status:[/bold green] " ++ status]
  | Some (dq.SummaryCounts []) => ["[bold green]DQ summary:[/bold green] no issues"]
  | Some (dq.SummaryCounts rows) =>
      "[bold yellow]DQ summary (issues):[/bold yellow]"
      :: map (fun r : string * string * nat =>
                let '(dataset, severity, issue_count) := r in
                " - " ++ dataset ++ " | " ++ severity ++ " | " ++ Str.of_nat issue_count)
             rows
  end.

(** The file each output of [run_month] names. *)
Definition output_file (k : string) : string :=
  if String.eqb k "dq_exceptions" then "dq_exceptions.csv"
  else if String.eqb k "dq_summary" then "dq_summary.csv"
  else if String.eqb k "fact" then "fact_transactions.parquet"
  else if String.eqb k "dim_accounts" then "dim_accounts.parquet"
  else "kpi_monthly.parquet".

(** The line printed for an output; [curated] prints the path of a file of
    the curated directory. *)
Definition output_line (curated : string -> string) (k : string) : string :=
  " - " ++ k ++ ": " ++ curated (output_file k).

(** The command [run].  The value is the list of the texts printed. *)
Definition run (curated : string -> string) (month : string) (files : Files)
    (fail_on : string) : IO (list string) :=
  do outputs <- pipeline.run_month config.settings month files fail_on ;
  fun w =>
    (w, py.Ok (_print_dq_summary (dq_summary_file w)
               ++ ["[bold green]ETL complete[/bold green]"]
               ++ map (output_line curated) outputs)%list).

End cli.

(* ================================================================== *)
(** * Vocabulary of the properties *)

(* ------------------------------------------------------------------ *)
(** ** Amounts rounded to the cent *)

Module cents.



End cents.

(* ------------------------------------------------------------------ *)
(** ** Currency conversion, row by row *)

Module conversion.
Import transform.

(** The row [add_fx_amount_base] starts from. *)
Definition rated0 (r : Txn.t) : Rated :=
  mkRated r (ts_date (Txn.date r)) (Some 1%Q) None.

Definition is_foreign (base : string) (r : Txn.t) : bool :=
  negb (String.eqb (Txn.currency r) base).

(** The FX rows for the exact (date, currency) of a record. *)
Definition fx_rows_for (fx : list Fx.t) (r : Txn.t) : list Fx.t :=
  filter (fx_matches (rated0 r)) fx.

Definition rate_fx_for (fx : list Fx.t) (r : Txn.t) : Num.float :=
  match fx_rows_for fx r with
  | [] => None
  | f :: _ => Some (Fx.rate f)
  end.

(** The rate a record is converted at: 1 in the base currency, the rate of
    its FX row otherwise, NaN when there is none. *)
Definition rate_for (fx : list Fx.t) (base : string) (r : Txn.t) : Num.float :=
  if is_foreign base r then rate_fx_for fx r else Some 1%Q.

(** A record lacks a rate: its currency is not the base currency and no FX
    row has its date and currency. *)
Definition lacks_rate (fx : list Fx.t) (base : string) (r : Txn.t) : bool :=
  is_foreign base r && negb (existsb (fx_matches (rated0 r)) fx).

Definition key_of (r : Txn.t) : Date * string := (ts_date (Txn.date r), Txn.currency r).

(** Two FX rows for the same (date, from_currency). *)
Definition same_key (f g : Fx.t) : bool :=
  Cal.date_eqb (Fx.date f) (Fx.date g)
  && String.eqb (Fx.from_currency f) (Fx.from_currency g).

(** Every (date, from_currency) pair occurs at most once in the lookup. *)
Fixpoint keys_unique (fx : list Fx.t) : bool :=
  match fx with
  | [] => true
  | f :: r => negb (existsb (same_key f) r) && keys_unique r
  end.

(** No record of the batch has its (date, currency) on two FX rows or
    more: the merge keeps the number of rows. *)
Definition single_match (fx : list Fx.t) (df : list Txn.t) : bool :=
  forallb (fun r => (List.length (fx_rows_for fx r) <=? 1)%nat) df.

Definition convert (r : Txn.t) (q : Q) : Conv.t :=
  Conv.mk r q (Num.round2 (Txn.amount r * q)).

(** The merge, on the rows conversion starts from. *)
Definition merged_rows (fx : list Fx.t) (r : Txn.t) : list Rated :=
  match fx_rows_for fx r with
  | [] => [mkRated r (ts_date (Txn.date r)) (Some 1%Q) None]
  | ms => map (fun f => mkRated r (ts_date (Txn.date r)) (Some 1%Q) (Some (Fx.rate f))) ms
  end.

(** The frame after the rates were assigned: the rows of [df], in order,
    each with the rate [rate_for] gives it. *)
Definition rated_rows (fx : list Fx.t) (base : string) (df : list Txn.t) : list Rated :=
  map (fun r => mkRated r (ts_date (Txn.date r)) (rate_for fx base r)
                        (if existsb (is_foreign base) df then rate_fx_for fx r else None))
      df.

(** The last step of the conversion, on the rated rows. *)
Definition finish (out : list Rated) : py.result (list Conv.t) :=
  match with_amount_base out with
  | None => py.Raise (py.ValueError_MissingFx (pd.repr_rows (missing_pairs out)))
  | Some l => py.Ok l
  end.

(** The distinct (date, currency) pairs of the records that lack a rate, in
    the order they first occur. *)
Definition missing_of (fx : list Fx.t) (base : string) (df : list Txn.t)
  : list (Date * string) :=
  drop_duplicates pair_eqb [] (map key_of (filter (lacks_rate fx base) df)).

End conversion.

(* ------------------------------------------------------------------ *)
(** ** The ledger records of the payroll rows *)

Module unifier.
Import transform.




End unifier.

(* ------------------------------------------------------------------ *)
(** ** Classified ledger records *)

Module aggregation.
Import transform.

Definition classified (k : kpi_key) : bool :=
  match k with (_, _, Some _) => true | _ => false end.

Definition in_chart (dim_accounts : list Account.t) (f : Fact.t) : bool :=
  existsb (fun a => String.eqb (Txn.account_code (Fact.txn f)) (Account.account_code a))
          dim_accounts.

End aggregation.

(* ------------------------------------------------------------------ *)
(** ** The orchestrator, phase by phase *)

Module run.
Import io_utils pipeline.

(** What [validate_or_collect] returns for a batch, and the issue frame it
    appends. *)
Definition valid_frame (schema : pa.DataFrameSchema) (df : pd.DataFrame)
  : option pd.DataFrame :=
  match pa.validate schema df with
  | pa.Valid df' => Some df'
  | pa.SchemaErrors _ => None
  end.

Definition batch_issues (name : string) (schema : pa.DataFrameSchema) (df : pd.DataFrame)
  : list (list quality.DqIssue) :=
  match pa.validate schema df with
  | pa.Valid _ => []
  | pa.SchemaErrors fcs => [map (quality.issue_of name) fcs]
  end.

Section Run.
Variables (settings : config.Settings) (month : string).
Variables (coa : list Coa.t) (sales expenses payroll inventory fx_rates : pd.DataFrame).

Let allowed := config.allowed_currencies settings.
Let base := config.base_currency settings.

(** The raw and reference directories with every file present. *)
Definition files : Files :=
  mkFiles (Some coa) (Some sales) (Some expenses) (Some payroll) (Some inventory)
          (Some fx_rates).

(** The issue frames of the run, in the order the batches are validated. *)
Definition issues : list (list quality.DqIssue) :=
  (batch_issues "sales" (quality.sales_schema allowed) sales
   ++ batch_issues "expenses" (quality.expenses_schema allowed) expenses
   ++ batch_issues "payroll" (quality.payroll_schema allowed) payroll
   ++ batch_issues "inventory_movements" (quality.inventory_schema allowed) inventory
   ++ batch_issues "fx_rates" (quality.fx_schema allowed base) fx_rates)%list.

Definition dq_exceptions : list dq.DqException := _tag_severity (List.concat issues).

(** The DQ reports written when there are issues. *)
Definition dq_reports : list Artifact :=
  [dq_exceptions_csv dq_exceptions;
   dq_summary_csv (dq.SummaryCounts (summarize dq_exceptions))].

(** The reports and the threshold: the branch [if issues: ... else: ...]. *)
Definition dq_phase (fail_on : string) : IO unit :=
  if negb (is_nil issues) then
    write_csv (dq_exceptions_csv dq_exceptions) ;;;
    write_csv (dq_summary_csv (dq.SummaryCounts (summarize dq_exceptions))) ;;;
    let fail_on := Str.strip (Str.upper fail_on) in
    if negb (existsb (String.eqb fail_on) ["ERROR"; "WARN"; "NEVER"]) then
      raise py.ValueError_fail_on
    else if String.eqb fail_on "WARN" then
      raise (py.ValueError_DQ "WARN+ERROR")
    else if String.eqb fail_on "ERROR"
            && existsb (fun x => String.eqb (dq.severity x) "ERROR") dq_exceptions then
      raise (py.ValueError_DQ "ERROR")
    else ret tt
  else
    write_csv (dq_exceptions_csv []) ;;;
    write_csv (dq_summary_csv (dq.SummaryPass "PASS" month)).

(** From the month window to the curated files. *)
Definition curate (v_sales v_exp v_pay v_inv v_fx : option pd.DataFrame)
  : IO (list string) :=
  do window <- lift (_month_window month) ;
  let (start, end_) := window in
  do v_sales <- lift (subscript v_sales typed.sale) ;
  let v_sales := filter (fun r => in_window start end_ (Sale.date r)) v_sales in
  do v_exp <- lift (subscript v_exp typed.expense) ;
  let v_exp := filter (fun r => in_window start end_ (Expense.date r)) v_exp in
  do v_inv <- lift (subscript v_inv typed.inventory) ;
  let v_inv := filter (fun r => in_window start end_ (Inventory.date r)) v_inv in
  do v_pay <- lift (subscript v_pay typed.payroll) ;
  let v_pay := filter (fun r => String.eqb (Payroll.month r) month) v_pay in
  do v_fx <- lift (copy_fx v_fx) ;
  let fx := transform.fx_to_base v_fx base in
  do fact <- lift (transform.to_fact_transactions v_sales v_exp v_pay v_inv fx base) ;
  let kpi := transform.kpi_monthly fact (transform.build_dim_accounts coa) in
  write_parquet (fact_transactions_parquet fact) ;;;
  write_parquet (dim_accounts_parquet (transform.build_dim_accounts coa)) ;;;
  write_parquet (kpi_monthly_parquet kpi) ;;;
  ret outputs.

(** The threshold decision, on the normalised [fail_on]. *)
Definition threshold (fail_on : string) : py.result unit :=
  let fail_on := Str.strip (Str.upper fail_on) in
  if negb (existsb (String.eqb fail_on) ["ERROR"; "WARN"; "NEVER"]) then
    py.Raise py.ValueError_fail_on
  else if String.eqb fail_on "WARN" then
    py.Raise (py.ValueError_DQ "WARN+ERROR")
  else if String.eqb fail_on "ERROR"
          && existsb (fun x => String.eqb (dq.severity x) "ERROR") dq_exceptions then
    py.Raise (py.ValueError_DQ "ERROR")
  else py.Ok tt.

End Run.
End run.

(* ------------------------------------------------------------------ *)
(** ** The issue of a failed whole-table check *)

Module empty_batch.

(** The issue a failed whole-table check is reported as. *)
Definition table_issue (dataset check : string) : quality.DqIssue :=
  quality.mkDqIssue dataset None None check (pd.VBool false) "DataFrameSchema".

End empty_batch.

(* ------------------------------------------------------------------ *)
(** ** The keys of the FX rows *)

Module fx_key.

(** A group of two rows or more. *)
Definition big {K V : Type} (g : K * list V) : Prop := (2 <= List.length (snd g))%nat.

Definition fx_keys : list string := ["date"; "from_currency"; "to_currency"].

Definition key_cells (r : FxRate.t) : list pd.cell :=
  [pd.VTime (FxRate.date r); pd.VStr (FxRate.from_currency r);
   pd.VStr (FxRate.to_currency r)].

Definition same_triple (a b : FxRate.t) : bool :=
  Cal.ts_eqb (FxRate.date a) (FxRate.date b)
  && String.eqb (FxRate.from_currency a) (FxRate.from_currency b)
  && String.eqb (FxRate.to_currency a) (FxRate.to_currency b).

End fx_key.

(* ------------------------------------------------------------------ *)
(** ** The keys of the duplicate-key check *)

Module dup_key.

(** The frame has every key column. *)
Definition has_columns (df : pd.DataFrame) (keys : list string) : bool :=
  forallb (fun k => existsb (String.eqb k) (pd.columns df)) keys.

(** The keys [groupby(keys)] groups: one per row, in row order, the rows
    with a missing key value left out. *)
Definition keyed_rows (df : pd.DataFrame) (keys : list string) : list (list pd.cell) :=
  flat_map (fun row =>
    match pd.row_key (pd.columns df) row keys with
    | Some k => if existsb pd.isna k then [] else [k]
    | None => []
    end) (pd.rows df).

(** No two keys of the list are equal. *)
Definition distinct_keys (ks : list (list pd.cell)) : Prop :=
  ForallOrdPairs (fun a b => pd.keys_eqb a b = false) ks.

End dup_key.

(* ------------------------------------------------------------------ *)
(** ** What the schemas say of a row *)

Module schema_rows.

Definition same_invoice (a b : Sale.t) : bool :=
  String.eqb (Sale.entity a) (Sale.entity b)
  && String.eqb (Sale.invoice_id a) (Sale.invoice_id b).

Definition same_bill (a b : Expense.t) : bool :=
  String.eqb (Expense.entity a) (Expense.entity b)
  && String.eqb (Expense.bill_id a) (Expense.bill_id b).

(** What the column checks of each schema say of a row. *)
Definition sale_ok (allowed : list string) (s : Sale.t) : Prop :=
  (0 < Sale.amount s)%Q /\ In (Sale.currency s) allowed.

Definition expense_ok (allowed : list string) (e : Expense.t) : Prop :=
  (0 < Expense.amount e)%Q /\ In (Expense.currency e) allowed.

Definition payroll_ok (allowed : list string) (p : Payroll.t) : Prop :=
  (0 <= Payroll.gross p)%Q /\ (0 <= Payroll.deductions p)%Q /\ (0 <= Payroll.net p)%Q
  /\ In (Payroll.currency p) allowed.

Definition inventory_ok (allowed : list string) (i : Inventory.t) : Prop :=
  In (Inventory.movement_type i) ["receipt"; "issue"; "adjustment"]
  /\ ~ (Inventory.qty i == 0)%Q /\ (0 <= Inventory.unit_cost i)%Q
  /\ In (Inventory.currency i) allowed.

Definition fx_ok (allowed : list string) (base : string) (r : FxRate.t) : Prop :=
  (0 < FxRate.rate r)%Q /\ FxRate.to_currency r = base
  /\ In (FxRate.from_currency r) allowed.

(** A row of the FX frame, its date cut to the calendar day. *)
Definition fx_day (r : FxRate.t) : Fx.t :=
  Fx.mk (ts_date (FxRate.date r)) (FxRate.from_currency r) (FxRate.to_currency r)
        (FxRate.rate r).

End schema_rows.

(* ------------------------------------------------------------------ *)
(** ** The schemas, orders and the ledger *)

Module schemas.

(** The five schemas of [quality.py]. *)
Definition all (allowed : list string) (base : string) : list pa.DataFrameSchema :=
  [quality.sales_schema allowed; quality.expenses_schema allowed;
   quality.payroll_schema allowed; quality.inventory_schema allowed;
   quality.fx_schema allowed base].

End schemas.

Module ordering.

(** Every row is at most the next one. *)
Fixpoint is_sorted {A} (le : A -> A -> bool) (l : list A) : bool :=
  match l with
  | [] => true
  | x :: r => match r with
              | [] => true
              | y :: _ => le x y && is_sorted le r
              end
  end.

End ordering.

Module ledger.






End ledger.

(* ------------------------------------------------------------------ *)
(** ** Groups and the DQ summary *)

Module grouping.

(** The values of the rows under a key, in row order. *)
Definition values {K V : Type} (eqb : K -> K -> bool) (k : K) (kvs : list (K * V)) : list V :=
  map snd (filter (fun kv => eqb k (fst kv)) kvs).

(** The groups of [groupby]: one per key that occurs, holding the values
    of the rows under that key, in row order. *)
Definition grouped {K V : Type} (eqb : K -> K -> bool) (kvs : list (K * V))
    (gs : list (K * list V)) : Prop :=
  NoDup (map fst gs)
  /\ forall k vs, In (k, vs) gs <-> vs = values eqb k kvs /\ vs <> [].

(** The number of rows in the groups. *)
Definition total {K V : Type} (gs : list (K * list V)) : nat :=
  list_sum (map (fun g => List.length (snd g)) gs).

End grouping.

Module dq_summary.

(** The number of exceptions of a dataset at a severity. *)
Definition count (dataset severity : string) (xs : list dq.DqException) : nat :=
  List.length (filter (fun x => String.eqb dataset (quality.dataset (dq.issue x))
                                && String.eqb severity (dq.severity x)) xs).

End dq_summary.

(* ------------------------------------------------------------------ *)
(** ** The cells of the KPI table *)

Module kpi_cells.
Import transform.

(** The key a joined ledger record is grouped under. *)
Definition key_of (ft : Fact.t * option string) : kpi_key :=
  (Txn.entity (Fact.txn (fst ft)),
   Cal.period_M (ts_date (Txn.date (Fact.txn (fst ft)))),
   snd ft).

(** The base amounts of the joined records of an entity, a month and an
    account type, in ledger order. *)
Definition amounts (df : list (Fact.t * option string)) (e m t : string) : list Q :=
  map (fun ft => Fact.amount_base (fst ft))
      (filter (fun ft => kpi_key_eqb (e, m, Some t) (key_of ft)) df).

Definition row_key (k : Kpi.t) : string * string := (Kpi.entity k, Kpi.month k).

(** The row of the KPI table, from the row of the pivot table. *)
Definition kpi_row (r : string * string * list (string * Q)) : Kpi.t :=
  let '(e, m, by_type) := r in
  let by_type := fold_left (fun acc col => add_default col acc)
                   ["Revenue"; "COGS"; "Expense"] by_type in
  let gross_profit :=
    Num.round2 (col_value "Revenue" by_type + col_value "COGS" by_type) in
  let operating_profit :=
    Num.round2 (gross_profit + col_value "Expense" by_type) in
  Kpi.mk e m by_type gross_profit operating_profit.

(** The values [pivot_table] averages in the cell of a row and a column. *)
Definition cell_values (kept : list (string * string * string * Q)) (em : string * string)
    (c : string) : list Q :=
  flat_map (fun r : string * string * string * Q =>
              let '(e, m, t, v) := r in
              if index_eqb (e, m) em && String.eqb t c then [v] else [])
           kept.

(** The profit columns of a row, from its account-type columns. *)
Definition profits_ok (k : Kpi.t) : Prop :=
  Kpi.gross_profit k
  = Num.round2 (col_value "Revenue" (Kpi.by_type k) + col_value "COGS" (Kpi.by_type k))
  /\ Kpi.operating_profit k
     = Num.round2 (Kpi.gross_profit k + col_value "Expense" (Kpi.by_type k)).

End kpi_cells.

(* ------------------------------------------------------------------ *)
(** ** The month window *)

Module window.

(** A timestamp pandas can hold: a month from 1 to 12, a day from 1 on,
    a time of day that is not negative. *)
Definition well_formed (t : Timestamp) : Prop :=
  1 <= month (ts_date t) <= 12 /\ 1 <= day (ts_date t) /\ 0 <= ts_time t.

Definition digits : list ascii :=
  ["0"; "1"; "2"; "3"; "4"; "5"; "6"; "7"; "8"; "9"]%char.

(** A month written [YYYY-MM], the form the command line asks for, with a
    month from 01 to 12 and a year pandas timestamps can hold. *)
Definition canonical (s : string) : bool :=
  match list_ascii_of_string s with
  | [y1; y2; y3; y4; h; m1; m2] =>
      Ascii.eqb h "-"
      && forallb Str.is_digit [y1; y2; y3; y4; m1; m2]
      && (1678 <=? Cal.digits_val [y1; y2; y3; y4])
      && (Cal.digits_val [y1; y2; y3; y4] <=? 2261)
      && (1 <=? Cal.digits_val [m1; m2]) && (Cal.digits_val [m1; m2] <=? 12)
  | _ => false
  end.

End window.

(* ------------------------------------------------------------------ *)
(** ** The files of a run *)

Module curated.
Import io_utils.

(** The first input file that does not exist, in the order [run_month]
    loads them. *)
Definition first_missing (files : Files) : option string :=
  match chart_of_accounts_csv files with
  | None => Some "chart_of_accounts.csv"
  | Some _ =>
  match sales_csv files with
  | None => Some "sales.csv"
  | Some _ =>
  match expenses_csv files with
  | None => Some "expenses.csv"
  | Some _ =>
  match payroll_csv files with
  | None => Some "payroll.csv"
  | Some _ =>
  match inventory_movements_csv files with
  | None => Some "inventory_movements.csv"
  | Some _ =>
  match fx_rates_csv files with
  | None => Some "fx_rates.csv"
  | Some _ => None
  end end end end end end.

(** The ledger among the files written. *)
Definition ledger (w : list Artifact) : list Fact.t :=
  flat_map (fun a => match a with
                     | fact_transactions_parquet rows => rows
                     | _ => []
                     end) w.

Definition cell_ok (c : pd.cell) : Prop :=
  match c with
  | pd.VTime t => window.well_formed t
  | _ => True
  end.

(** Every timestamp of the file is one pandas can hold. *)
Definition frame_ok (file : option pd.DataFrame) : Prop :=
  match file with
  | Some df => Forall (Forall cell_ok) (pd.rows df)
  | None => True
  end.

End curated.

(* ------------------------------------------------------------------ *)
(** ** Severities of the schema checks *)

Module severity.

(** The names under which a failure of the column type is reported: the
    type check, and the coercion before it when the column is coerced. *)
Definition dtype_checks (col : pa.Column) : list string :=
  let d := "dtype('" ++ pa.dtype_name (pa.col_dtype col) ++ "')" in
  if pa.coerce col then ["coerce_" ++ d; d] else [d].

(** Every check name a validation against the schema can report. *)
Definition check_names (s : pa.DataFrameSchema) : list string :=
  ("column_in_schema"
   :: flat_map (fun nc : string * pa.Column =>
                  "column_in_dataframe"
                  :: dtype_checks (snd nc) ++ "not_nullable"
                  :: map pa.check_name (pa.checks (snd nc)))
               (pa.columns s)
   ++ map pa.error (pa.frame_checks s))%list.

(** The severity [_tag_severity] gives to a check text. *)
Definition of_check (check : string) : string :=
  if existsb (fun p => Str.contains (Str.lower p) (Str.lower check)) pipeline.critical_checks
  then "ERROR" else "WARN".

(** The checks of the five schemas that are tagged ERROR. *)
Definition blocking : list string :=
  ["coerce_dtype('datetime64[ns]')"; "dtype('datetime64[ns]')";
   "coerce_dtype('float64')"; "dtype('float64')"; "dtype('str')";
   "Duplicates found for keys ['entity', 'invoice_id'] in sales";
   "Duplicates found for keys ['entity', 'bill_id'] in expenses";
   "Duplicates found for keys ['date', 'from_currency', 'to_currency'] in fx_rates";
   "Payroll identity gross - deductions = net violated"].

Definition expected (check : string) : string :=
  if existsb (String.eqb check) blocking then "ERROR" else "WARN".

(** The failure case of the duplicated invoice of [sales_frame_dup]. *)
Definition dup_failure : pa.FailureCase :=
  pa.mkFailureCase "DataFrameSchema" None
    "Duplicates found for keys ['entity', 'invoice_id'] in sales" (pd.VBool false) None.

(** The failure case of a rate column that was not coerced to numbers. *)
Definition dtype_failure : pa.FailureCase :=
  pa.mkFailureCase "Column" (Some "rate") "dtype('float64')" (pd.VStr "object") None.

End severity.

(* ------------------------------------------------------------------ *)
(** ** Sample inputs *)

Definition sales_columns : list string :=
  ["date"; "entity"; "invoice_id"; "account_code"; "currency"; "amount"; "description"].

Definition sales_frame_1 : pd.DataFrame :=
  pd.mkDataFrame sales_columns
    [ [pd.VTime (Cal.midnight (mkDate 2025 12 5)); pd.VStr "TLM"; pd.VStr "INV-0001";
       pd.VStr "40000001"; pd.VStr "USD"; pd.VNum 1000; pd.VStr "Synthetic sale"] ].

Definition txn_usd : Txn.t :=
  Txn.mk (Cal.midnight (mkDate 2025 12 5)) "TLM" "sales" "INV-0001" "40000001" "USD"
         1000 None.

Definition txn_eur : Txn.t :=
  Txn.mk (Cal.midnight (mkDate 2025 12 5)) "TLM" "expenses" "BILL-0001" "62000001" "EUR"
         (-100) None.


Definition fx_eur : Fx.t := Fx.mk (mkDate 2025 12 5) "EUR" "USD" (11 # 10).
Definition fx_tzs : Fx.t := Fx.mk (mkDate 2025 12 6) "TZS" "USD" (4 # 10000).






Definition payroll_dec : Payroll.t :=
  Payroll.mk "2025-12" "TLM" "EMP-001" "USD" 1000 100 900.





Definition fact_revenue : Fact.t :=
  Fact.mk "TLM|sales|INV-0001"
    (Txn.mk (Cal.midnight (mkDate 2025 12 5)) "TLM" "sales" "INV-0001" "40000001" "USD"
            1000 (Some "Synthetic sale"))
    1 1000.

Definition fact_unclassified : Fact.t :=
  Fact.mk "TLM|expenses|BILL-0007"
    (Txn.mk (Cal.midnight (mkDate 2025 12 9)) "TLM" "expenses" "BILL-0007" "99999999" "USD"
            (-100) None)
    1 (-100).

Definition dim_revenue : list Account.t :=
  [Account.mk "40000001" (Some "Sales") (Some "Revenue");
   Account.mk "62000001" (Some "Rent") (Some "Expense")].

Definition expenses_columns : list string :=
  ["date"; "entity"; "bill_id"; "account_code"; "currency"; "amount"; "description"].
Definition payroll_columns : list string :=
  ["month"; "entity"; "employee_id"; "currency"; "gross"; "deductions"; "net"].
Definition inventory_columns : list string :=
  ["date"; "entity"; "sku"; "movement_type"; "qty"; "unit_cost"; "currency"].
Definition fx_columns : list string :=
  ["date"; "from_currency"; "to_currency"; "rate"].

Definition dec_5 : Timestamp := Cal.midnight (mkDate 2025 12 5).

Definition expenses_frame_1 : pd.DataFrame :=
  pd.mkDataFrame expenses_columns
    [ [pd.VTime dec_5; pd.VStr "TLM"; pd.VStr "BILL-0001"; pd.VStr "62000001";
       pd.VStr "EUR"; pd.VNum 100; pd.NaN] ].

Definition payroll_frame_1 : pd.DataFrame :=
  pd.mkDataFrame payroll_columns
    [ [pd.VStr "2025-12"; pd.VStr "TLM"; pd.VStr "EMP-001"; pd.VStr "USD";
       pd.VNum 1000; pd.VNum 100; pd.VNum 900] ].


Definition inventory_frame_1 : pd.DataFrame :=
  pd.mkDataFrame inventory_columns
    [ [pd.VTime dec_5; pd.VStr "TLM"; pd.VStr "HONEY-DRUM"; pd.VStr "issue";
       pd.VNum 2; pd.VNum (5 # 2); pd.VStr "USD"] ].

Definition fx_frame_1 : pd.DataFrame :=
  pd.mkDataFrame fx_columns
    [ [pd.VTime dec_5; pd.VStr "EUR"; pd.VStr "USD"; pd.VNum (11 # 10)] ].

Definition chart_1 : list Coa.t :=
  [ Coa.mk (Some "40000001") (Some "Sales") (Some "Revenue");
    Coa.mk (Some "50000001") (Some "Cost of goods sold") (Some "COGS");
    Coa.mk (Some "61000001") (Some "Payroll") (Some "Expense");
    Coa.mk (Some "62000001") (Some "Rent") (Some "Expense") ].

(** A sales batch in which an invoice id occurs twice for one entity. *)
Definition sales_frame_dup : pd.DataFrame :=
  pd.mkDataFrame sales_columns
    [ [pd.VTime dec_5; pd.VStr "TLM"; pd.VStr "INV-0001"; pd.VStr "40000001";
       pd.VStr "USD"; pd.VNum 1000; pd.VStr "Synthetic sale"];
      [pd.VTime dec_5; pd.VStr "TLM"; pd.VStr "INV-0001"; pd.VStr "40000001";
       pd.VStr "USD"; pd.VNum 250; pd.VStr "Synthetic sale"] ].

(** A sales batch whose second row has no entity. *)
Definition sales_frame_null : pd.DataFrame :=
  pd.mkDataFrame sales_columns
    [ [pd.VTime dec_5; pd.VStr "TLM"; pd.VStr "INV-0001"; pd.VStr "40000001";
       pd.VStr "USD"; pd.VNum 1000; pd.VStr "Synthetic sale"];
      [pd.VTime dec_5; pd.NaN; pd.VStr "INV-0002"; pd.VStr "40000001";
       pd.VStr "USD"; pd.VNum 250; pd.VStr "Synthetic sale"] ].

Definition files_with (sales : pd.DataFrame) : io_utils.Files :=
  run.files chart_1 sales expenses_frame_1 payroll_frame_1 inventory_frame_1 fx_frame_1.

(** An expenses batch whose second bill is under an account code that the
    chart does not list. *)
Definition expenses_frame_unclassified : pd.DataFrame :=
  pd.mkDataFrame expenses_columns
    [ [pd.VTime dec_5; pd.VStr "TLM"; pd.VStr "BILL-0001"; pd.VStr "62000001";
       pd.VStr "USD"; pd.VNum 100; pd.NaN];
      [pd.VTime dec_5; pd.VStr "TLM"; pd.VStr "BILL-0007"; pd.VStr "99999999";
       pd.VStr "USD"; pd.VNum 40; pd.NaN] ].

(** The rows of the KPI table and the base amounts of the ledger among the
    files written. *)
Definition kpi_written (w : list io_utils.Artifact) : list Kpi.t :=
  flat_map (fun a => match a with
                     | io_utils.kpi_monthly_parquet rows => rows
                     | _ => []
                     end) w.

Definition ledger_written (w : list io_utils.Artifact) : list (string * Q) :=
  flat_map (fun a => match a with
                     | io_utils.fact_transactions_parquet rows =>
                         map (fun f => (Fact.txn_id f, Fact.amount_base f)) rows
                     | _ => []
                     end) w.







Definition sample_sale : Sale.t :=
  Sale.mk dec_5 "TLM" "INV-0001" "40000001" "USD" 1000 (Some "Synthetic sale").

Definition sample_expense : Expense.t :=
  Expense.mk dec_5 "TLM" "BILL-0001" "62000001" "EUR" 100 None.

(** The ledger of a sample batch. *)
Definition sample_ledger : list Fact.t :=
  Eval vm_compute in
    match transform.to_fact_transactions [sample_sale] [sample_expense] [payroll_dec] []
            [fx_eur] "USD" with
    | py.Ok l => l
    | py.Raise _ => []
    end.



Definition sample_kpi : Kpi.t :=
  Kpi.mk "TLM" "2025-12" [("Revenue", 1000%Q); ("COGS", 0%Q); ("Expense", 0%Q)]
         (100000 # 100) (100000 # 100).

(* ================================================================== *)
(** * Properties *)

(* ------------------------------------------------------------------ *)
(** ** The embedding at work *)

Example upper_strip_never : Str.strip (Str.upper "  never ") = "NEVER".
Proof. reflexivity. Qed.

Example contains_dtype : Str.contains "dtype" "coerce_dtype('float64')" = true.
Proof. reflexivity. Qed.

Example of_Z_2025 : Str.of_Z 2025 = "2025".
Proof. reflexivity. Qed.

Example pad0_month : Str.pad0 2 (Str.of_Z 3) = "03".
Proof. reflexivity. Qed.

Example round2_down : Num.round2 (1234 # 1000) = (123 # 100)%Q.
Proof. reflexivity. Qed.

Example round2_up : Num.round2 (1236 # 1000) = (124 # 100)%Q.
Proof. reflexivity. Qed.

Example round2_neg : Num.round2 (- (900005 # 1000)) = (- (90000 # 100))%Q.
Proof. reflexivity. Qed.

Example to_datetime_dec : Cal.to_datetime "2025-12-01" = Some (Cal.midnight (mkDate 2025 12 1)).
Proof. reflexivity. Qed.

Example month_end_feb_leap :
  option_map Cal.month_end_0 (Cal.to_datetime "2024-02-01")
  = Some (Cal.midnight (mkDate 2024 2 29)).
Proof. reflexivity. Qed.

Example period_M_jan : Cal.period_M (mkDate 2025 1 9) = "2025-01".
Proof. reflexivity. Qed.

Example sales_frame_1_valid :
  pa.validate (quality.sales_schema ["USD"; "TZS"; "EUR"]) sales_frame_1
  = pa.Valid sales_frame_1.
Proof. reflexivity. Qed.

(* ------------------------------------------------------------------ *)
(** ** Basic facts: keys, rounding, lists *)

Module facts.

Lemma date_eqb_eq (a b : Date) : Cal.date_eqb a b = true <-> a = b.
Proof.
  destruct a as [y1 m1 d1], b as [y2 m2 d2]. unfold Cal.date_eqb. simpl.
  rewrite !andb_true_iff, !Z.eqb_eq. split.
  - intros [[-> ->] ->]. reflexivity.
  - intros H. injection H as -> -> ->. auto.
Qed.

Lemma date_eqb_refl (a : Date) : Cal.date_eqb a a = true.
Proof. apply date_eqb_eq. reflexivity. Qed.


(** A rational that equals the integer [k] rounds to [k]. *)
Lemma rint_integer (x : Q) (k : Z) : (x == inject_Z k)%Q -> Num.rint x = k.
Proof.
  destruct x as [n d]. unfold Qeq, Num.rint. simpl. intros H.
  rewrite Z.mul_1_r in H. subst n.
  rewrite Z.div_mul by discriminate.
  rewrite Z.mod_mul by discriminate.
  simpl. reflexivity.
Qed.

(** Rounding to two decimals leaves a whole number of cents unchanged. *)
Lemma round2_cents (x : Q) (k : Z) : (x == k # 100)%Q -> (Num.round2 x == x)%Q.
Proof.
  intros H. unfold Num.round2.
  rewrite (rint_integer (x * 100) k).
  - symmetry. exact H.
  - rewrite H. unfold Qeq. simpl. lia.
Qed.







(** Sorting the failure cases loses none and adds none. *)
Lemma in_failure_cases (s : pa.DataFrameSchema) (df : pd.DataFrame) (fc : pa.FailureCase) :
  In fc (pa.failure_cases s df) <-> In fc (pa.collected s df).
Proof.
  unfold pa.failure_cases. cbv zeta. rewrite in_app_iff, !filter_In.
  destruct (pa.table_level fc); simpl; intuition congruence.
Qed.

Lemma failure_cases_nil (s : pa.DataFrameSchema) (df : pd.DataFrame) :
  pa.failure_cases s df = [] <-> pa.collected s df = [].
Proof.
  split; intros H.
  - destruct (pa.collected s df) as [|fc l] eqn:E; [reflexivity|].
    assert (In fc (pa.failure_cases s df)) as Hin
      by (apply in_failure_cases; rewrite E; left; reflexivity).
    rewrite H in Hin. destruct Hin.
  - unfold pa.failure_cases. rewrite H. reflexivity.
Qed.

Lemma flat_map_nil_iff {A B} (f : A -> list B) (l : list A) :
  flat_map f l = [] <-> forall x, In x l -> f x = [].
Proof.
  induction l as [|a l IH]; simpl.
  - split; [intros _ x []|reflexivity].
  - split.
    + intros H x [<-|Hx].
      * apply app_eq_nil in H. tauto.
      * apply app_eq_nil in H. apply IH; tauto.
    + intros H. rewrite (H a) by auto. simpl. apply IH. auto.
Qed.

Lemma insert_sorted_perm {A} (le : A -> A -> bool) (x : A) (l : list A) :
  Permutation (pd.insert_sorted le x l) (x :: l).
Proof.
  induction l as [|y l IH]; simpl.
  - apply Permutation_refl.
  - destruct (le x y).
    + apply Permutation_refl.
    + eapply perm_trans; [apply perm_skip, IH|apply perm_swap].
Qed.

(** [sort_values] reorders the rows: none is lost, none is added. *)
Lemma sort_values_perm {A} (le : A -> A -> bool) (l : list A) :
  Permutation (pd.sort_values le l) l.
Proof.
  induction l as [|x l IH]; simpl.
  - constructor.
  - eapply perm_trans; [apply insert_sorted_perm|apply perm_skip, IH].
Qed.

End facts.

(* ------------------------------------------------------------------ *)
(** ** Currency conversion, row by row *)

Module conversion_facts.
Import transform conversion.

Lemma fx_matches_rated (o : Rated) (f : Fx.t) :
  fx_matches o f = fx_matches (rated0 (r_txn o)) f
  \/ date_key o <> ts_date (Txn.date (r_txn o)).
Proof.
  unfold fx_matches. simpl.
  destruct (Cal.date_eqb (date_key o) (ts_date (Txn.date (r_txn o)))) eqn:E.
  - apply facts.date_eqb_eq in E. rewrite E. left. reflexivity.
  - right. intros H. rewrite H, facts.date_eqb_refl in E. discriminate.
Qed.

Lemma existsb_filter_nil {A} (p : A -> bool) (l : list A) :
  existsb p l = false <-> filter p l = [].
Proof.
  induction l as [|a l IH]; simpl; [tauto|].
  destruct (p a); simpl; [split; discriminate|exact IH].
Qed.

Lemma rate_for_None_iff fx base r :
  rate_for fx base r = None <-> lacks_rate fx base r = true.
Proof.
  unfold rate_for, lacks_rate, rate_fx_for, fx_rows_for.
  destruct (is_foreign base r); simpl; [|split; discriminate].
  rewrite negb_true_iff, existsb_filter_nil.
  destruct (filter _ fx); split; congruence.
Qed.

(** Uniqueness of the keys: a record matches at most one FX row. *)
Lemma keys_unique_matches fx r :
  keys_unique fx = true -> (List.length (fx_rows_for fx r) <= 1)%nat.
Proof.
  unfold fx_rows_for. induction fx as [|f fx IH]; simpl; [lia|].
  rewrite andb_true_iff, negb_true_iff. intros [Hf Hu].
  specialize (IH Hu).
  destruct (fx_matches (rated0 r) f) eqn:Em; [|exact IH].
  simpl. assert (filter (fx_matches (rated0 r)) fx = []) as ->; [|simpl; lia].
  apply existsb_filter_nil.
  destruct (existsb (fx_matches (rated0 r)) fx) eqn:Ex; [|reflexivity].
  apply existsb_exists in Ex. destruct Ex as [g [Hg Eg]].
  assert (existsb (same_key f) fx = true) as Habs; [|congruence].
  apply existsb_exists. exists g. split; [exact Hg|].
  unfold fx_matches, same_key in *. simpl in *.
  apply andb_true_iff in Em, Eg. destruct Em as [D1 C1], Eg as [D2 C2].
  apply facts.date_eqb_eq in D1, D2. apply String.eqb_eq in C1, C2.
  rewrite <- D1, <- D2, <- C1, <- C2.
  rewrite facts.date_eqb_refl, String.eqb_refl. reflexivity.
Qed.

Lemma merge_fx_rated0 fx df :
  merge_fx (map rated0 df) fx = flat_map (merged_rows fx) df.
Proof.
  unfold merge_fx. rewrite flat_map_concat_map, map_map, <- flat_map_concat_map.
  reflexivity.
Qed.

Lemma merged_rows_length fx r : (1 <= List.length (merged_rows fx r))%nat.
Proof.
  unfold merged_rows. destruct (fx_rows_for fx r); simpl; lia.
Qed.

Lemma merged_length_ge fx df :
  (List.length df <= List.length (flat_map (merged_rows fx) df))%nat.
Proof.
  induction df as [|r df IH]; simpl; [lia|].
  rewrite length_app. pose proof (merged_rows_length fx r). lia.
Qed.

(** When the merge keeps the number of rows, each record met at most one FX
    row and the merged frame is the input with its [rate_fx]. *)
Lemma merged_aligned fx df :
  List.length (flat_map (merged_rows fx) df) = List.length df ->
  flat_map (merged_rows fx) df
  = map (fun r => mkRated r (ts_date (Txn.date r)) (Some 1%Q) (rate_fx_for fx r)) df.
Proof.
  induction df as [|r df IH]; simpl; [reflexivity|].
  rewrite length_app. intros H.
  pose proof (merged_rows_length fx r) as H1.
  pose proof (merged_length_ge fx df) as H2.
  assert (List.length (merged_rows fx r) = 1%nat) as L1 by lia.
  rewrite IH by lia. f_equal.
  unfold merged_rows, rate_fx_for in *.
  destruct (fx_rows_for fx r) as [|f [|g ms]]; simpl in *; try reflexivity; lia.
Qed.



Lemma keys_unique_single fx df : keys_unique fx = true -> single_match fx df = true.
Proof.
  intros Hu. unfold single_match. apply forallb_forall. intros r _.
  apply Nat.leb_le. apply keys_unique_matches. exact Hu.
Qed.

Lemma assign_aligned fx base (l : list Txn.t) :
  map (fun mo : bool * Rated =>
         let (m, o) := mo in
         if m then mkRated (r_txn o) (date_key o) (rate_fx o) (rate_fx o) else o)
      (combine (map (is_foreign base) l)
               (map (fun r => mkRated r (ts_date (Txn.date r)) (Some 1%Q)
                                      (rate_fx_for fx r)) l))
  = map (fun r => mkRated r (ts_date (Txn.date r)) (rate_for fx base r)
                          (rate_fx_for fx r)) l.
Proof.
  induction l as [|r l IH]; simpl; [reflexivity|].
  rewrite IH. f_equal. unfold rate_for. destruct (is_foreign base r); reflexivity.
Qed.

Lemma existsb_id_map {A} (p : A -> bool) (l : list A) :
  existsb (fun b : bool => b) (map p l) = existsb p l.
Proof. induction l as [|a l IH]; simpl; [reflexivity|]. rewrite IH. reflexivity. Qed.

Lemma rate_for_domestic fx base df :
  existsb (is_foreign base) df = false ->
  map rated0 df = rated_rows fx base df.
Proof.
  unfold rated_rows. intros H. rewrite H.
  apply map_ext_in. intros r Hr. unfold rated0, rate_for.
  assert (is_foreign base r = false) as ->; [|reflexivity].
  destruct (is_foreign base r) eqn:E; [|reflexivity].
  rewrite <- H. symmetry. apply existsb_exists. exists r. auto.
Qed.

(** [add_fx_amount_base] either fails on the misaligned mask, which needs a
    record in a foreign currency and a merge that added rows, or finishes on
    the rows of its input, each with its rate. *)
Lemma add_fx_amount_base_cases df fx base :
  (existsb (is_foreign base) df = true
   /\ List.length (flat_map (merged_rows fx) df) <> List.length df
   /\ add_fx_amount_base df fx base = py.Raise py.AssertionError)
  \/ ((existsb (is_foreign base) df = true ->
       List.length (flat_map (merged_rows fx) df) = List.length df)
      /\ add_fx_amount_base df fx base = finish (rated_rows fx base df)).
Proof.
  unfold add_fx_amount_base.
  change (map (fun r => mkRated r (ts_date (Txn.date r)) (Some 1%Q) None) df)
    with (map rated0 df).
  change (map (fun r => negb (String.eqb (Txn.currency r) base)) df)
    with (map (is_foreign base) df).
  rewrite existsb_id_map.
  destruct (existsb (is_foreign base) df) eqn:Ef.
  - rewrite merge_fx_rated0. unfold assign_rate_fx. rewrite length_map.
    destruct (Nat.eqb_spec (List.length (flat_map (merged_rows fx) df)) (List.length df))
      as [Hl|Hl].
    + right. split; [auto|].
      rewrite (merged_aligned fx df Hl), assign_aligned. simpl.
      unfold rated_rows. rewrite Ef. reflexivity.
    + left. auto.
  - right. split; [discriminate|]. simpl.
    rewrite (rate_for_domestic fx base df Ef). reflexivity.
Qed.

Lemma with_amount_base_rows fx base df (l : list Txn.t) :
  with_amount_base
    (map (fun r => mkRated r (ts_date (Txn.date r)) (rate_for fx base r)
                           (if existsb (is_foreign base) df
                            then rate_fx_for fx r else None)) l)
  = if existsb (lacks_rate fx base) l then None
    else Some (flat_map (fun r => match rate_for fx base r with
                                  | Some q => [convert r q]
                                  | None => []
                                  end) l).
Proof.
  induction l as [|r l IH]; simpl; [reflexivity|].
  rewrite IH. destruct (rate_for fx base r) eqn:Er.
  - assert (lacks_rate fx base r = false) as ->.
    { destruct (lacks_rate fx base r) eqn:El; [|reflexivity].
      apply rate_for_None_iff in El. congruence. }
    simpl. destruct (existsb (lacks_rate fx base) l); reflexivity.
  - apply rate_for_None_iff in Er. rewrite Er. reflexivity.
Qed.

Lemma missing_rows fx base df (l : list Txn.t) :
  map (fun o => (date_key o, Txn.currency (r_txn o)))
      (filter rate_isna
         (map (fun r => mkRated r (ts_date (Txn.date r)) (rate_for fx base r)
                                (if existsb (is_foreign base) df
                                 then rate_fx_for fx r else None)) l))
  = map key_of (filter (lacks_rate fx base) l).
Proof.
  induction l as [|r l IH]; simpl; [reflexivity|].
  unfold rate_isna at 1. simpl.
  destruct (rate_for fx base r) eqn:Er.
  - assert (lacks_rate fx base r = false) as ->; [|exact IH].
    destruct (lacks_rate fx base r) eqn:El; [|reflexivity].
    apply rate_for_None_iff in El. congruence.
  - apply rate_for_None_iff in Er. rewrite Er. simpl. rewrite IH. reflexivity.
Qed.

Lemma finish_rated_rows fx base df :
  finish (rated_rows fx base df)
  = if existsb (lacks_rate fx base) df
    then py.Raise (py.ValueError_MissingFx (pd.repr_rows (missing_of fx base df)))
    else py.Ok (flat_map (fun r => match rate_for fx base r with
                                   | Some q => [convert r q]
                                   | None => []
                                   end) df).
Proof.
  unfold finish, rated_rows, missing_pairs, missing_of.
  rewrite with_amount_base_rows, missing_rows.
  destruct (existsb (lacks_rate fx base) df); reflexivity.
Qed.

End conversion_facts.

(* ------------------------------------------------------------------ *)
(** ** Currency conversion: the results *)

Module conversion_results.
Import transform conversion conversion_facts.



(** When conversion returns, it returns the records of its input, in order,
    each at the rate [rate_for] gives it. *)
Lemma add_fx_amount_base_ok df fx base out :
  add_fx_amount_base df fx base = py.Ok out ->
  Forall2 (fun r c => Conv.txn c = r
                      /\ rate_for fx base r = Some (Conv.rate c)
                      /\ Conv.amount_base c = Num.round2 (Txn.amount r * Conv.rate c))
          df out.
Proof.
  destruct (add_fx_amount_base_cases df fx base) as [[_ [_ E]]|[_ E]]; rewrite E;
    [discriminate|].
  rewrite finish_rated_rows.
  destruct (existsb (lacks_rate fx base) df) eqn:El; [discriminate|].
  intros H. injection H as <-. clear E.
  induction df as [|r df IH]; simpl; [constructor|].
  simpl in El. apply orb_false_iff in El. destruct El as [El1 El2].
  destruct (rate_for fx base r) as [q|] eqn:Er.
  - simpl. constructor; [|apply IH; exact El2].
    simpl. auto.
  - apply rate_for_None_iff in Er. congruence.
Qed.







End conversion_results.

(** A key that occurs twice in the lookup makes the left merge return the
    matching record twice; the mask computed before the merge no longer
    aligns and the conversion fails. *)
Example duplicated_key_duplicates_rows :
  List.length (transform.merge_fx (map conversion.rated0 [txn_eur]) [fx_eur; fx_eur]) = 2%nat
  /\ transform.add_fx_amount_base [txn_eur] [fx_eur; fx_eur] "USD"
     = py.Raise py.AssertionError.
Proof. split; reflexivity. Qed.

(** With or without unique keys, a batch in which a record lacks a rate is
    never converted: no rate is made up for it. *)
Lemma missing_rate_never_converts (df : list Txn.t) (fx : list Fx.t) (base : string) :
  existsb (conversion.lacks_rate fx base) df = true ->
  transform.add_fx_amount_base df fx base = py.Raise py.AssertionError
  \/ transform.add_fx_amount_base df fx base
     = py.Raise (py.ValueError_MissingFx (pd.repr_rows (conversion.missing_of fx base df))).
Proof.
  intros Hl.
  destruct (conversion_facts.add_fx_amount_base_cases df fx base) as [[_ [_ E]]|[_ E]].
  - left. exact E.
  - right. rewrite E, conversion_facts.finish_rated_rows, Hl. reflexivity.
Qed.







(* ------------------------------------------------------------------ *)
(** ** The ledger unifier *)

Module unifier_facts.
Import transform unifier.


Lemma mapM_ok {A B} (f : A -> py.result B) (l : list A) (l' : list B) :
  py.mapM f l = py.Ok l' -> Forall2 (fun x y => f x = py.Ok y) l l'.
Proof.
  revert l'. induction l as [|x l IH]; simpl; intros l' H.
  - injection H as <-. constructor.
  - destruct (f x) as [y|e] eqn:Ef; simpl in H; [|discriminate].
    destruct (py.mapM f l) as [ys|e]; simpl in H; [|discriminate].
    injection H as <-. constructor; auto.
Qed.





(** Every transaction of the inventory batch is the transaction of one of
    its rows, for some text of its date. *)
Lemma inventory_txns_in (inventory : list Inventory.t) (t : Txn.t) :
  In t (inventory_txns inventory) ->
  exists i d, In i inventory /\ t = inventory_row i d.
Proof.
  unfold inventory_txns. intros H. apply in_map_iff in H.
  destruct H as [[i d] [<- Hin]]. apply in_combine_l in Hin.
  exists i, d. split; [exact Hin|reflexivity].
Qed.







End unifier_facts.




(* ------------------------------------------------------------------ *)
(** ** The KPI aggregator *)

Module kpi_facts.
Import transform aggregation.

Lemma kpi_key_eqb_classified (a b : kpi_key) :
  kpi_key_eqb a b = true -> classified a = classified b.
Proof.
  destruct a as [[e1 m1] [t1|]], b as [[e2 m2] [t2|]]; simpl; try reflexivity;
    rewrite ?andb_false_r; discriminate.
Qed.

(** Groups under a classified key are those of the classified rows. *)
Lemma add_to_group_classified (k : kpi_key) (v : Q) (gs : list (kpi_key * list Q)) :
  filter (fun g => classified (fst g)) (pd.add_to_group kpi_key_eqb k v gs)
  = if classified k
    then pd.add_to_group kpi_key_eqb k v (filter (fun g => classified (fst g)) gs)
    else filter (fun g => classified (fst g)) gs.
Proof.
  induction gs as [|[k' vs] gs IH]; simpl.
  - destruct (classified k); reflexivity.
  - destruct (kpi_key_eqb k' k) eqn:E; simpl.
    + rewrite (kpi_key_eqb_classified _ _ E).
      destruct (classified k); simpl; [rewrite E|]; reflexivity.
    + rewrite IH. destruct (classified k'), (classified k); simpl; rewrite ?E; reflexivity.
Qed.

Lemma groupby_classified (kvs : list (kpi_key * Q)) (acc : list (kpi_key * list Q)) :
  filter (fun g => classified (fst g))
    (fold_left (fun gs kv => pd.add_to_group kpi_key_eqb (fst kv) (snd kv) gs) kvs acc)
  = fold_left (fun gs kv => pd.add_to_group kpi_key_eqb (fst kv) (snd kv) gs)
      (filter (fun kv => classified (fst kv)) kvs)
      (filter (fun g => classified (fst g)) acc).
Proof.
  revert acc. induction kvs as [|[k v] kvs IH]; intros acc; simpl; [reflexivity|].
  rewrite IH, add_to_group_classified. destruct (classified k); reflexivity.
Qed.

Lemma pivot_dropna_filter (pivot : list (kpi_key * Q)) :
  pivot_dropna pivot = pivot_dropna (filter (fun r => classified (fst r)) pivot).
Proof.
  induction pivot as [|[[[e m] [t|]] v] pivot IH]; simpl; [reflexivity| |exact IH].
  rewrite IH. reflexivity.
Qed.

(** What [pivot_table] keeps of the grouped sums depends only on the joined
    rows that have an account type. *)
Lemma pivot_dropna_groupby_sum (df : list (Fact.t * option string)) :
  pivot_dropna (groupby_sum df)
  = pivot_dropna (groupby_sum (filter (fun ft => match snd ft with
                                                 | Some _ => true
                                                 | None => false
                                                 end) df)).
Proof.
  rewrite pivot_dropna_filter. symmetry. rewrite pivot_dropna_filter. symmetry.
  f_equal. unfold groupby_sum, pd.groupby.
  assert (forall (gs : list (kpi_key * list Q)),
            filter (fun r => classified (fst r)) (map (fun g => (fst g, Qsum (snd g))) gs)
            = map (fun g => (fst g, Qsum (snd g)))
                  (filter (fun g => classified (fst g)) gs)) as Hmap.
  { induction gs as [|g gs IH]; simpl; [reflexivity|].
    destruct (classified (fst g)); simpl; rewrite IH; reflexivity. }
  rewrite !Hmap, !groupby_classified. simpl. f_equal. f_equal.
  induction df as [|[f [t|]] df IH]; simpl; [reflexivity| |exact IH].
  rewrite IH. reflexivity.
Qed.

Lemma merge_accounts_in_chart (fact : list Fact.t) (dim_accounts : list Account.t) :
  filter (fun ft => match snd ft with Some _ => true | None => false end)
         (merge_accounts fact dim_accounts)
  = filter (fun ft => match snd ft with Some _ => true | None => false end)
           (merge_accounts (filter (in_chart dim_accounts) fact) dim_accounts).
Proof.
  induction fact as [|f fact IH]; simpl; [reflexivity|].
  rewrite filter_app, IH. unfold in_chart at 2.
  destruct (existsb _ dim_accounts) eqn:E.
  - simpl. rewrite filter_app. reflexivity.
  - apply conversion_facts.existsb_filter_nil in E. rewrite E. reflexivity.
Qed.

(** The KPI table is the KPI table of the ledger records whose account code
    is in the chart of accounts: the other records are summed into no cell
    of it. *)
Lemma kpi_monthly_ignores_unclassified (fact : list Fact.t) (dim_accounts : list Account.t) :
  kpi_monthly fact dim_accounts
  = kpi_monthly (filter (in_chart dim_accounts) fact) dim_accounts.
Proof.
  unfold kpi_monthly, pivot_table.
  rewrite (pivot_dropna_groupby_sum (merge_accounts fact dim_accounts)).
  rewrite (pivot_dropna_groupby_sum (merge_accounts (filter _ fact) dim_accounts)).
  rewrite merge_accounts_in_chart. reflexivity.
Qed.

End kpi_facts.

(** C7 on the code.  An expense of 100 under an account code the chart does
    not list is grouped under the NaN account type, and that group is left
    out by [pivot_table]: the KPI row of its entity and month has the three
    named columns only and none of them holds the 100; alone in its month, the
    record leaves no KPI row at all. *)
Theorem kpi_monthly_drops_unclassified :
  transform.groupby_sum (transform.merge_accounts [fact_revenue; fact_unclassified] dim_revenue)
  = [("TLM", "2025-12", Some "Revenue", 1000%Q); ("TLM", "2025-12", None, (-100)%Q)]
  /\ transform.kpi_monthly [fact_revenue; fact_unclassified] dim_revenue
     = [Kpi.mk "TLM" "2025-12" [("Revenue", 1000%Q); ("COGS", 0%Q); ("Expense", 0%Q)]
               (100000 # 100) (100000 # 100)]
  /\ transform.kpi_monthly [fact_revenue; fact_unclassified] dim_revenue
     = transform.kpi_monthly [fact_revenue] dim_revenue
  /\ transform.kpi_monthly [fact_unclassified] dim_revenue = [].
Proof. repeat split; reflexivity. Qed.

(* ------------------------------------------------------------------ *)
(** ** The orchestrator, phase by phase *)

Module run_facts.
Import io_utils pipeline.
Local Abbreviation valid_frame := run.valid_frame.
Local Abbreviation batch_issues := run.batch_issues.

Lemma validate_or_collect_eq df schema name issues :
  quality.validate_or_collect df schema name issues
  = (valid_frame schema df, (issues ++ batch_issues name schema df)%list).
Proof.
  unfold quality.validate_or_collect, valid_frame, batch_issues.
  destruct (pa.validate schema df); [rewrite app_nil_r|]; reflexivity.
Qed.

Section Run.
Variables (settings : config.Settings) (month : string).
Variables (coa : list Coa.t) (sales expenses payroll inventory fx_rates : pd.DataFrame).

Let allowed := config.allowed_currencies settings.
Let base := config.base_currency settings.

Local Abbreviation files := (run.files coa sales expenses payroll inventory fx_rates).
Local Abbreviation issues := (run.issues settings sales expenses payroll inventory fx_rates).
Local Abbreviation dq_exceptions :=
  (run.dq_exceptions settings sales expenses payroll inventory fx_rates).
Local Abbreviation dq_reports := (run.dq_reports settings sales expenses payroll inventory fx_rates).
Local Abbreviation dq_phase :=
  (run.dq_phase settings month sales expenses payroll inventory fx_rates).
Local Abbreviation curate := (run.curate settings month coa).
Local Abbreviation threshold :=
  (run.threshold settings sales expenses payroll inventory fx_rates).

(** [run_month] with every file present: the DQ phase, then the curation of
    what validation returned. *)
Lemma run_month_phases (fail_on : string) (w : list Artifact) :
  run_month settings month files fail_on w
  = (dq_phase fail_on ;;;
     curate (valid_frame (quality.sales_schema allowed) sales)
            (valid_frame (quality.expenses_schema allowed) expenses)
            (valid_frame (quality.payroll_schema allowed) payroll)
            (valid_frame (quality.inventory_schema allowed) inventory)
            (valid_frame (quality.fx_schema allowed base) fx_rates)) w.
Proof.
  unfold run_month, run.files, run.dq_phase, run.dq_exceptions, run.issues. simpl.
  unfold bind at 1 2 3 4 5 6. simpl.
  rewrite !validate_or_collect_eq. simpl.
  rewrite <- !app_assoc. reflexivity.
Qed.

(** With issues, both reports are written before [fail_on] is looked at. *)
Lemma dq_phase_with_issues (fail_on : string) (w : list Artifact) :
  issues <> [] ->
  dq_phase fail_on w = ((w ++ dq_reports)%list, threshold fail_on).
Proof.
  intros Hi. unfold run.dq_phase, run.threshold, run.dq_reports.
  destruct issues as [|i l] eqn:Ei; [exfalso; apply Hi; reflexivity|]. simpl.
  unfold bind, write_csv, write, raise, ret. simpl. rewrite <- app_assoc. simpl.
  repeat match goal with
         | |- context [if ?b then _ else _] => destruct b; simpl
         end; reflexivity.
Qed.

(** Without issues, [fail_on] is not looked at. *)
Lemma dq_phase_without_issues (fail_on : string) (w : list Artifact) :
  issues = [] ->
  dq_phase fail_on w
  = ((w ++ [dq_exceptions_csv []; dq_summary_csv (dq.SummaryPass "PASS" month)])%list,
     py.Ok tt).
Proof.
  intros Hi. unfold run.dq_phase. rewrite Hi. simpl.
  unfold bind, write_csv, write. simpl. rewrite <- app_assoc. reflexivity.
Qed.

(** Curation writes nothing unless every step before the writes returned. *)
Lemma curate_raise (v_sales v_exp v_pay v_inv v_fx : option pd.DataFrame)
    (w w' : list Artifact) (e : py.exn) :
  curate v_sales v_exp v_pay v_inv v_fx w = (w', py.Raise e) -> w' = w.
Proof.
  unfold run.curate, bind, lift, write_parquet, write, ret.
  repeat match goal with
         | |- context [match ?r with py.Ok _ => _ | py.Raise _ => _ end] =>
             destruct r; simpl
         | |- context [let (_, _) := ?p in _] => destruct p; simpl
         end;
    intros H; inversion H; reflexivity.
Qed.

(** Curation raises as soon as it touches a batch validation returned
    [None] for. *)
Lemma curate_none (v_sales v_exp v_pay v_inv v_fx : option pd.DataFrame)
    (w : list Artifact) :
  v_sales = None \/ v_exp = None \/ v_pay = None \/ v_inv = None \/ v_fx = None ->
  exists e, curate v_sales v_exp v_pay v_inv v_fx w = (w, py.Raise e).
Proof.
  intros H. unfold run.curate, bind, lift.
  destruct (_month_window month) as [[start end_]|e]; simpl; [|eauto].
  destruct v_sales as [df|]; simpl; [|eauto].
  destruct (typed.read typed.sale df); simpl; [|eauto].
  destruct v_exp as [df1|]; simpl; [|eauto].
  destruct (typed.read typed.expense df1); simpl; [|eauto].
  destruct v_inv as [df2|]; simpl; [|eauto].
  destruct (typed.read typed.inventory df2); simpl; [|eauto].
  destruct v_pay as [df3|]; simpl; [|eauto].
  destruct (typed.read typed.payroll df3); simpl; [|eauto].
  destruct v_fx as [df4|]; simpl; [|eauto].
  exfalso. decompose [or] H; discriminate.
Qed.

(** An issue frame exists exactly when some validation returned [None]. *)
Lemma issues_some_none :
  issues <> [] ->
  valid_frame (quality.sales_schema allowed) sales = None
  \/ valid_frame (quality.expenses_schema allowed) expenses = None
  \/ valid_frame (quality.payroll_schema allowed) payroll = None
  \/ valid_frame (quality.inventory_schema allowed) inventory = None
  \/ valid_frame (quality.fx_schema allowed base) fx_rates = None.
Proof.
  unfold run.issues, run.batch_issues, run.valid_frame. subst allowed base.
  destruct (pa.validate (quality.sales_schema _) sales); [|auto].
  destruct (pa.validate (quality.expenses_schema _) expenses); [|auto].
  destruct (pa.validate (quality.payroll_schema _) payroll); [|auto].
  destruct (pa.validate (quality.inventory_schema _) inventory); [|auto 6].
  destruct (pa.validate (quality.fx_schema _ _) fx_rates); [|auto 6].
  simpl. congruence.
Qed.

(** With issues, a run ends on the threshold, or goes on to curation and
    raises there: the two DQ reports are all it writes. *)
Lemma run_month_with_issues (fail_on : string) :
  issues <> [] ->
  exists e, run_month settings month files fail_on [] = (dq_reports, py.Raise e)
            /\ (forall e', threshold fail_on = py.Raise e' -> e = e').
Proof.
  intros Hi. rewrite run_month_phases. unfold bind at 1.
  rewrite (dq_phase_with_issues fail_on [] Hi). simpl.
  destruct (threshold fail_on) as [[]|e] eqn:Et.
  - destruct (curate_none _ _ _ _ _ dq_reports (issues_some_none Hi)) as [e He].
    exists e. rewrite He. split; [reflexivity|discriminate].
  - exists e. split; [reflexivity|]. intros e' H. congruence.
Qed.

(** Without issues the value of [fail_on] has no effect on the run. *)
Lemma run_month_clean_ignores_fail_on (fail_on fail_on' : string) (w : list Artifact) :
  issues = [] ->
  run_month settings month files fail_on w = run_month settings month files fail_on' w.
Proof.
  intros Hi. rewrite !run_month_phases. unfold bind.
  rewrite (dq_phase_without_issues fail_on w Hi), (dq_phase_without_issues fail_on' w Hi).
  reflexivity.
Qed.

End Run.
End run_facts.

Example clean_run_passes :
  let r := pipeline.run_month config.settings "2025-12" (files_with sales_frame_1) "ERROR" [] in
  snd r = py.Ok pipeline.outputs
  /\ map io_utils.artifact_name (fst r)
     = ["dq_exceptions.csv"; "dq_summary.csv"; "fact_transactions.parquet";
        "dim_accounts.parquet"; "kpi_monthly.parquet"].
Proof. vm_compute. split; reflexivity. Qed.

Example duplicate_invoice_is_error :
  map (fun x => (quality.dataset (dq.issue x), quality.check (dq.issue x), dq.severity x))
      (run.dq_exceptions config.settings sales_frame_dup expenses_frame_1 payroll_frame_1
         inventory_frame_1 fx_frame_1)
  = [("sales", "Duplicates found for keys ['entity', 'invoice_id'] in sales", "ERROR")].
Proof. reflexivity. Qed.

(** A whole run with a bill of 40 under an account code the chart does not
    list: the bill is in the ledger, and the Expense column of the KPI row
    holds the other bill (100) and the payroll (900) only. *)
Example unclassified_bill_left_out_of_kpi :
  let r := pipeline.run_month config.settings "2025-12"
             (run.files chart_1 sales_frame_1 expenses_frame_unclassified payroll_frame_1
                inventory_frame_1 fx_frame_1) "ERROR" [] in
  snd r = py.Ok pipeline.outputs
  /\ existsb (fun ia => String.eqb (fst ia) "TLM|expenses|BILL-0007"
                        && Qeq_bool (snd ia) (-40)) (ledger_written (fst r)) = true
  /\ map (fun k => (Kpi.entity k, Kpi.month k, map fst (Kpi.by_type k))) (kpi_written (fst r))
     = [("TLM", "2025-12", ["COGS"; "Expense"; "Revenue"])]
  /\ forallb (fun k => Qeq_bool (transform.col_value "Expense" (Kpi.by_type k)) (-1000))
             (kpi_written (fst r)) = true.
Proof. vm_compute. repeat split; reflexivity. Qed.

(* ------------------------------------------------------------------ *)
(** ** The orchestrator: results *)

(** C1 on the code.  With a duplicated invoice in the sales batch and
    [fail_on="NEVER"], the run writes the two DQ reports, passes the
    threshold, and raises on the [None] that [validate_or_collect] returned
    for sales: none of the ledger, the account dimension and the KPI table is
    written. *)
Theorem run_month_never_raises_on_violation :
  let r := pipeline.run_month config.settings "2025-12" (files_with sales_frame_dup)
             "NEVER" [] in
  run.threshold config.settings sales_frame_dup expenses_frame_1 payroll_frame_1
    inventory_frame_1 fx_frame_1 "NEVER" = py.Ok tt
  /\ snd r = py.Raise py.TypeError_NoneType
  /\ map io_utils.artifact_name (fst r) = ["dq_exceptions.csv"; "dq_summary.csv"].
Proof. vm_compute. repeat split; reflexivity. Qed.

(** The same holds for every input: whatever [fail_on] is, a run in which a
    batch has schema violations ends on an exception with the two DQ reports
    as its only output. *)
Lemma run_month_with_violations_raises (settings : config.Settings) (month : string)
    (coa : list Coa.t) (sales expenses payroll inventory fx_rates : pd.DataFrame)
    (fail_on : string) :
  run.issues settings sales expenses payroll inventory fx_rates <> [] ->
  exists e,
    pipeline.run_month settings month
      (run.files coa sales expenses payroll inventory fx_rates) fail_on []
    = (run.dq_reports settings sales expenses payroll inventory fx_rates, py.Raise e).
Proof.
  intros Hi.
  destruct (run_facts.run_month_with_issues settings month coa sales expenses payroll inventory
              fx_rates fail_on Hi) as [e [He _]].
  exists e. exact He.
Qed.

(** C3. When validation produced an issue and the threshold is met, that is
    [fail_on], upper-cased and trimmed, is WARN, or it is ERROR and an issue
    has severity ERROR, [run_month] raises the DQ failure; the files written
    by then are the DQ exceptions and the DQ summary, in this order, and
    nothing else. *)
Theorem dq_threshold_aborts (settings : config.Settings) (month : string)
    (coa : list Coa.t) (sales expenses payroll inventory fx_rates : pd.DataFrame)
    (fail_on : string) :
  run.issues settings sales expenses payroll inventory fx_rates <> [] ->
  Str.strip (Str.upper fail_on) = "WARN"
  \/ (Str.strip (Str.upper fail_on) = "ERROR"
      /\ exists x, In x (run.dq_exceptions settings sales expenses payroll inventory fx_rates)
                   /\ dq.severity x = "ERROR") ->
  exists written level,
    pipeline.run_month settings month
      (run.files coa sales expenses payroll inventory fx_rates) fail_on []
    = (written, py.Raise (py.ValueError_DQ level))
    /\ written = run.dq_reports settings sales expenses payroll inventory fx_rates
    /\ map io_utils.artifact_name written = ["dq_exceptions.csv"; "dq_summary.csv"].
Proof.
  intros Hi Ht.
  destruct (run_facts.run_month_with_issues settings month coa sales expenses payroll inventory
              fx_rates fail_on Hi) as [e [He Hthr]].
  assert (exists level,
            run.threshold settings sales expenses payroll inventory fx_rates fail_on
            = py.Raise (py.ValueError_DQ level)) as [level Hl].
  { unfold run.threshold. destruct Ht as [->|[-> [x [Hx Hs]]]]; simpl.
    - eexists. reflexivity.
    - assert (existsb (fun x => String.eqb (dq.severity x) "ERROR")
                (run.dq_exceptions settings sales expenses payroll inventory fx_rates)
              = true) as ->.
      { apply existsb_exists. exists x. split; [exact Hx|]. rewrite Hs. reflexivity. }
      eexists. reflexivity. }
  exists (run.dq_reports settings sales expenses payroll inventory fx_rates), level.
  rewrite He, (Hthr _ Hl). repeat split; reflexivity.
Qed.

Lemma dq_threshold_aborts_witness :
  exists written level,
    pipeline.run_month config.settings "2025-12" (files_with sales_frame_dup) " error" []
    = (written, py.Raise (py.ValueError_DQ level))
    /\ written = run.dq_reports config.settings sales_frame_dup expenses_frame_1
                   payroll_frame_1 inventory_frame_1 fx_frame_1
    /\ map io_utils.artifact_name written = ["dq_exceptions.csv"; "dq_summary.csv"].
Proof.
  apply (dq_threshold_aborts config.settings "2025-12" chart_1 sales_frame_dup
           expenses_frame_1 payroll_frame_1 inventory_frame_1 fx_frame_1 " error").
  - vm_compute. discriminate.
  - right. split; [reflexivity|].
    eexists. split; [left; reflexivity|reflexivity].
Defined.

(** C8 on the code.  With inputs that raise no DQ issue, [fail_on="BOGUS"]
    is never looked at: the run completes, writes the five artifacts and
    returns, exactly as it does with [fail_on="ERROR"]. *)
Theorem invalid_fail_on_accepted_on_clean_run :
  let r := pipeline.run_month config.settings "2025-12" (files_with sales_frame_1)
             "BOGUS" [] in
  existsb (String.eqb (Str.strip (Str.upper "BOGUS"))) ["ERROR"; "WARN"; "NEVER"] = false
  /\ snd r = py.Ok pipeline.outputs
  /\ map io_utils.artifact_name (fst r)
     = ["dq_exceptions.csv"; "dq_summary.csv"; "fact_transactions.parquet";
        "dim_accounts.parquet"; "kpi_monthly.parquet"]
  /\ r = pipeline.run_month config.settings "2025-12" (files_with sales_frame_1) "ERROR" [].
Proof. vm_compute. repeat split; reflexivity. Qed.

(** When there are issues, an invalid [fail_on] does raise the configuration
    error, after the inputs were loaded and validated and the two DQ reports
    written. *)
Lemma invalid_fail_on_raises_after_reports (settings : config.Settings) (month : string)
    (coa : list Coa.t) (sales expenses payroll inventory fx_rates : pd.DataFrame)
    (fail_on : string) :
  run.issues settings sales expenses payroll inventory fx_rates <> [] ->
  existsb (String.eqb (Str.strip (Str.upper fail_on))) ["ERROR"; "WARN"; "NEVER"] = false ->
  pipeline.run_month settings month
    (run.files coa sales expenses payroll inventory fx_rates) fail_on []
  = (run.dq_reports settings sales expenses payroll inventory fx_rates,
     py.Raise py.ValueError_fail_on).
Proof.
  intros Hi Hf.
  destruct (run_facts.run_month_with_issues settings month coa sales expenses payroll inventory
              fx_rates fail_on Hi) as [e [He Hthr]].
  rewrite He. f_equal. f_equal. apply Hthr.
  unfold run.threshold. cbv zeta. rewrite Hf. reflexivity.
Qed.

Example invalid_fail_on_with_issues :
  let r := pipeline.run_month config.settings "2025-12" (files_with sales_frame_dup)
             "BOGUS" [] in
  snd r = py.Raise py.ValueError_fail_on
  /\ map io_utils.artifact_name (fst r) = ["dq_exceptions.csv"; "dq_summary.csv"].
Proof. vm_compute. split; reflexivity. Qed.

(* ------------------------------------------------------------------ *)
(** ** Severity *)

Module severity_facts.
Import pipeline.

(** The severity of an issue: ERROR when the text of its check contains,
    whatever the case, one of the critical patterns, WARN otherwise. *)
Lemma tag_severity_one (i : quality.DqIssue) :
  _tag_severity [i]
  = [dq.mkDqException i
       (if existsb (fun p => Str.contains (Str.lower p) (Str.lower (quality.check i)))
                   critical_checks
        then "ERROR" else "WARN")].
Proof. reflexivity. Qed.

Lemma tag_severity_values (l : list quality.DqIssue) (x : dq.DqException) :
  In x (_tag_severity l) ->
  (dq.severity x = "ERROR"
   /\ exists p, In p critical_checks
                /\ Str.contains (Str.lower p) (Str.lower (quality.check (dq.issue x))) = true)
  \/ (dq.severity x = "WARN"
      /\ forall p, In p critical_checks ->
                   Str.contains (Str.lower p) (Str.lower (quality.check (dq.issue x)))
                   = false).
Proof.
  unfold _tag_severity. intros H. apply in_map_iff in H. destruct H as [i [<- _]].
  change (str_contains (Str.join "|" critical_checks) (quality.check i))
    with (existsb (fun p => Str.contains (Str.lower p) (Str.lower (quality.check i)))
                  critical_checks).
  cbn [dq.severity dq.issue].
  destruct (existsb (fun p => Str.contains (Str.lower p) (Str.lower (quality.check i)))
                    critical_checks) eqn:E.
  - left. split; [reflexivity|]. apply existsb_exists in E. exact E.
  - right. split; [reflexivity|]. intros p Hp.
    destruct (Str.contains (Str.lower p) (Str.lower (quality.check i))) eqn:Ec;
      [|reflexivity].
    rewrite <- E. symmetry. apply existsb_exists. exists p. auto.
Qed.

(** The failure cases of the nullability check are all named
    [not_nullable]. *)
Lemma null_failures_check (name : string) (col : pa.Column) (cells : list pd.cell)
    (fc : pa.FailureCase) :
  In fc (pa.null_failures name col cells) -> pa.check fc = "not_nullable".
Proof.
  unfold pa.null_failures. destruct (pa.nullable col); [intros []|].
  intros H. apply in_flat_map in H. destruct H as [ic [_ H]].
  destruct (pd.isna (snd ic)); [|destruct H].
  destruct H as [<-|[]]. reflexivity.
Qed.

(** A missing required value is tagged WARN. *)
Lemma not_nullable_is_warn (name dataset : string) (col : pa.Column)
    (cells : list pd.cell) (fc : pa.FailureCase) :
  In fc (pa.null_failures name col cells) ->
  _tag_severity [quality.issue_of dataset fc]
  = [dq.mkDqException (quality.issue_of dataset fc) "WARN"].
Proof.
  intros H. rewrite tag_severity_one. simpl quality.check.
  rewrite (null_failures_check _ _ _ _ H). reflexivity.
Qed.

End severity_facts.

(** C6 on the code.  A sales row without its required entity fails the
    nullability check, whose name is [not_nullable]; no critical pattern
    occurs in that name, so the issue is tagged WARN, and with
    [fail_on="ERROR"] the threshold lets the run go on. *)
Theorem missing_required_is_tagged_warn :
  map (fun x => (quality.dataset (dq.issue x), quality.column (dq.issue x),
                 quality.check (dq.issue x), dq.severity x))
      (run.dq_exceptions config.settings sales_frame_null expenses_frame_1 payroll_frame_1
         inventory_frame_1 fx_frame_1)
  = [("sales", Some "entity", "not_nullable", "WARN")]
  /\ run.threshold config.settings sales_frame_null expenses_frame_1 payroll_frame_1
       inventory_frame_1 fx_frame_1 "ERROR" = py.Ok tt.
Proof. split; reflexivity. Qed.

(* ------------------------------------------------------------------ *)
(** ** Empty batches *)

Module empty_facts.
Import empty_batch.

(** A whole-table check that fails makes the frame invalid, and is among
    the failure cases. *)
Lemma frame_check_fails (s : pa.DataFrameSchema) (df : pd.DataFrame) (fc : pa.FrameCheck) :
  In fc (pa.frame_checks s) -> pa.check_fn fc df = false ->
  exists fcs,
    pa.validate s df = pa.SchemaErrors fcs
    /\ In (pa.mkFailureCase "DataFrameSchema" None (pa.error fc) (pd.VBool false) None) fcs.
Proof.
  intros Hin Hf.
  assert (In (pa.mkFailureCase "DataFrameSchema" None (pa.error fc) (pd.VBool false) None)
             (pa.failure_cases s df)) as H.
  { apply facts.in_failure_cases.
    unfold pa.collected. apply in_or_app. right. apply in_or_app. right.
    unfold pa.frame_check_failures. apply in_flat_map. exists fc. split; [exact Hin|].
    rewrite Hf. left. reflexivity. }
  unfold pa.validate. destruct (pa.failure_cases s df) as [|f l]; [destruct H|].
  eexists. split; [reflexivity|exact H].
Qed.

(** No group, no maximum: the duplicate-key check is false on a frame
    without rows. *)
Lemma dup_check_fn_empty (keys cols : list string) :
  quality.dup_check_fn keys (pd.mkDataFrame cols []) = false.
Proof.
  unfold quality.dup_check_fn, pd.groupby_size. simpl.
  destruct (forallb _ keys); reflexivity.
Qed.

Lemma payroll_identity_fn_empty (cols : list string) :
  quality.payroll_identity_fn (pd.mkDataFrame cols []) = false.
Proof.
  unfold quality.payroll_identity_fn, quality.float_series, pd.column. simpl.
  destruct (pd.index_of "gross" cols), (pd.index_of "deductions" cols),
    (pd.index_of "net" cols); reflexivity.
Qed.

Lemma collect_frame_check (s : pa.DataFrameSchema) (df : pd.DataFrame) (fc : pa.FrameCheck)
    (dataset : string) (issues : list (list quality.DqIssue)) :
  In fc (pa.frame_checks s) -> pa.check_fn fc df = false ->
  exists frame,
    quality.validate_or_collect df s dataset issues = (None, (issues ++ [frame])%list)
    /\ In (table_issue dataset (pa.error fc)) frame.
Proof.
  intros Hin Hf. destruct (frame_check_fails s df fc Hin Hf) as [fcs [Hv Hfc]].
  unfold quality.validate_or_collect. rewrite Hv.
  eexists. split; [reflexivity|].
  apply in_map_iff. eexists. split; [|exact Hfc]. reflexivity.
Qed.

End empty_facts.

(** C9. Whatever its columns, a sales, expenses or FX batch without rows
    fails the duplicate-key check of its schema and a payroll batch without
    rows fails the payroll identity: [validate_or_collect] returns [None] and
    appends an issue frame that holds the failed check.  When the columns are
    those of the schema, that check is the only failure. *)
Theorem empty_batch_is_invalid (allowed : list string) (base : string) (cols : list string)
    (issues : list (list quality.DqIssue)) :
  let empty := pd.mkDataFrame cols [] in
  (exists frame,
     quality.validate_or_collect empty (quality.sales_schema allowed) "sales" issues
     = (None, (issues ++ [frame])%list)
     /\ In (empty_batch.table_issue "sales"
              "Duplicates found for keys ['entity', 'invoice_id'] in sales") frame)
  /\ (exists frame,
        quality.validate_or_collect empty (quality.expenses_schema allowed) "expenses" issues
        = (None, (issues ++ [frame])%list)
        /\ In (empty_batch.table_issue "expenses"
                 "Duplicates found for keys ['entity', 'bill_id'] in expenses") frame)
  /\ (exists frame,
        quality.validate_or_collect empty (quality.fx_schema allowed base) "fx_rates" issues
        = (None, (issues ++ [frame])%list)
        /\ In (empty_batch.table_issue "fx_rates"
                 "Duplicates found for keys ['date', 'from_currency', 'to_currency'] in fx_rates")
              frame)
  /\ (exists frame,
        quality.validate_or_collect empty (quality.payroll_schema allowed) "payroll" issues
        = (None, (issues ++ [frame])%list)
        /\ In (empty_batch.table_issue "payroll"
                 "Payroll identity gross - deductions = net violated") frame)
  /\ quality.validate_or_collect (pd.mkDataFrame sales_columns [])
       (quality.sales_schema allowed) "sales" issues
     = (None, (issues ++ [[empty_batch.table_issue "sales"
                  "Duplicates found for keys ['entity', 'invoice_id'] in sales"]])%list)
  /\ quality.validate_or_collect (pd.mkDataFrame expenses_columns [])
       (quality.expenses_schema allowed) "expenses" issues
     = (None, (issues ++ [[empty_batch.table_issue "expenses"
                  "Duplicates found for keys ['entity', 'bill_id'] in expenses"]])%list)
  /\ quality.validate_or_collect (pd.mkDataFrame fx_columns [])
       (quality.fx_schema allowed base) "fx_rates" issues
     = (None, (issues ++ [[empty_batch.table_issue "fx_rates"
                  "Duplicates found for keys ['date', 'from_currency', 'to_currency'] in fx_rates"]])%list)
  /\ quality.validate_or_collect (pd.mkDataFrame payroll_columns [])
       (quality.payroll_schema allowed) "payroll" issues
     = (None, (issues ++ [[empty_batch.table_issue "payroll"
                  "Payroll identity gross - deductions = net violated"]])%list).
Proof.
  intros empty. repeat split; try reflexivity.
  - apply (empty_facts.collect_frame_check _ _
             (quality._dup_check ["entity"; "invoice_id"] "sales"));
      [left; reflexivity|apply empty_facts.dup_check_fn_empty].
  - apply (empty_facts.collect_frame_check _ _
             (quality._dup_check ["entity"; "bill_id"] "expenses"));
      [left; reflexivity|apply empty_facts.dup_check_fn_empty].
  - apply (empty_facts.collect_frame_check _ _
             (quality._dup_check ["date"; "from_currency"; "to_currency"] "fx_rates"));
      [left; reflexivity|apply empty_facts.dup_check_fn_empty].
  - apply (empty_facts.collect_frame_check _ _
             (pa.mkFrameCheck quality.payroll_identity_fn
                "Payroll identity gross - deductions = net violated"));
      [left; reflexivity|apply empty_facts.payroll_identity_fn_empty].
Qed.

(** The inventory schema has no whole-table check: an inventory batch
    without rows is valid. *)
Example empty_inventory_is_valid (allowed : list string) :
  pa.validate (quality.inventory_schema allowed) (pd.mkDataFrame inventory_columns [])
  = pa.Valid (pd.mkDataFrame inventory_columns []).
Proof. reflexivity. Qed.

(* ------------------------------------------------------------------ *)
(** ** A validated frame reads at the types of its schema *)

Module typed_facts.

Lemma in_enumerate {A} (l : list A) (x : A) :
  In x l -> exists i, In (i, x) (pa.enumerate l).
Proof.
  unfold pa.enumerate. generalize 0%nat.
  induction l as [|a l IH]; intros n H; [destruct H|].
  simpl. destruct H as [->|H].
  - exists n. left. reflexivity.
  - destruct (IH (S n) H) as [i Hi]. exists i. right. exact Hi.
Qed.

Lemma dtype_failures_nil name col cells c :
  pa.dtype_failures name col cells = [] -> In c cells ->
  pa.has_dtype (pa.col_dtype col) c = true.
Proof.
  unfold pa.dtype_failures. cbv zeta. intros H Hc.
  destruct (forallb (pa.has_dtype (pa.col_dtype col)) cells) eqn:E.
  - rewrite forallb_forall in E. apply E. exact Hc.
  - destruct (pa.coerce col); [|discriminate].
    apply app_eq_nil in H. destruct H as [_ H]. discriminate.
Qed.

Lemma null_failures_nil name col cells c :
  pa.null_failures name col cells = [] -> In c cells ->
  pa.nullable col = false -> pd.isna c = false.
Proof.
  unfold pa.null_failures. intros H Hc Hn. rewrite Hn in H.
  destruct (in_enumerate cells c Hc) as [i Hi].
  pose proof (proj1 (facts.flat_map_nil_iff _ _) H (i, c) Hi) as E. simpl in E.
  destruct (pd.isna c); [discriminate|reflexivity].
Qed.

(** In a frame without failure cases, every cell of a schema column has the
    type of the column and is present when the column is not nullable. *)
Lemma valid_cell (s : pa.DataFrameSchema) (df : pd.DataFrame) name col row :
  pa.failure_cases s df = [] ->
  In (name, col) (pa.columns s) -> In row (pd.rows df) ->
  exists c, pd.get (pd.columns df) row name = Some c
            /\ pa.has_dtype (pa.col_dtype col) c = true
            /\ (pa.nullable col = false -> pd.isna c = false).
Proof.
  intros H Hin Hrow. apply facts.failure_cases_nil in H. unfold pa.collected in H.
  apply app_eq_nil in H. destruct H as [_ H].
  apply app_eq_nil in H. destruct H as [H _].
  pose proof (proj1 (facts.flat_map_nil_iff _ _) H (name, col) Hin) as Hc.
  unfold pa.column_failures, pd.column in Hc. unfold pd.get.
  destruct (pd.index_of name (pd.columns df)) as [i|]; simpl in *; [|discriminate].
  apply app_eq_nil in Hc. destruct Hc as [Hd Hc].
  apply app_eq_nil in Hc. destruct Hc as [Hn _].
  assert (In (nth i row pd.NaN) (map (fun r => nth i r pd.NaN) (pd.rows df))) as Hcell
    by (apply (in_map (fun r => nth i r pd.NaN)); exact Hrow).
  eexists. split; [reflexivity|]. split.
  - eapply dtype_failures_nil; eassumption.
  - intros Hnull. eapply null_failures_nil; eassumption.
Qed.

Section Valid.
Variables (s : pa.DataFrameSchema) (df : pd.DataFrame) (row : list pd.cell).
Hypothesis Hvalid : pa.failure_cases s df = [].
Hypothesis Hrow : In row (pd.rows df).

Lemma get_str_ok name checks coerce :
  In (name, pa.mkColumn pa.str checks coerce false) (pa.columns s) ->
  exists v, typed.get_str (pd.columns df) row name = py.Ok v.
Proof.
  intros Hin. destruct (valid_cell s df _ _ row Hvalid Hin Hrow) as [c [Hg [Hd Hn]]].
  unfold typed.get_str. rewrite Hg. specialize (Hn eq_refl).
  destruct c; try discriminate. eexists. reflexivity.
Qed.

Lemma get_opt_str_ok name checks coerce nullable :
  In (name, pa.mkColumn pa.str checks coerce nullable) (pa.columns s) ->
  exists v, typed.get_opt_str (pd.columns df) row name = py.Ok v.
Proof.
  intros Hin. destruct (valid_cell s df _ _ row Hvalid Hin Hrow) as [c [Hg [Hd _]]].
  unfold typed.get_opt_str. rewrite Hg.
  destruct c; try discriminate; eexists; reflexivity.
Qed.

Lemma get_num_ok name checks coerce :
  In (name, pa.mkColumn pa.float checks coerce false) (pa.columns s) ->
  exists v, typed.get_num (pd.columns df) row name = py.Ok v.
Proof.
  intros Hin. destruct (valid_cell s df _ _ row Hvalid Hin Hrow) as [c [Hg [Hd Hn]]].
  unfold typed.get_num. rewrite Hg. specialize (Hn eq_refl).
  destruct c; try discriminate. eexists. reflexivity.
Qed.

Lemma get_time_ok name checks coerce :
  In (name, pa.mkColumn pa.DateTime checks coerce false) (pa.columns s) ->
  exists v, typed.get_time (pd.columns df) row name = py.Ok v.
Proof.
  intros Hin. destruct (valid_cell s df _ _ row Hvalid Hin Hrow) as [c [Hg [Hd Hn]]].
  unfold typed.get_time. rewrite Hg. specialize (Hn eq_refl).
  destruct c; try discriminate. eexists. reflexivity.
Qed.

End Valid.

Lemma mapM_all_ok {A B} (f : A -> py.result B) (l : list A) :
  (forall x, In x l -> exists y, f x = py.Ok y) -> exists ys, py.mapM f l = py.Ok ys.
Proof.
  induction l as [|x l IH]; intros H; simpl.
  - eexists. reflexivity.
  - destruct (H x (or_introl eq_refl)) as [y ->].
    destruct IH as [ys ->]; [intros z Hz; apply H; right; exact Hz|].
    eexists. reflexivity.
Qed.

Ltac read_row Hv Hr :=
  repeat first
    [ match goal with
      | |- context [py.bind (typed.get_time _ _ ?name) _] =>
          let v := fresh "v" in let E := fresh "E" in
          edestruct (get_time_ok _ _ _ Hv Hr name) as [v E]; [simpl; tauto|];
          rewrite E; cbn [py.bind]
      | |- context [py.bind (typed.get_str _ _ ?name) _] =>
          let v := fresh "v" in let E := fresh "E" in
          edestruct (get_str_ok _ _ _ Hv Hr name) as [v E]; [simpl; tauto|];
          rewrite E; cbn [py.bind]
      | |- context [py.bind (typed.get_num _ _ ?name) _] =>
          let v := fresh "v" in let E := fresh "E" in
          edestruct (get_num_ok _ _ _ Hv Hr name) as [v E]; [simpl; tauto|];
          rewrite E; cbn [py.bind]
      | |- context [py.bind (typed.get_opt_str _ _ ?name) _] =>
          let v := fresh "v" in let E := fresh "E" in
          edestruct (get_opt_str_ok _ _ _ Hv Hr name) as [v E]; [simpl; tauto|];
          rewrite E; cbn [py.bind]
      end ].

Lemma valid_frame_inv s df df' :
  run.valid_frame s df = Some df' -> df' = df /\ pa.failure_cases s df = [].
Proof.
  unfold run.valid_frame, pa.validate.
  destruct (pa.failure_cases s df); intros H; [|discriminate].
  injection H as <-. auto.
Qed.

(** The rows of a valid sales frame are read without error. *)
Lemma valid_sales_read allowed df df' :
  run.valid_frame (quality.sales_schema allowed) df = Some df' ->
  exists rows, typed.read typed.sale df' = py.Ok rows.
Proof.
  intros H. apply valid_frame_inv in H. destruct H as [-> Hv].
  apply mapM_all_ok. intros row Hr. unfold typed.sale.
  read_row Hv Hr. eexists. reflexivity.
Qed.

Lemma valid_expenses_read allowed df df' :
  run.valid_frame (quality.expenses_schema allowed) df = Some df' ->
  exists rows, typed.read typed.expense df' = py.Ok rows.
Proof.
  intros H. apply valid_frame_inv in H. destruct H as [-> Hv].
  apply mapM_all_ok. intros row Hr. unfold typed.expense.
  read_row Hv Hr. eexists. reflexivity.
Qed.

Lemma valid_payroll_read allowed df df' :
  run.valid_frame (quality.payroll_schema allowed) df = Some df' ->
  exists rows, typed.read typed.payroll df' = py.Ok rows.
Proof.
  intros H. apply valid_frame_inv in H. destruct H as [-> Hv].
  apply mapM_all_ok. intros row Hr. unfold typed.payroll.
  read_row Hv Hr. eexists. reflexivity.
Qed.

Lemma valid_inventory_read allowed df df' :
  run.valid_frame (quality.inventory_schema allowed) df = Some df' ->
  exists rows, typed.read typed.inventory df' = py.Ok rows.
Proof.
  intros H. apply valid_frame_inv in H. destruct H as [-> Hv].
  apply mapM_all_ok. intros row Hr. unfold typed.inventory.
  read_row Hv Hr. eexists. reflexivity.
Qed.

Lemma valid_fx_read allowed base df df' :
  run.valid_frame (quality.fx_schema allowed base) df = Some df' ->
  exists rows, typed.read typed.fx_rate df' = py.Ok rows.
Proof.
  intros H. apply valid_frame_inv in H. destruct H as [-> Hv].
  apply mapM_all_ok. intros row Hr. unfold typed.fx_rate.
  read_row Hv Hr. eexists. reflexivity.
Qed.

End typed_facts.

(* ------------------------------------------------------------------ *)
(** ** What the duplicate-key check of the FX schema enforces *)

Module fx_key_facts.
Import fx_key.

Section Groups.
Context {K V : Type} (eqb : K -> K -> bool).

Lemma add_to_group_big (k : K) (v : V) (gs : list (K * list V)) :
  Exists big gs -> Exists big (pd.add_to_group eqb k v gs).
Proof.
  induction gs as [|[k' vs] gs IH]; intros H; [inversion H|].
  simpl. destruct (eqb k' k).
  - inversion H as [? ? Hb|? ? Hb]; subst.
    + left. unfold big in *. simpl in *. rewrite length_app. lia.
    + right. exact Hb.
  - inversion H as [? ? Hb|? ? Hb]; subst; [left; exact Hb|right; apply IH; exact Hb].
Qed.

Lemma fold_big (kvs : list (K * V)) (gs : list (K * list V)) :
  Exists big gs ->
  Exists big (fold_left (fun gs kv => pd.add_to_group eqb (fst kv) (snd kv) gs) kvs gs).
Proof.
  revert gs. induction kvs as [|kv kvs IH]; intros gs H; simpl; [exact H|].
  apply IH, add_to_group_big, H.
Qed.

Lemma add_to_group_new (k : K) (v : V) (gs : list (K * list V)) :
  existsb (fun g => eqb (fst g) k) gs = false ->
  pd.add_to_group eqb k v gs = (gs ++ [(k, [v])])%list.
Proof.
  induction gs as [|[k' vs] gs IH]; simpl; [reflexivity|].
  intros H. apply orb_false_iff in H. destruct H as [-> H].
  rewrite (IH H). reflexivity.
Qed.

Lemma add_to_group_old (k : K) (v : V) (gs : list (K * list V)) :
  Forall (fun g => List.length (snd g) = 1%nat) gs ->
  existsb (fun g => eqb (fst g) k) gs = true ->
  Exists big (pd.add_to_group eqb k v gs).
Proof.
  induction gs as [|[k' vs] gs IH]; simpl; [discriminate|].
  intros Hs H. inversion Hs as [|? ? H1 Hs']; subst. simpl in H1.
  destruct (eqb k' k); simpl in H.
  - left. unfold big. simpl. rewrite length_app, H1. simpl. lia.
  - right. apply IH; assumption.
Qed.

(** When every group of [groupby] has one row, no key occurred twice. *)
Lemma groups_of_one (kvs : list (K * V)) (gs : list (K * list V)) :
  Forall (fun g => List.length (snd g) = 1%nat) gs ->
  ForallOrdPairs (fun a b => eqb a b = false) (map fst gs) ->
  Forall (fun g => (List.length (snd g) <= 1)%nat)
         (fold_left (fun gs kv => pd.add_to_group eqb (fst kv) (snd kv) gs) kvs gs) ->
  ForallOrdPairs (fun a b => eqb a b = false) (map fst gs ++ map fst kvs).
Proof.
  revert gs. induction kvs as [|[k v] kvs IH]; intros gs Hs Hd Hle; simpl in *.
  - rewrite app_nil_r. exact Hd.
  - destruct (existsb (fun g => eqb (fst g) k) gs) eqn:E.
    + exfalso. pose proof (fold_big kvs _ (add_to_group_old k v gs Hs E)) as Hb.
      apply Exists_exists in Hb. destruct Hb as [g [Hg Hbig]].
      rewrite Forall_forall in Hle. specialize (Hle g Hg). unfold big in Hbig. lia.
    + rewrite (add_to_group_new k v gs E) in Hle.
      specialize (IH (gs ++ [(k, [v])])%list).
      rewrite map_app in IH. simpl in IH. rewrite <- app_assoc in IH. simpl in IH.
      apply IH; [| |exact Hle].
      * apply Forall_app. split; [exact Hs|]. constructor; [reflexivity|constructor].
      * clear - Hd E. induction gs as [|[k' vs] gs IHg]; simpl in *.
        -- constructor; constructor.
        -- apply orb_false_iff in E. destruct E as [E1 E2].
           inversion Hd as [|? ? Hf Hd']; subst. constructor.
           ++ apply Forall_app. split; [exact Hf|]. constructor; [exact E1|constructor].
           ++ apply IHg; assumption.
Qed.

End Groups.

(** A maximum equal to 1 bounds every group size by 1. *)
Lemma series_max_bound (sizes : list nat) (m : Q) :
  Num.series_max (quality.size_series sizes) = Some m ->
  Forall (fun n => (inject_Z (Z.of_nat n) <= m)%Q) sizes.
Proof.
  revert m. induction sizes as [|n sizes IH]; intros m H; [constructor|].
  simpl in H.
  destruct (Num.series_max (quality.size_series sizes)) as [m'|] eqn:Em.
  - injection H as <-. specialize (IH m' eq_refl).
    destruct (Qle_bool (inject_Z (Z.of_nat n)) m') eqn:El.
    + constructor; [apply Qle_bool_iff; exact El|exact IH].
    + assert (m' <= inject_Z (Z.of_nat n))%Q as Hlt.
      { destruct (Qlt_le_dec (inject_Z (Z.of_nat n)) m') as [Hlt|Hge]; [|exact Hge].
        apply Qlt_le_weak, Qle_bool_iff in Hlt. congruence. }
      constructor; [apply Qle_refl|].
      eapply Forall_impl; [|exact IH]. intros a Ha.
      eapply Qle_trans; [exact Ha|exact Hlt].
  - injection H as <-. constructor; [apply Qle_refl|].
    destruct sizes as [|n' sizes]; [constructor|].
    simpl in Em. destruct (Num.series_max (quality.size_series sizes)); discriminate.
Qed.

Lemma dup_check_sizes (keys : list string) (df : pd.DataFrame) :
  quality.dup_check_fn keys df = true ->
  exists sizes, pd.groupby_size df keys = Some sizes
                /\ Forall (fun n => (n <= 1)%nat) sizes.
Proof.
  unfold quality.dup_check_fn.
  destruct (pd.groupby_size df keys) as [sizes|]; [|discriminate].
  intros H. exists sizes. split; [reflexivity|].
  unfold Num.float_eq in H.
  destruct (Num.series_max (quality.size_series sizes)) as [m|] eqn:Em; [|discriminate].
  apply Qeq_bool_iff in H.
  eapply Forall_impl; [|apply (series_max_bound sizes m Em)].
  intros n Hn. simpl in Hn. rewrite H in Hn.
  unfold Qle in Hn. simpl in Hn. lia.
Qed.

Lemma fx_row_key cols row r :
  typed.fx_rate cols row = py.Ok r ->
  pd.row_key cols row fx_keys = Some (key_cells r).
Proof.
  unfold typed.fx_rate, typed.get_time, typed.get_str, typed.get_num, fx_keys, key_cells.
  simpl.
  destruct (pd.get cols row "date") as [[]|]; simpl; try discriminate.
  destruct (pd.get cols row "from_currency") as [[]|]; simpl; try discriminate.
  destruct (pd.get cols row "to_currency") as [[]|]; simpl; try discriminate.
  destruct (pd.get cols row "rate") as [[]|]; simpl; try discriminate.
  intros H. injection H as <-. reflexivity.
Qed.


Lemma keys_eqb_cells a b : pd.keys_eqb (key_cells a) (key_cells b) = same_triple a b.
Proof.
  unfold pd.keys_eqb, key_cells, same_triple. simpl.
  rewrite andb_true_r, andb_assoc. reflexivity.
Qed.




End fx_key_facts.




(* ------------------------------------------------------------------ *)
(** ** A run that passes the threshold with an invalid batch *)

(** Under [fail_on="NEVER"], a run in which a batch has schema violations
    writes the two DQ reports and then raises: on the month when it does not
    parse, and otherwise on the first [None] that stands for an invalid
    batch. *)
Lemma run_month_never_raises_on_none (settings : config.Settings) (month : string)
    (coa : list Coa.t) (sales expenses payroll inventory fx_rates : pd.DataFrame)
    (fail_on : string) :
  run.issues settings sales expenses payroll inventory fx_rates <> [] ->
  Str.strip (Str.upper fail_on) = "NEVER" ->
  exists e,
    pipeline.run_month settings month
      (run.files coa sales expenses payroll inventory fx_rates) fail_on []
    = (run.dq_reports settings sales expenses payroll inventory fx_rates, py.Raise e)
    /\ (e = py.DateParseError \/ e = py.TypeError_NoneType
        \/ e = py.AttributeError_NoneType).
Proof.
  intros Hi Hn. rewrite run_facts.run_month_phases. unfold io_utils.bind at 1.
  rewrite (run_facts.dq_phase_with_issues _ _ _ _ _ _ _ fail_on [] Hi).
  assert (run.threshold settings sales expenses payroll inventory fx_rates fail_on
          = py.Ok tt) as ->.
  { unfold run.threshold. cbv zeta. rewrite Hn. reflexivity. }
  cbn [app].
  pose proof (run_facts.issues_some_none settings sales expenses payroll inventory fx_rates Hi)
    as Hnone.
  unfold run.curate, io_utils.bind, io_utils.lift, pipeline._month_window.
  destruct (Cal.to_datetime (month ++ "-01")) as [start|];
    [|eexists; split; [reflexivity|auto]].
  cbv beta iota.
  destruct (run.valid_frame (quality.sales_schema _) sales) as [d1|] eqn:E1;
    [|eexists; split; [reflexivity|auto]].
  destruct (typed_facts.valid_sales_read _ _ _ E1) as [r1 R1].
  cbn [pipeline.subscript]. rewrite R1. cbv beta iota.
  destruct (run.valid_frame (quality.expenses_schema _) expenses) as [d2|] eqn:E2;
    [|eexists; split; [reflexivity|auto]].
  destruct (typed_facts.valid_expenses_read _ _ _ E2) as [r2 R2].
  cbn [pipeline.subscript]. rewrite R2. cbv beta iota.
  destruct (run.valid_frame (quality.inventory_schema _) inventory) as [d3|] eqn:E3;
    [|eexists; split; [reflexivity|auto]].
  destruct (typed_facts.valid_inventory_read _ _ _ E3) as [r3 R3].
  cbn [pipeline.subscript]. rewrite R3. cbv beta iota.
  destruct (run.valid_frame (quality.payroll_schema _) payroll) as [d4|] eqn:E4;
    [|eexists; split; [reflexivity|auto]].
  destruct (typed_facts.valid_payroll_read _ _ _ E4) as [r4 R4].
  cbn [pipeline.subscript]. rewrite R4. cbv beta iota.
  destruct (run.valid_frame (quality.fx_schema _ _) fx_rates) as [d5|] eqn:E5;
    [|eexists; split; [reflexivity|auto]].
  exfalso. decompose [or] Hnone; discriminate.
Qed.

(* ------------------------------------------------------------------ *)
(** ** The duplicate-key check *)

Module dup_key_facts.
Import dup_key.

Section Groups.
Context {K V : Type} (eqb : K -> K -> bool).

(** Keys that never repeat give one group of one row each. *)
Lemma groupby_distinct (kvs : list (K * V)) (gs : list (K * list V)) :
  ForallOrdPairs (fun a b => eqb a b = false) (map fst gs ++ map fst kvs) ->
  fold_left (fun gs kv => pd.add_to_group eqb (fst kv) (snd kv) gs) kvs gs
  = (gs ++ map (fun kv => (fst kv, [snd kv])) kvs)%list.
Proof.
  revert gs. induction kvs as [|[k v] kvs IH]; intros gs H; simpl.
  - rewrite app_nil_r. reflexivity.
  - assert (existsb (fun g => eqb (fst g) k) gs = false) as E.
    { clear - H. induction gs as [|[k' vs] gs IHg]; [reflexivity|].
      simpl in *. inversion H as [|? ? Hf Hd]; subst.
      apply orb_false_iff. split.
      - rewrite Forall_forall in Hf. apply Hf. apply in_or_app. right. left. reflexivity.
      - apply IHg. exact Hd. }
    rewrite (fx_key_facts.add_to_group_new eqb k v gs E).
    rewrite IH.
    + rewrite <- app_assoc. reflexivity.
    + rewrite map_app. simpl. rewrite <- app_assoc. exact H.
Qed.

End Groups.

Lemma group_keys (df : pd.DataFrame) (keys : list string) :
  flat_map (fun row =>
    match pd.row_key (pd.columns df) row keys with
    | Some k => if existsb pd.isna k then [] else [(k, tt)]
    | None => []
    end) (pd.rows df)
  = map (fun k => (k, tt)) (keyed_rows df keys).
Proof.
  unfold keyed_rows. induction (pd.rows df) as [|row rows IH]; [reflexivity|].
  simpl. rewrite map_app, IH. f_equal.
  destruct (pd.row_key (pd.columns df) row keys) as [k|]; [|reflexivity].
  destruct (existsb pd.isna k); reflexivity.
Qed.

Lemma series_max_ones (n : nat) :
  Num.series_max (quality.size_series (repeat 1%nat (S n))) = Some (inject_Z 1).
Proof.
  induction n as [|n IH]; [reflexivity|].
  change (repeat 1%nat (S (S n))) with (1%nat :: repeat 1%nat (S n)).
  unfold quality.size_series in *. cbn [map Num.series_max]. rewrite IH. reflexivity.
Qed.

(** The check passes only when the key columns exist, some row has a
    complete key and no key repeats. *)
Lemma dup_check_keys (keys : list string) (df : pd.DataFrame) :
  quality.dup_check_fn keys df = true ->
  has_columns df keys = true /\ keyed_rows df keys <> []
  /\ distinct_keys (keyed_rows df keys).
Proof.
  intros H. destruct (fx_key_facts.dup_check_sizes _ _ H) as [sizes [Hs Hle]].
  unfold quality.dup_check_fn in H. rewrite Hs in H.
  unfold pd.groupby_size in Hs. cbv zeta in Hs.
  rewrite group_keys in Hs. fold (has_columns df keys) in Hs.
  destruct (has_columns df keys); [|discriminate].
  injection Hs as <-. split; [reflexivity|]. split.
  - intros E. rewrite E in H. discriminate.
  - unfold distinct_keys.
    pose proof (fx_key_facts.groups_of_one pd.keys_eqb
                  (map (fun k => (k, tt)) (keyed_rows df keys)) []) as G.
    simpl in G. rewrite map_map in G. simpl in G. rewrite map_id in G.
    apply G; [constructor|constructor|].
    rewrite Forall_map in Hle. exact Hle.
Qed.

Lemma keys_dup_check (keys : list string) (df : pd.DataFrame) :
  has_columns df keys = true -> keyed_rows df keys <> [] ->
  distinct_keys (keyed_rows df keys) ->
  quality.dup_check_fn keys df = true.
Proof.
  intros Hc Hne Hd.
  unfold quality.dup_check_fn, pd.groupby_size. cbv zeta.
  rewrite group_keys. fold (has_columns df keys). rewrite Hc.
  unfold pd.groupby. rewrite groupby_distinct.
  - simpl. rewrite !map_map. simpl.
    destruct (keyed_rows df keys) as [|k ks]; [contradiction|].
    assert (forall l : list (list pd.cell),
               map (fun _ => 1%nat) l = repeat 1%nat (List.length l)) as R.
    { induction l; simpl; congruence. }
    rewrite R. simpl List.length. rewrite series_max_ones. reflexivity.
  - simpl. rewrite map_map. simpl. rewrite map_id. exact Hd.
Qed.

End dup_key_facts.

(** X1. The duplicate-key check of a schema passes exactly on the frames
    that have every key column, at least one row with a complete key, and
    no key occurring twice. *)
Theorem dup_check_fn_iff (keys : list string) (df : pd.DataFrame) :
  quality.dup_check_fn keys df = true
  <-> dup_key.has_columns df keys = true
      /\ dup_key.keyed_rows df keys <> []
      /\ dup_key.distinct_keys (dup_key.keyed_rows df keys).
Proof.
  split.
  - apply dup_key_facts.dup_check_keys.
  - intros [Hc [Hne Hd]]. apply dup_key_facts.keys_dup_check; assumption.
Qed.

(* ------------------------------------------------------------------ *)
(** ** Validated batches, row by row *)

Module schema_facts.
Import schema_rows.

Lemma validate_valid (s : pa.DataFrameSchema) (df df' : pd.DataFrame) :
  pa.validate s df = pa.Valid df' -> df' = df /\ pa.failure_cases s df = [].
Proof.
  unfold pa.validate. destruct (pa.failure_cases s df); intros H; [|discriminate].
  injection H as <-. auto.
Qed.

Lemma check_failures_nil name col cells chk c :
  pa.check_failures name col cells = [] -> In chk (pa.checks col) -> In c cells ->
  pa.has_dtype (pa.col_dtype col) c = true -> pa.check_cell chk c = true.
Proof.
  unfold pa.check_failures. intros H Hk Hc Hd.
  pose proof (proj1 (facts.flat_map_nil_iff _ _) H chk Hk) as H1.
  destruct (typed_facts.in_enumerate cells c Hc) as [i Hi].
  pose proof (proj1 (facts.flat_map_nil_iff _ _) H1 (i, c) Hi) as E. simpl in E.
  destruct (pa.check_cell chk c); [reflexivity|discriminate].
Qed.

(** In a frame without failure cases every cell passes every check of its
    column. *)
Lemma valid_check (s : pa.DataFrameSchema) (df : pd.DataFrame) name col chk row :
  pa.failure_cases s df = [] ->
  In (name, col) (pa.columns s) -> In chk (pa.checks col) -> In row (pd.rows df) ->
  exists c, pd.get (pd.columns df) row name = Some c /\ pa.check_cell chk c = true.
Proof.
  intros H Hin Hk Hrow. apply facts.failure_cases_nil in H. unfold pa.collected in H.
  apply app_eq_nil in H. destruct H as [_ H].
  apply app_eq_nil in H. destruct H as [H _].
  pose proof (proj1 (facts.flat_map_nil_iff _ _) H (name, col) Hin) as Hc.
  unfold pa.column_failures, pd.column in Hc. unfold pd.get.
  destruct (pd.index_of name (pd.columns df)) as [i|]; simpl in *; [|discriminate].
  apply app_eq_nil in Hc. destruct Hc as [Hd Hc].
  apply app_eq_nil in Hc. destruct Hc as [_ Hc].
  assert (In (nth i row pd.NaN) (map (fun r => nth i r pd.NaN) (pd.rows df))) as Hcell
    by (apply (in_map (fun r => nth i r pd.NaN)); exact Hrow).
  eexists. split; [reflexivity|].
  eapply check_failures_nil; try eassumption.
  eapply typed_facts.dtype_failures_nil; eassumption.
Qed.

Lemma frame_check_passes (s : pa.DataFrameSchema) (df : pd.DataFrame) (fc : pa.FrameCheck) :
  pa.failure_cases s df = [] -> In fc (pa.frame_checks s) -> pa.check_fn fc df = true.
Proof.
  intros H Hin. apply facts.failure_cases_nil in H. unfold pa.collected in H.
  apply app_eq_nil in H. destruct H as [_ H].
  apply app_eq_nil in H. destruct H as [_ H].
  pose proof (proj1 (facts.flat_map_nil_iff _ _) H fc Hin) as E. cbv beta in E.
  destruct (pa.check_fn fc df); [reflexivity|discriminate].
Qed.

Lemma isin_str allowed s :
  pa.check_cell (pa.isin allowed) (pd.VStr s) = true -> In s allowed.
Proof.
  cbn [pa.check_cell]. intros H. apply existsb_exists in H. destruct H as [x [Hx E]].
  apply String.eqb_eq in E. subst. exact Hx.
Qed.

Lemma gt_num q : pa.check_cell (pa.gt 0) (pd.VNum q) = true -> (0 < q)%Q.
Proof.
  cbn [pa.check_cell]. intros H. apply negb_true_iff in H.
  apply Qnot_le_lt. intros Hle. apply Qle_bool_iff in Hle.
  change (inject_Z 0) with 0%Q in H. congruence.
Qed.

Lemma ge_num q : pa.check_cell (pa.ge 0) (pd.VNum q) = true -> (0 <= q)%Q.
Proof. cbn [pa.check_cell]. intros H. apply Qle_bool_iff in H. exact H. Qed.

Lemma ne_num q : pa.check_cell (pa.ne 0) (pd.VNum q) = true -> ~ (q == 0)%Q.
Proof.
  cbn [pa.check_cell]. intros H. apply negb_true_iff in H. intros E.
  apply Qeq_bool_iff in E. change (inject_Z 0) with 0%Q in H. congruence.
Qed.

(** The typed rows of a frame come from its rows, one by one. *)
Lemma read_rows {A} (row_of : list string -> list pd.cell -> py.result A)
    (df : pd.DataFrame) (rows : list A) :
  typed.read row_of df = py.Ok rows ->
  Forall2 (fun row r => row_of (pd.columns df) row = py.Ok r) (pd.rows df) rows.
Proof. apply unifier_facts.mapM_ok. Qed.

Lemma Forall2_right {A B} (P : A -> B -> Prop) (Q : B -> Prop) l l' :
  Forall2 P l l' -> (forall a b, In a l -> P a b -> Q b) -> Forall Q l'.
Proof.
  induction 1 as [|a b l l' Hab _ IH]; intros H; constructor.
  - apply (H a b); [left; reflexivity|exact Hab].
  - apply IH. intros a' b' Ha. apply H. right. exact Ha.
Qed.

Lemma Forall2_nil_r {A B} (P : A -> B -> Prop) l : Forall2 P l [] -> l = [].
Proof. inversion 1. reflexivity. Qed.

(** The keys of the typed rows are the keys [groupby] groups. *)
Lemma keyed_rows_typed {A} (row_of : list string -> list pd.cell -> py.result A)
    (key : A -> list pd.cell) (keys : list string) (df : pd.DataFrame) (rows : list A) :
  (forall row r, row_of (pd.columns df) row = py.Ok r ->
                 pd.row_key (pd.columns df) row keys = Some (key r)
                 /\ existsb pd.isna (key r) = false) ->
  typed.read row_of df = py.Ok rows ->
  dup_key.keyed_rows df keys = map key rows.
Proof.
  intros Hk Hr. apply read_rows in Hr. unfold dup_key.keyed_rows.
  induction Hr as [|row r rws rows Hrow _ IH]; [reflexivity|].
  simpl. destruct (Hk row r Hrow) as [-> ->]. simpl. rewrite IH. reflexivity.
Qed.

Lemma distinct_map {A} (key : A -> list pd.cell) (same : A -> A -> bool) (rows : list A) :
  (forall a b, pd.keys_eqb (key a) (key b) = same a b) ->
  dup_key.distinct_keys (map key rows) ->
  ForallOrdPairs (fun a b => same a b = false) rows.
Proof.
  intros Hs. unfold dup_key.distinct_keys.
  induction rows as [|r rows IH]; intros H; [constructor|].
  simpl in H. inversion H as [|? ? Hf Hd]; subst. constructor.
  - rewrite Forall_map in Hf. eapply Forall_impl; [|exact Hf].
    intros a Ha. rewrite <- Hs. exact Ha.
  - apply IH. exact Hd.
Qed.

(** The maximum of a series bounds its entries. *)
Lemma series_max_ge (xs : list Num.float) (m q : Q) :
  Num.series_max xs = Some m -> In (Some q) xs -> (q <= m)%Q.
Proof.
  revert m. induction xs as [|x xs IH]; intros m Hm Hin; [destruct Hin|].
  simpl in Hm. destruct x as [x|].
  - destruct (Num.series_max xs) as [m'|] eqn:Em.
    + injection Hm as <-. destruct (Qle_bool x m') eqn:El.
      * destruct Hin as [E|Hin]; [injection E as <-; apply Qle_bool_iff; exact El|].
        apply IH; [reflexivity|exact Hin].
      * assert (m' <= x)%Q as Hle.
        { destruct (Qlt_le_dec x m') as [Hlt|Hge]; [|exact Hge].
          apply Qlt_le_weak, Qle_bool_iff in Hlt. congruence. }
        destruct Hin as [E|Hin]; [injection E as <-; apply Qle_refl|].
        eapply Qle_trans; [apply IH; [reflexivity|exact Hin]|exact Hle].
    + injection Hm as <-. destruct Hin as [E|Hin]; [injection E as <-; apply Qle_refl|].
      exfalso. clear - Em Hin. induction xs as [|[y|] xs IHx]; simpl in *.
      * destruct Hin.
      * destruct (Num.series_max xs); discriminate.
      * destruct Hin as [E|Hin]; [discriminate|]. apply IHx; assumption.
  - destruct Hin as [E|Hin]; [discriminate|]. apply IH; assumption.
Qed.

Lemma series_max_nonempty (xs : list Num.float) (m : Q) :
  Num.series_max xs = Some m -> xs <> [].
Proof. intros H E. subst. discriminate. Qed.

(** A float column of a typed frame, as a series. *)
Lemma float_series_typed {A} (f : A -> Q) (name : string) (cols : list string)
    (rws : list (list pd.cell)) (rows : list A) (xs : list Num.float) :
  quality.float_series (pd.mkDataFrame cols rws) name = Some xs ->
  Forall2 (fun row r => pd.get cols row name = Some (pd.VNum (f r))) rws rows ->
  xs = map (fun r => Some (f r)) rows.
Proof.
  unfold quality.float_series, pd.column, pd.get. simpl.
  destruct (pd.index_of name cols) as [i|]; simpl; [|discriminate].
  intros H HF. revert xs H.
  induction HF as [|row r rws rows Hrow _ IH]; intros xs H; simpl in H.
  - injection H as <-. reflexivity.
  - injection Hrow as Hrow. rewrite Hrow in H.
    destruct (fold_right _ (Some []) (map (fun r0 => nth i r0 pd.NaN) rws)) as [l|];
      [|discriminate].
    injection H as <-. simpl. f_equal. apply IH. reflexivity.
Qed.

Lemma zip3_map {A} (f g h : A -> Q) (rows : list A) :
  quality.zip3 quality.abs_diff3 (map (fun r => Some (f r)) rows)
    (map (fun r => Some (g r)) rows) (map (fun r => Some (h r)) rows)
  = map (fun r => Some (Qabs (f r - g r - h r))) rows.
Proof. induction rows as [|r rows IH]; simpl; [reflexivity|]. rewrite IH. reflexivity. Qed.

(** The cells a typed row was read from. *)
Ltac cells :=
  unfold typed.sale, typed.expense, typed.payroll, typed.inventory, typed.fx_rate,
    typed.get_time, typed.get_str, typed.get_num, typed.get_opt_str;
  repeat match goal with
         | |- context [pd.get ?cols ?row ?name] =>
             destruct (pd.get cols row name) as [[]|]; cbn [py.bind]; try discriminate
         end;
  intros H; injection H as <-; cbn; repeat split; reflexivity.

Lemma sale_cells cols row s :
  typed.sale cols row = py.Ok s ->
  pd.get cols row "entity" = Some (pd.VStr (Sale.entity s))
  /\ pd.get cols row "invoice_id" = Some (pd.VStr (Sale.invoice_id s))
  /\ pd.get cols row "currency" = Some (pd.VStr (Sale.currency s))
  /\ pd.get cols row "amount" = Some (pd.VNum (Sale.amount s)).
Proof. cells. Qed.

Lemma expense_cells cols row e :
  typed.expense cols row = py.Ok e ->
  pd.get cols row "entity" = Some (pd.VStr (Expense.entity e))
  /\ pd.get cols row "bill_id" = Some (pd.VStr (Expense.bill_id e))
  /\ pd.get cols row "currency" = Some (pd.VStr (Expense.currency e))
  /\ pd.get cols row "amount" = Some (pd.VNum (Expense.amount e)).
Proof. cells. Qed.

Lemma payroll_cells cols row p :
  typed.payroll cols row = py.Ok p ->
  pd.get cols row "currency" = Some (pd.VStr (Payroll.currency p))
  /\ pd.get cols row "gross" = Some (pd.VNum (Payroll.gross p))
  /\ pd.get cols row "deductions" = Some (pd.VNum (Payroll.deductions p))
  /\ pd.get cols row "net" = Some (pd.VNum (Payroll.net p)).
Proof. cells. Qed.

Lemma inventory_cells cols row i :
  typed.inventory cols row = py.Ok i ->
  pd.get cols row "movement_type" = Some (pd.VStr (Inventory.movement_type i))
  /\ pd.get cols row "qty" = Some (pd.VNum (Inventory.qty i))
  /\ pd.get cols row "unit_cost" = Some (pd.VNum (Inventory.unit_cost i))
  /\ pd.get cols row "currency" = Some (pd.VStr (Inventory.currency i)).
Proof. cells. Qed.

Lemma fx_cells cols row r :
  typed.fx_rate cols row = py.Ok r ->
  pd.get cols row "from_currency" = Some (pd.VStr (FxRate.from_currency r))
  /\ pd.get cols row "to_currency" = Some (pd.VStr (FxRate.to_currency r))
  /\ pd.get cols row "rate" = Some (pd.VNum (FxRate.rate r)).
Proof. cells. Qed.

(** The check [chk] of column [name], on the value [v] the typed row holds. *)
Lemma checked (s : pa.DataFrameSchema) (df : pd.DataFrame) name col chk row v :
  pa.failure_cases s df = [] ->
  In (name, col) (pa.columns s) -> In chk (pa.checks col) -> In row (pd.rows df) ->
  pd.get (pd.columns df) row name = Some v -> pa.check_cell chk v = true.
Proof.
  intros Hv Hin Hk Hrow Hg.
  destruct (valid_check s df name col chk row Hv Hin Hk Hrow) as [c [Hc Hchk]].
  congruence.
Qed.

End schema_facts.

Module schema_results.
Import schema_rows schema_facts.

Ltac pick := cbn; repeat (first [left; reflexivity | right]).

(** The check of a column, on the cell of a row. *)
Ltac by_check Hv Hin :=
  match goal with
  | Hcell : pd.get _ ?row ?name = Some ?v |- pa.check_cell ?chk ?v = true =>
      eapply (schema_facts.checked _ _ name _ chk row v Hv); [pick|pick|exact Hin|exact Hcell]
  end.

Lemma valid_frame_of s df df' :
  pa.validate s df = pa.Valid df' -> run.valid_frame s df = Some df'.
Proof. unfold run.valid_frame. intros ->. reflexivity. Qed.

Lemma dup_check_rows {A} (row_of : list string -> list pd.cell -> py.result A)
    (key : A -> list pd.cell) (same : A -> A -> bool) (keys : list string)
    (df : pd.DataFrame) (rows : list A) :
  (forall row r, row_of (pd.columns df) row = py.Ok r ->
                 pd.row_key (pd.columns df) row keys = Some (key r)
                 /\ existsb pd.isna (key r) = false) ->
  (forall a b, pd.keys_eqb (key a) (key b) = same a b) ->
  quality.dup_check_fn keys df = true ->
  typed.read row_of df = py.Ok rows ->
  rows <> [] /\ ForallOrdPairs (fun a b => same a b = false) rows.
Proof.
  intros Hk Hs Hc Hr. apply dup_key_facts.dup_check_keys in Hc.
  destruct Hc as [_ [Hne Hd]].
  rewrite (keyed_rows_typed row_of key keys df rows Hk Hr) in Hne, Hd. split.
  - intros E. subst. apply Hne. reflexivity.
  - apply (distinct_map key); assumption.
Qed.

End schema_results.

(** X2. A sales batch that validation lets through reads as typed rows, at
    least one, each with a positive amount and an allowed currency, and no
    two with the same entity and invoice id. *)
Theorem valid_sales_rows (allowed : list string) (df df' : pd.DataFrame) :
  pa.validate (quality.sales_schema allowed) df = pa.Valid df' ->
  exists rows,
    typed.read typed.sale df' = py.Ok rows
    /\ rows <> []
    /\ Forall (schema_rows.sale_ok allowed) rows
    /\ ForallOrdPairs (fun a b => schema_rows.same_invoice a b = false) rows.
Proof.
  intros H.
  destruct (typed_facts.valid_sales_read _ _ _ (schema_results.valid_frame_of _ _ _ H))
    as [rows Hr].
  apply schema_facts.validate_valid in H. destruct H as [-> Hv].
  exists rows. split; [exact Hr|].
  assert (rows <> [] /\ ForallOrdPairs (fun a b => schema_rows.same_invoice a b = false) rows)
    as [Hne Hd].
  { apply (schema_results.dup_check_rows typed.sale
             (fun s => [pd.VStr (Sale.entity s); pd.VStr (Sale.invoice_id s)])
             schema_rows.same_invoice ["entity"; "invoice_id"] df rows).
    - intros row r Hrow. apply schema_facts.sale_cells in Hrow.
      destruct Hrow as [He [Hi _]]. cbn [pd.row_key]. rewrite He, Hi. auto.
    - intros a b. unfold pd.keys_eqb, schema_rows.same_invoice. simpl.
      rewrite andb_true_r. reflexivity.
    - apply (schema_facts.frame_check_passes _ _
               (quality._dup_check ["entity"; "invoice_id"] "sales") Hv).
      left. reflexivity.
    - exact Hr. }
  split; [exact Hne|]. split; [|exact Hd].
  apply (schema_facts.Forall2_right _ _ _ _ (schema_facts.read_rows _ _ _ Hr)).
  intros row s Hin Hrow. apply schema_facts.sale_cells in Hrow.
  destruct Hrow as [_ [_ [Hc Ha]]]. split.
  - apply schema_facts.gt_num.
    schema_results.by_check Hv Hin.
  - apply schema_facts.isin_str.
    schema_results.by_check Hv Hin.
Qed.

Lemma valid_sales_rows_witness :
  exists rows,
    typed.read typed.sale sales_frame_1 = py.Ok rows
    /\ rows <> []
    /\ Forall (schema_rows.sale_ok ["USD"; "TZS"; "EUR"]) rows
    /\ ForallOrdPairs (fun a b => schema_rows.same_invoice a b = false) rows.
Proof.
  apply (valid_sales_rows ["USD"; "TZS"; "EUR"] sales_frame_1 sales_frame_1).
  reflexivity.
Defined.

(** X3. A validated expenses batch reads as typed rows, at least one, each
    with a positive amount and an allowed currency, and no two with the same
    entity and bill id. *)
Theorem valid_expenses_rows (allowed : list string) (df df' : pd.DataFrame) :
  pa.validate (quality.expenses_schema allowed) df = pa.Valid df' ->
  exists rows,
    typed.read typed.expense df' = py.Ok rows
    /\ rows <> []
    /\ Forall (schema_rows.expense_ok allowed) rows
    /\ ForallOrdPairs (fun a b => schema_rows.same_bill a b = false) rows.
Proof.
  intros H.
  destruct (typed_facts.valid_expenses_read _ _ _ (schema_results.valid_frame_of _ _ _ H))
    as [rows Hr].
  apply schema_facts.validate_valid in H. destruct H as [-> Hv].
  exists rows. split; [exact Hr|].
  assert (rows <> [] /\ ForallOrdPairs (fun a b => schema_rows.same_bill a b = false) rows)
    as [Hne Hd].
  { apply (schema_results.dup_check_rows typed.expense
             (fun s => [pd.VStr (Expense.entity s); pd.VStr (Expense.bill_id s)])
             schema_rows.same_bill ["entity"; "bill_id"] df rows).
    - intros row r Hrow. apply schema_facts.expense_cells in Hrow.
      destruct Hrow as [He [Hi _]]. cbn [pd.row_key]. rewrite He, Hi. auto.
    - intros a b. unfold pd.keys_eqb, schema_rows.same_bill. simpl.
      rewrite andb_true_r. reflexivity.
    - apply (schema_facts.frame_check_passes _ _
               (quality._dup_check ["entity"; "bill_id"] "expenses") Hv).
      left. reflexivity.
    - exact Hr. }
  split; [exact Hne|]. split; [|exact Hd].
  apply (schema_facts.Forall2_right _ _ _ _ (schema_facts.read_rows _ _ _ Hr)).
  intros row s Hin Hrow. apply schema_facts.expense_cells in Hrow.
  destruct Hrow as [_ [_ [Hc Ha]]]. split.
  - apply schema_facts.gt_num.
    schema_results.by_check Hv Hin.
  - apply schema_facts.isin_str.
    schema_results.by_check Hv Hin.
Qed.

Lemma valid_expenses_rows_witness :
  exists rows,
    typed.read typed.expense expenses_frame_1 = py.Ok rows
    /\ rows <> []
    /\ Forall (schema_rows.expense_ok ["USD"; "TZS"; "EUR"]) rows
    /\ ForallOrdPairs (fun a b => schema_rows.same_bill a b = false) rows.
Proof.
  apply (valid_expenses_rows ["USD"; "TZS"; "EUR"] expenses_frame_1 expenses_frame_1).
  reflexivity.
Defined.

(** X4. A validated payroll batch reads as typed rows, at least one, each
    with non-negative gross, deductions and net and an allowed currency. *)
Theorem valid_payroll_rows (allowed : list string) (df df' : pd.DataFrame) :
  pa.validate (quality.payroll_schema allowed) df = pa.Valid df' ->
  exists rows,
    typed.read typed.payroll df' = py.Ok rows
    /\ rows <> []
    /\ Forall (schema_rows.payroll_ok allowed) rows.
Proof.
  intros H.
  destruct (typed_facts.valid_payroll_read _ _ _ (schema_results.valid_frame_of _ _ _ H))
    as [rows Hr].
  apply schema_facts.validate_valid in H. destruct H as [-> Hv].
  exists rows. split; [exact Hr|].
  pose proof (schema_facts.read_rows _ _ _ Hr) as HF.
  pose proof (schema_facts.frame_check_passes _ _
                (pa.mkFrameCheck quality.payroll_identity_fn
                   "Payroll identity gross - deductions = net violated") Hv
                (or_introl eq_refl)) as Hid.
  cbn [pa.check_fn] in Hid. unfold quality.payroll_identity_fn in Hid.
  destruct df as [cols rws]. cbn [pd.columns pd.rows] in *.
  destruct (quality.float_series _ "gross") as [g|] eqn:Eg; [|discriminate].
  destruct (quality.float_series _ "deductions") as [d|] eqn:Ed; [|discriminate].
  destruct (quality.float_series _ "net") as [n|] eqn:En; [|discriminate].
  rewrite (schema_facts.float_series_typed Payroll.gross _ _ _ rows _ Eg) in Hid.
  2:{ eapply Forall2_impl; [|exact HF]. intros row p Hrow.
      apply schema_facts.payroll_cells in Hrow. tauto. }
  rewrite (schema_facts.float_series_typed Payroll.deductions _ _ _ rows _ Ed) in Hid.
  2:{ eapply Forall2_impl; [|exact HF]. intros row p Hrow.
      apply schema_facts.payroll_cells in Hrow. tauto. }
  rewrite (schema_facts.float_series_typed Payroll.net _ _ _ rows _ En) in Hid.
  2:{ eapply Forall2_impl; [|exact HF]. intros row p Hrow.
      apply schema_facts.payroll_cells in Hrow. tauto. }
  rewrite schema_facts.zip3_map in Hid.
  split.
  { intros E. subst. discriminate. }
  apply (schema_facts.Forall2_right _ _ _ _ HF).
  intros row p Hin Hrow. apply schema_facts.payroll_cells in Hrow.
  destruct Hrow as [Hc [Hg [Hd Hn]]].
  repeat split.
  - apply schema_facts.ge_num.
    schema_results.by_check Hv Hin.
  - apply schema_facts.ge_num.
    schema_results.by_check Hv Hin.
  - apply schema_facts.ge_num.
    schema_results.by_check Hv Hin.
  - apply schema_facts.isin_str.
    schema_results.by_check Hv Hin.
Qed.

Lemma valid_payroll_rows_witness :
  exists rows,
    typed.read typed.payroll payroll_frame_1 = py.Ok rows
    /\ rows <> []
    /\ Forall (schema_rows.payroll_ok ["USD"; "TZS"; "EUR"]) rows.
Proof.
  apply (valid_payroll_rows ["USD"; "TZS"; "EUR"] payroll_frame_1 payroll_frame_1).
  reflexivity.
Defined.

(** X5. A validated inventory batch reads as typed rows, each a receipt, an
    issue or an adjustment with a quantity other than zero, a non-negative
    unit cost and an allowed currency; the ledger account of such a row is
    50000001 for an issue and 10000001 otherwise, never the text of a
    missing value. *)
Theorem valid_inventory_rows (allowed : list string) (df df' : pd.DataFrame) :
  pa.validate (quality.inventory_schema allowed) df = pa.Valid df' ->
  exists rows,
    typed.read typed.inventory df' = py.Ok rows
    /\ Forall (schema_rows.inventory_ok allowed) rows
    /\ Forall (fun i => Txn.account_code (transform.inventory_txn i)
                        = if String.eqb (Inventory.movement_type i) "issue"
                          then "50000001" else "10000001") rows.
Proof.
  intros H.
  destruct (typed_facts.valid_inventory_read _ _ _ (schema_results.valid_frame_of _ _ _ H))
    as [rows Hr].
  apply schema_facts.validate_valid in H. destruct H as [-> Hv].
  exists rows. split; [exact Hr|].
  assert (Forall (schema_rows.inventory_ok allowed) rows) as Hok.
  { apply (schema_facts.Forall2_right _ _ _ _ (schema_facts.read_rows _ _ _ Hr)).
    intros row i Hin Hrow. apply schema_facts.inventory_cells in Hrow.
    destruct Hrow as [Hm [Hq [Hu Hc]]]. repeat split.
    - apply schema_facts.isin_str.
      schema_results.by_check Hv Hin.
    - apply schema_facts.ne_num.
      schema_results.by_check Hv Hin.
    - apply schema_facts.ge_num.
      schema_results.by_check Hv Hin.
    - apply schema_facts.isin_str.
      schema_results.by_check Hv Hin. }
  split; [exact Hok|].
  eapply Forall_impl; [|exact Hok]. intros i [Hm _].
  unfold transform.inventory_txn, transform.inventory_row. cbn [Txn.account_code].
  simpl in Hm. decompose [or] Hm; try contradiction;
    match goal with E : _ = Inventory.movement_type i |- _ => rewrite <- E end;
    reflexivity.
Qed.

Lemma valid_inventory_rows_witness :
  exists rows,
    typed.read typed.inventory inventory_frame_1 = py.Ok rows
    /\ Forall (schema_rows.inventory_ok ["USD"; "TZS"; "EUR"]) rows
    /\ Forall (fun i => Txn.account_code (transform.inventory_txn i)
                        = if String.eqb (Inventory.movement_type i) "issue"
                          then "50000001" else "10000001") rows.
Proof.
  apply (valid_inventory_rows ["USD"; "TZS"; "EUR"] inventory_frame_1 inventory_frame_1).
  reflexivity.
Defined.

(** X6. A validated FX batch reads as typed rows, at least one, each with a
    positive rate, the base currency as target and an allowed source
    currency, no two with the same (date, from_currency, to_currency); and
    [fx_to_base] keeps every one of them, in order, with the date cut to the
    calendar day. *)
Theorem valid_fx_rows (allowed : list string) (base : string) (df df' : pd.DataFrame) :
  pa.validate (quality.fx_schema allowed base) df = pa.Valid df' ->
  exists rows,
    typed.read typed.fx_rate df' = py.Ok rows
    /\ rows <> []
    /\ Forall (schema_rows.fx_ok allowed base) rows
    /\ ForallOrdPairs (fun a b => fx_key.same_triple a b = false) rows
    /\ transform.fx_to_base rows base = map schema_rows.fx_day rows.
Proof.
  intros H.
  destruct (typed_facts.valid_fx_read _ _ _ _ (schema_results.valid_frame_of _ _ _ H))
    as [rows Hr].
  apply schema_facts.validate_valid in H. destruct H as [-> Hv].
  exists rows. split; [exact Hr|].
  assert (rows <> [] /\ ForallOrdPairs (fun a b => fx_key.same_triple a b = false) rows)
    as [Hne Hd].
  { apply (schema_results.dup_check_rows typed.fx_rate fx_key.key_cells
             fx_key.same_triple fx_key.fx_keys df rows).
    - intros row r Hrow. split; [apply fx_key_facts.fx_row_key; exact Hrow|reflexivity].
    - apply fx_key_facts.keys_eqb_cells.
    - apply (schema_facts.frame_check_passes _ _
               (quality._dup_check ["date"; "from_currency"; "to_currency"] "fx_rates") Hv).
      left. reflexivity.
    - exact Hr. }
  split; [exact Hne|].
  assert (Forall (schema_rows.fx_ok allowed base) rows) as Hok.
  { apply (schema_facts.Forall2_right _ _ _ _ (schema_facts.read_rows _ _ _ Hr)).
    intros row r Hin Hrow. apply schema_facts.fx_cells in Hrow.
    destruct Hrow as [Hf [Ht Hq]]. repeat split.
    - apply schema_facts.gt_num.
      schema_results.by_check Hv Hin.
    - assert (In (FxRate.to_currency r) [base]) as Hb.
      { apply schema_facts.isin_str.
        schema_results.by_check Hv Hin. }
      destruct Hb as [Hb|[]]. symmetry. exact Hb.
    - apply schema_facts.isin_str.
      schema_results.by_check Hv Hin. }
  split; [exact Hok|]. split; [exact Hd|].
  unfold transform.fx_to_base. clear - Hok.
  induction Hok as [|r rows [_ [Hb _]] _ IH]; [reflexivity|].
  cbn [map filter Fx.to_currency]. rewrite Hb, String.eqb_refl.
  unfold schema_rows.fx_day at 1. rewrite Hb. f_equal. exact IH.
Qed.

Lemma valid_fx_rows_witness :
  exists rows,
    typed.read typed.fx_rate fx_frame_1 = py.Ok rows
    /\ rows <> []
    /\ Forall (schema_rows.fx_ok ["USD"; "TZS"; "EUR"] "USD") rows
    /\ ForallOrdPairs (fun a b => fx_key.same_triple a b = false) rows
    /\ transform.fx_to_base rows "USD" = map schema_rows.fx_day rows.
Proof.
  apply (valid_fx_rows ["USD"; "TZS"; "EUR"] "USD" fx_frame_1 fx_frame_1).
  reflexivity.
Defined.

(* ------------------------------------------------------------------ *)
(** ** Strict schemas and the conversion invariant *)

Module strict_facts.

Lemma index_of_In name cols i : pd.index_of name cols = Some i -> In name cols.
Proof.
  revert i. induction cols as [|c cols IH]; intros i H; [discriminate|].
  simpl in H. destruct (String.eqb c name) eqn:E.
  - apply String.eqb_eq in E. left. exact E.
  - destruct (pd.index_of name cols) as [j|]; [|discriminate]. right. eapply IH. reflexivity.
Qed.

(** A strict schema lets through only the frames that have its columns and
    no other. *)
Lemma strict_columns (s : pa.DataFrameSchema) (df : pd.DataFrame) (c : string) :
  pa.failure_cases s df = [] -> pa.strict s = true ->
  In c (pd.columns df) <-> In c (map fst (pa.columns s)).
Proof.
  intros H Hs. apply facts.failure_cases_nil in H. unfold pa.collected in H.
  apply app_eq_nil in H. destruct H as [H1 H].
  apply app_eq_nil in H. destruct H as [H2 _]. split.
  - intros Hc. unfold pa.strict_failures in H1. rewrite Hs in H1.
    pose proof (proj1 (facts.flat_map_nil_iff _ _) H1 c Hc) as E. cbv beta in E.
    destruct (existsb _ (pa.columns s)) eqn:Ex; [|discriminate].
    apply existsb_exists in Ex. destruct Ex as [nc [Hnc Hn]].
    apply String.eqb_eq in Hn. subst. apply in_map. exact Hnc.
  - intros Hc. apply in_map_iff in Hc. destruct Hc as [[name col] [<- Hnc]].
    pose proof (proj1 (facts.flat_map_nil_iff _ _) H2 _ Hnc) as E.
    unfold pa.column_failures, pd.column in E. simpl.
    destruct (pd.index_of name (pd.columns df)) as [i|] eqn:Ei; [|discriminate].
    eapply index_of_In. exact Ei.
Qed.

End strict_facts.

Module list_facts.

Lemma Forall2_in_r {A B} (P : A -> B -> Prop) l l' b :
  Forall2 P l l' -> In b l' -> exists a, In a l /\ P a b.
Proof.
  induction 1 as [|a b' l l' Hab _ IH]; intros Hb; [destruct Hb|].
  destruct Hb as [<-|Hb].
  - exists a. split; [left; reflexivity|exact Hab].
  - destruct (IH Hb) as [a' [Ha' Hp]]. exists a'. split; [right; exact Ha'|exact Hp].
Qed.

End list_facts.

(** X7. The schemas are strict: a batch that validation lets through has
    exactly the columns of its schema, in any order; a batch with a column
    missing or a column too many is never valid. *)
Theorem validated_columns (allowed : list string) (base : string)
    (s : pa.DataFrameSchema) (df df' : pd.DataFrame) (c : string) :
  In s (schemas.all allowed base) ->
  pa.validate s df = pa.Valid df' ->
  In c (pd.columns df') <-> In c (map fst (pa.columns s)).
Proof.
  intros Hs H. apply schema_facts.validate_valid in H. destruct H as [-> Hv].
  apply strict_facts.strict_columns; [exact Hv|].
  unfold schemas.all in Hs. simpl in Hs.
  decompose [or] Hs; try contradiction; subst; reflexivity.
Qed.

Lemma validated_columns_witness :
  In "amount" (pd.columns sales_frame_1)
  <-> In "amount" (map fst (pa.columns (quality.sales_schema ["USD"; "TZS"; "EUR"]))).
Proof.
  apply (validated_columns ["USD"; "TZS"; "EUR"] "USD"
           (quality.sales_schema ["USD"; "TZS"; "EUR"]) sales_frame_1 sales_frame_1 "amount").
  - left. reflexivity.
  - reflexivity.
Defined.

Module base_facts.
Import transform.


End base_facts.





(* ------------------------------------------------------------------ *)
(** ** The ledger: order, content, signs *)

Module order_facts.

Lemma lex_antisym c k c' k' :
  c' = CompOpp c -> k' = CompOpp k -> transform.lex c' k' = CompOpp (transform.lex c k).
Proof. intros -> ->. destruct c; reflexivity. Qed.




Lemma index_leb_total (a b : string * string) :
  transform.index_leb a b = false -> transform.index_leb b a = true.
Proof.
  unfold transform.index_leb.
  assert (transform.lex (String.compare (fst b) (fst a)) (String.compare (snd b) (snd a))
          = CompOpp (transform.lex (String.compare (fst a) (fst b))
                       (String.compare (snd a) (snd b)))) as ->.
  { apply lex_antisym; apply String.compare_antisym. }
  destruct (transform.lex _ _); intros H; try discriminate H; reflexivity.
Qed.

Section Sorted.
Context {A : Type} (le : A -> A -> bool).
Hypothesis le_total : forall a b, le a b = false -> le b a = true.

Lemma insert_sorted_sorted (x : A) (l : list A) :
  ordering.is_sorted le l = true -> ordering.is_sorted le (pd.insert_sorted le x l) = true.
Proof.
  induction l as [|y r IH]; [reflexivity|].
  intros Hs. cbn [pd.insert_sorted]. destruct (le x y) eqn:E.
  - cbn [ordering.is_sorted]. cbn [ordering.is_sorted] in Hs. rewrite E. exact Hs.
  - destruct r as [|z r'].
    + cbn. rewrite (le_total _ _ E). reflexivity.
    + cbn [ordering.is_sorted] in Hs. apply andb_true_iff in Hs. destruct Hs as [Hyz Hs].
      specialize (IH Hs). cbn [pd.insert_sorted] in *.
      destruct (le x z) eqn:Exz.
      * cbn [ordering.is_sorted]. cbn [ordering.is_sorted] in IH.
        rewrite (le_total _ _ E). exact IH.
      * change (le y z && ordering.is_sorted le (z :: pd.insert_sorted le x r') = true).
        rewrite Hyz. exact IH.
Qed.

Lemma sort_values_sorted (l : list A) : ordering.is_sorted le (pd.sort_values le l) = true.
Proof.
  induction l as [|x l IH]; [reflexivity|].
  cbn [pd.sort_values fold_right]. apply insert_sorted_sorted. exact IH.
Qed.

End Sorted.


End order_facts.

Module sign_facts.

Lemma rint_nonneg (x : Q) : 0 <= Qnum x -> 0 <= Num.rint x.
Proof.
  unfold Num.rint. intros H.
  pose proof (Z.div_pos (Qnum x) (Zpos (Qden x)) H ltac:(lia)) as Hf.
  destruct (_ <? _); [exact Hf|].
  destruct (_ <? _); [lia|]. destruct (Z.even _); lia.
Qed.

Lemma rint_nonpos (x : Q) : Qnum x <= 0 -> Num.rint x <= 0.
Proof.
  unfold Num.rint. intros H.
  pose proof (Z.div_mod (Qnum x) (Zpos (Qden x)) ltac:(lia)) as Hdm.
  pose proof (Z.mod_pos_bound (Qnum x) (Zpos (Qden x)) ltac:(lia)) as Hm.
  destruct (2 * (Qnum x mod Zpos (Qden x)) <? Zpos (Qden x)) eqn:E1.
  - nia.
  - apply Z.ltb_ge in E1.
    assert (Qnum x / Zpos (Qden x) <= -1) by nia.
    destruct (_ <? _); [lia|]. destruct (Z.even _); lia.
Qed.

Lemma round2_nonneg (x : Q) : (0 <= x)%Q -> (0 <= Num.round2 x)%Q.
Proof.
  intros H. unfold Num.round2, Qle. simpl.
  assert (0 <= Num.rint (x * 100)); [|lia].
  apply rint_nonneg. simpl. unfold Qle in H. simpl in H. lia.
Qed.

Lemma round2_nonpos (x : Q) : (x <= 0)%Q -> (Num.round2 x <= 0)%Q.
Proof.
  intros H. unfold Num.round2, Qle. simpl.
  assert (Num.rint (x * 100) <= 0); [|lia].
  apply rint_nonpos. simpl. unfold Qle in H. simpl in H. lia.
Qed.

(** The rate a record is converted at is 1 or the rate of an FX row. *)
Lemma rate_for_positive fx base r q :
  Forall (fun f => (0 < Fx.rate f)%Q) fx ->
  conversion.rate_for fx base r = Some q -> (0 < q)%Q.
Proof.
  intros Hfx. unfold conversion.rate_for, conversion.rate_fx_for.
  destruct (conversion.is_foreign base r).
  - destruct (conversion.fx_rows_for fx r) as [|f l] eqn:E; [discriminate|].
    intros H. injection H as <-.
    rewrite Forall_forall in Hfx. apply Hfx.
    assert (In f (conversion.fx_rows_for fx r)) as Hin by (rewrite E; left; reflexivity).
    unfold conversion.fx_rows_for in Hin. apply filter_In in Hin. tauto.
  - intros H. injection H as <-. reflexivity.
Qed.

End sign_facts.

Module ledger_facts.
Import transform.

(** The ledger, step by step. *)
Lemma to_fact_transactions_ok sales expenses payroll inventory fx base fact :
  to_fact_transactions sales expenses payroll inventory fx base = py.Ok fact ->
  exists ps cs,
    py.mapM payroll_txn payroll = py.Ok ps
    /\ add_fx_amount_base
         (map sale_txn sales ++ map expense_txn expenses ++ ps ++ inventory_txns inventory)
         fx base = py.Ok cs
    /\ fact = map with_txn_id (pd.sort_values conv_leb cs).
Proof.
  unfold to_fact_transactions. intros H.
  destruct (py.mapM payroll_txn payroll) as [ps|]; cbn [py.bind] in H; [|discriminate].
  destruct (add_fx_amount_base _ fx base) as [cs|] eqn:Ec; cbn [py.bind] in H;
    [|discriminate].
  injection H as <-. exists ps, cs. auto.
Qed.




End ledger_facts.



(** X11. The sign convention of the ledger.  With positive sales and
    expense amounts, non-negative net pay and positive FX rates, every sales
    record of the ledger has a positive amount and a base amount that is not
    negative, and every expenses or payroll record an amount and a base amount
    that are not positive. *)
Theorem ledger_signs (sales : list Sale.t) (expenses : list Expense.t)
    (payroll : list Payroll.t) (inventory : list Inventory.t) (fx : list Fx.t)
    (base : string) (fact : list Fact.t) :
  transform.to_fact_transactions sales expenses payroll inventory fx base = py.Ok fact ->
  Forall (fun s => (0 < Sale.amount s)%Q) sales ->
  Forall (fun e => (0 < Expense.amount e)%Q) expenses ->
  Forall (fun p => (0 <= Payroll.net p)%Q) payroll ->
  Forall (fun f => (0 < Fx.rate f)%Q) fx ->
  Forall (fun f =>
    (Txn.source (Fact.txn f) = "sales" ->
     (0 < Txn.amount (Fact.txn f))%Q /\ (0 <= Fact.amount_base f)%Q)
    /\ (Txn.source (Fact.txn f) = "expenses" \/ Txn.source (Fact.txn f) = "payroll" ->
        (Txn.amount (Fact.txn f) <= 0)%Q /\ (Fact.amount_base f <= 0)%Q)) fact.
Proof.
  intros H Hs He Hp Hfx. apply ledger_facts.to_fact_transactions_ok in H.
  destruct H as [ps [cs [Hps [Hc ->]]]].
  pose proof (conversion_results.add_fx_amount_base_ok _ _ _ _ Hc) as HF.
  apply Forall_forall. intros f Hf. apply in_map_iff in Hf.
  destruct Hf as [c [<- Hc']].
  apply (Permutation_in _ (facts.sort_values_perm _ cs)) in Hc'.
  destruct (list_facts.Forall2_in_r _ _ _ _ HF Hc') as [r [Hr [Ht [Hrate Ha]]]].
  cbn [transform.with_txn_id Fact.txn Fact.amount_base]. rewrite Ht, Ha.
  pose proof (sign_facts.rate_for_positive _ _ _ _ Hfx Hrate) as Hq.
  rewrite !in_app_iff in Hr. destruct Hr as [Hr|[Hr|[Hr|Hr]]].
  - apply in_map_iff in Hr. destruct Hr as [s [<- Hin]].
    rewrite Forall_forall in Hs. specialize (Hs s Hin).
    cbn [transform.sale_txn Txn.source Txn.amount]. split.
    + intros _. split; [exact Hs|]. apply sign_facts.round2_nonneg.
      apply Qmult_le_0_compat; apply Qlt_le_weak; assumption.
    + intros [E|E]; discriminate.
  - apply in_map_iff in Hr. destruct Hr as [e [<- Hin]].
    rewrite Forall_forall in He. specialize (He e Hin).
    cbn [transform.expense_txn Txn.source Txn.amount]. split.
    + intros E. discriminate.
    + intros _.
      assert (- Expense.amount e <= 0)%Q as Hneg.
      { apply (Qopp_le_compat 0). apply Qlt_le_weak. exact He. }
      split; [exact Hneg|]. apply sign_facts.round2_nonpos.
      rewrite <- (Qmult_0_l (Conv.rate c)). apply Qmult_le_compat_r; [exact Hneg|].
      apply Qlt_le_weak. exact Hq.
  - destruct (list_facts.Forall2_in_r _ _ _ _ (unifier_facts.mapM_ok _ _ _ Hps) Hr)
      as [p [Hin Hpt]].
    rewrite Forall_forall in Hp. specialize (Hp p Hin).
    unfold transform.payroll_txn in Hpt.
    destruct (transform.payroll_date (Payroll.month p)) as [d|]; cbn [py.bind] in Hpt;
      [|discriminate].
    injection Hpt as <-. cbn [Txn.source Txn.amount]. split.
    + intros E. discriminate.
    + intros _.
      assert (- Payroll.net p <= 0)%Q as Hneg by (apply (Qopp_le_compat 0); exact Hp).
      split; [exact Hneg|]. apply sign_facts.round2_nonpos.
      rewrite <- (Qmult_0_l (Conv.rate c)). apply Qmult_le_compat_r; [exact Hneg|].
      apply Qlt_le_weak. exact Hq.
  - apply unifier_facts.inventory_txns_in in Hr. destruct Hr as [i [d [Hin ->]]].
    cbn [transform.inventory_row Txn.source]. split.
    + intros E. discriminate.
    + intros [E|E]; discriminate.
Qed.

Lemma ledger_signs_witness :
  Forall (fun f =>
    (Txn.source (Fact.txn f) = "sales" ->
     (0 < Txn.amount (Fact.txn f))%Q /\ (0 <= Fact.amount_base f)%Q)
    /\ (Txn.source (Fact.txn f) = "expenses" \/ Txn.source (Fact.txn f) = "payroll" ->
        (Txn.amount (Fact.txn f) <= 0)%Q /\ (Fact.amount_base f <= 0)%Q)) sample_ledger.
Proof.
  apply (ledger_signs [sample_sale] [sample_expense] [payroll_dec] [] [fx_eur] "USD"
           sample_ledger).
  - reflexivity.
  - repeat constructor.
  - repeat constructor.
  - repeat constructor. discriminate.
  - repeat constructor.
Defined.

(* ------------------------------------------------------------------ *)
(** ** Groups *)

Module grouping_facts.
Import grouping.

Section Dedup.
Context {A : Type} (eqb : A -> A -> bool).
Hypothesis eqb_eq : forall a b, eqb a b = true <-> a = b.

Lemma dedup_in (seen l : list A) (p : A) :
  In p (transform.drop_duplicates eqb seen l) <-> In p l /\ ~ In p seen.
Proof.
  revert seen. induction l as [|x l IH]; intros seen; simpl; [tauto|].
  destruct (existsb (eqb x) seen) eqn:E.
  - rewrite IH. apply existsb_exists in E. destruct E as [y [Hy Ey]].
    apply eqb_eq in Ey. subst y.
    split; [tauto|]. intros [[->|H] Hn]; tauto.
  - simpl. rewrite IH. simpl.
    assert (~ In x seen) as Hx.
    { intros H. assert (existsb (eqb x) seen = true); [|congruence].
      apply existsb_exists. exists x. split; [exact H|]. apply eqb_eq. reflexivity. }
    split.
    + intros [<-|[H1 H2]]; [tauto|]. split; [tauto|]. intros H. apply H2. tauto.
    + intros [[->|H1] H2]; [tauto|].
      destruct (eqb x p) eqn:Exp.
      * apply eqb_eq in Exp. tauto.
      * right. split; [exact H1|]. intros [Hxp|H]; [|tauto].
        apply eqb_eq in Hxp. congruence.
Qed.

Lemma dedup_nodup (seen l : list A) :
  NoDup (transform.drop_duplicates eqb seen l).
Proof.
  revert seen. induction l as [|x l IH]; intros seen; simpl; [constructor|].
  destruct (existsb (eqb x) seen); [apply IH|].
  constructor; [|apply IH].
  rewrite dedup_in. simpl. tauto.
Qed.

End Dedup.

Section Groups.
Context {K V : Type} (eqb : K -> K -> bool).
Hypothesis eqb_eq : forall a b, eqb a b = true <-> a = b.

Lemma eqb_refl k : eqb k k = true.
Proof. apply eqb_eq. reflexivity. Qed.

Lemma eqb_neq a b : a <> b -> eqb a b = false.
Proof. intros H. destruct (eqb a b) eqn:E; [|reflexivity]. apply eqb_eq in E. contradiction. Qed.

Lemma existsb_key (k : K) (gs : list (K * list V)) :
  existsb (fun g => eqb (fst g) k) gs = true <-> In k (map fst gs).
Proof.
  rewrite existsb_exists, in_map_iff. split.
  - intros [g [Hg E]]. apply eqb_eq in E. exists g. auto.
  - intros [g [E Hg]]. exists g. split; [exact Hg|]. apply eqb_eq. exact E.
Qed.

Lemma add_to_group_keys (k : K) (v : V) (gs : list (K * list V)) :
  map fst (pd.add_to_group eqb k v gs)
  = if existsb (fun g => eqb (fst g) k) gs then map fst gs else (map fst gs ++ [k])%list.
Proof.
  induction gs as [|[k' vs] gs IH]; [reflexivity|].
  simpl. destruct (eqb k' k); simpl; [reflexivity|].
  rewrite IH. destruct (existsb _ gs); reflexivity.
Qed.

Lemma add_to_group_in (k : K) (v : V) (gs : list (K * list V)) (k' : K) (vs' : list V) :
  NoDup (map fst gs) ->
  In (k', vs') (pd.add_to_group eqb k v gs)
  <-> (k' <> k /\ In (k', vs') gs)
      \/ (k' = k /\ ((exists vs, In (k, vs) gs /\ vs' = (vs ++ [v])%list)
                     \/ (~ In k (map fst gs) /\ vs' = [v]))).
Proof.
  induction gs as [|[k0 vs0] gs IH]; intros Hnd.
  - simpl. split.
    + intros [E|[]]. injection E as <- <-. right. split; [reflexivity|]. right. tauto.
    + intros [[_ []]|[-> [[vs [[] _]]|[_ ->]]]]. left. reflexivity.
  - inversion Hnd as [|? ? Hn0 Hnd']; subst. specialize (IH Hnd').
    cbn [pd.add_to_group]. destruct (eqb k0 k) eqn:E.
    + apply eqb_eq in E. subst k0. cbn [In map fst]. split.
      * intros [H|H].
        -- injection H as <- <-. right. split; [reflexivity|]. left.
           exists vs0. split; [left; reflexivity|reflexivity].
        -- left. split; [|right; exact H]. intros ->. apply Hn0.
           apply in_map_iff. exists (k, vs'). auto.
      * intros [[Hne [H|H]]|[-> [[vs [[H|H] ->]]|[Hn _]]]].
        -- injection H as ? ?. congruence.
        -- right. exact H.
        -- injection H as <-. left. reflexivity.
        -- exfalso. apply Hn0. apply in_map_iff. exists (k, vs). auto.
        -- exfalso. apply Hn. left. reflexivity.
    + assert (k0 <> k) as Hne by (intros ->; rewrite eqb_refl in E; discriminate).
      cbn [In map fst]. rewrite IH. split.
      * intros [H|[[H1 H2]|[-> [[vs [H ->]]|[Hn ->]]]]].
        -- injection H as <- <-. left. split; [exact Hne|left; reflexivity].
        -- left. split; [exact H1|right; exact H2].
        -- right. split; [reflexivity|]. left. exists vs. split; [right; exact H|reflexivity].
        -- right. split; [reflexivity|]. right. split; [|reflexivity].
           intros [H|H]; [contradiction|contradiction].
      * intros [[H1 [H|H]]|[-> [[vs [[H|H] ->]]|[Hn ->]]]].
        -- left. exact H.
        -- right. left. split; assumption.
        -- injection H as ? ?. contradiction.
        -- right. right. split; [reflexivity|]. left. exists vs. auto.
        -- right. right. split; [reflexivity|]. right. split; [|reflexivity].
           intros H. apply Hn. right. exact H.
Qed.

Lemma values_app (k : K) (kvs : list (K * V)) (k' : K) (v : V) :
  values eqb k (kvs ++ [(k', v)]) = (values eqb k kvs ++ if eqb k k' then [v] else [])%list.
Proof.
  unfold values. rewrite filter_app, map_app. simpl. destruct (eqb k k'); reflexivity.
Qed.

Lemma grouped_step (kvs : list (K * V)) (gs : list (K * list V)) (k : K) (v : V) :
  grouped eqb kvs gs -> grouped eqb (kvs ++ [(k, v)]) (pd.add_to_group eqb k v gs).
Proof.
  intros [Hnd Hin]. split.
  - rewrite add_to_group_keys. destruct (existsb _ gs) eqn:E; [exact Hnd|].
    apply NoDup_app; [exact Hnd|repeat constructor; intros []|].
    intros x Hx [<-|[]]. apply existsb_key in Hx. congruence.
  - intros k' vs'. rewrite (add_to_group_in k v gs k' vs' Hnd), values_app. split.
    + intros [[Hne H]|[-> [[vs [H ->]]|[Hn ->]]]].
      * rewrite (eqb_neq _ _ Hne), app_nil_r. apply Hin. exact H.
      * rewrite eqb_refl. apply Hin in H. destruct H as [-> _].
        split; [reflexivity|]. intros E. apply app_eq_nil in E. destruct E; discriminate.
      * rewrite eqb_refl.
        assert (values eqb k kvs = []) as ->.
        { destruct (values eqb k kvs) as [|x l] eqn:E; [reflexivity|]. exfalso. apply Hn.
          apply in_map_iff. exists (k, x :: l). split; [reflexivity|].
          apply Hin. rewrite E. split; [reflexivity|discriminate]. }
        split; [reflexivity|discriminate].
    + intros [-> Hne]. destruct (eqb k' k) eqn:E.
      * apply eqb_eq in E. subst k'. right. split; [reflexivity|].
        destruct (values eqb k kvs) as [|x l] eqn:Ev.
        -- right. split; [|reflexivity]. intros Hk. apply in_map_iff in Hk.
           destruct Hk as [[k0 vs0] [E0 H0]]. simpl in E0. subst k0.
           apply Hin in H0. destruct H0 as [-> H0]. apply H0. exact Ev.
        -- left. exists (x :: l). split; [|reflexivity]. apply Hin. rewrite Ev.
           split; [reflexivity|discriminate].
      * left. split; [intros ->; rewrite eqb_refl in E; discriminate|].
        rewrite app_nil_r in *. apply Hin. auto.
Qed.

Lemma groupby_snoc (kvs : list (K * V)) (kv : K * V) :
  pd.groupby eqb (kvs ++ [kv]) = pd.add_to_group eqb (fst kv) (snd kv) (pd.groupby eqb kvs).
Proof. unfold pd.groupby. rewrite fold_left_app. reflexivity. Qed.

Lemma groupby_grouped (kvs : list (K * V)) : grouped eqb kvs (pd.groupby eqb kvs).
Proof.
  induction kvs as [|[k v] kvs IH] using rev_ind.
  - split; [constructor|]. intros k vs. simpl.
    split; [intros []|intros [-> H]; apply H; reflexivity].
  - rewrite groupby_snoc. apply grouped_step. exact IH.
Qed.

Lemma values_nil_iff (k : K) (kvs : list (K * V)) :
  values eqb k kvs = [] <-> ~ In k (map fst kvs).
Proof.
  unfold values. induction kvs as [|[k' v] kvs IH]; simpl; [tauto|].
  destruct (eqb k k') eqn:E.
  - apply eqb_eq in E. subst. simpl. split; [discriminate|]. intros H. exfalso. apply H. auto.
  - rewrite IH. split; [|tauto]. intros H [H'|H']; [|tauto].
    subst. rewrite eqb_refl in E. discriminate.
Qed.

Lemma values_in (k : K) (kvs : list (K * V)) :
  values eqb k kvs <> [] -> In k (map fst kvs).
Proof.
  unfold values. induction kvs as [|[k' v] kvs IH]; simpl; [congruence|].
  destruct (eqb k k') eqn:E.
  - apply eqb_eq in E. auto.
  - intros H. right. apply IH. exact H.
Qed.

(** The keys of the groups are the keys of the rows. *)
Lemma groupby_keys (kvs : list (K * V)) (k : K) :
  In k (map fst (pd.groupby eqb kvs)) <-> In k (map fst kvs).
Proof.
  destruct (groupby_grouped kvs) as [_ Hin]. split.
  - intros H. apply in_map_iff in H. destruct H as [[k' vs] [E H]]. simpl in E. subst k'.
    apply Hin in H. destruct H as [-> Hne].
    apply values_in. exact Hne.
  - intros H. apply in_map_iff. exists (k, values eqb k kvs). split; [reflexivity|].
    apply Hin. split; [reflexivity|]. intros E. apply values_nil_iff in E. contradiction.
Qed.

End Groups.

Section Sizes.
Context {K V : Type} (eqb : K -> K -> bool).

Lemma add_to_group_total (k : K) (v : V) (gs : list (K * list V)) :
  total (pd.add_to_group eqb k v gs) = S (total gs).
Proof.
  unfold total. induction gs as [|[k' vs] gs IH]; [reflexivity|].
  simpl. destruct (eqb k' k); simpl.
  - rewrite length_app. simpl. lia.
  - rewrite IH. lia.
Qed.

(** Every row is in one group. *)
Lemma groupby_total (kvs : list (K * V)) : total (pd.groupby eqb kvs) = List.length kvs.
Proof.
  induction kvs as [|kv kvs IH] using rev_ind; [reflexivity|].
  unfold pd.groupby in *. rewrite fold_left_app. simpl.
  rewrite add_to_group_total, IH, length_app. simpl. lia.
Qed.

End Sizes.

End grouping_facts.

(* ------------------------------------------------------------------ *)
(** ** The DQ summary *)

Module summary_facts.
Import pipeline.

Lemma summary_key_eqb_eq (a b : string * string) : summary_key_eqb a b = true <-> a = b.
Proof.
  destruct a as [a1 a2], b as [b1 b2]. unfold summary_key_eqb. simpl.
  rewrite andb_true_iff, !String.eqb_eq. split; [intros [-> ->]; reflexivity|].
  intros E. injection E as -> ->. auto.
Qed.

Lemma summary_leb_total (a b : string * string * nat) :
  summary_leb a b = false -> summary_leb b a = true.
Proof.
  destruct a as [[d1 s1] n1], b as [[d2 s2] n2]. unfold summary_leb.
  assert (transform.lex (String.compare s2 s1) (Nat.compare n1 n2)
          = CompOpp (transform.lex (String.compare s1 s2) (Nat.compare n2 n1))) as ->.
  { apply order_facts.lex_antisym; [apply String.compare_antisym|apply Nat.compare_antisym]. }
  destruct (transform.lex _ _); intros H; try discriminate H; reflexivity.
Qed.

Lemma list_sum_perm (l l' : list nat) : Permutation l l' -> list_sum l = list_sum l'.
Proof. induction 1; simpl; lia. Qed.

Lemma filter_map {A B} (p : B -> bool) (f : A -> B) (l : list A) :
  filter p (map f l) = map f (filter (fun x => p (f x)) l).
Proof.
  induction l as [|x l IH]; [reflexivity|].
  simpl. destruct (p (f x)); simpl; rewrite IH; reflexivity.
Qed.

(** The summary, up to the order of its lines. *)
Lemma summarize_perm (xs : list dq.DqException) :
  Permutation (summarize xs)
    (map (fun g => (fst g, List.length (snd g)))
         (pd.groupby summary_key_eqb
            (map (fun x => ((quality.dataset (dq.issue x), dq.severity x), tt)) xs))).
Proof.
  unfold summarize.
  eapply Permutation_trans; [apply facts.sort_values_perm|apply facts.sort_values_perm].
Qed.

Lemma values_count (d s : string) (xs : list dq.DqException) :
  List.length (grouping.values summary_key_eqb (d, s)
                 (map (fun x => ((quality.dataset (dq.issue x), dq.severity x), tt)) xs))
  = dq_summary.count d s xs.
Proof.
  unfold grouping.values, dq_summary.count. rewrite filter_map, !length_map. reflexivity.
Qed.

End summary_facts.

(** X12. The DQ summary has one line per (dataset, severity) that occurs
    among the exceptions, with the number of exceptions of that dataset and
    severity; the counts add up to the number of exceptions, and the lines are
    ordered by severity, then by decreasing count. *)
Theorem summarize_counts (xs : list dq.DqException) :
  list_sum (map snd (pipeline.summarize xs)) = List.length xs
  /\ NoDup (map fst (pipeline.summarize xs))
  /\ (forall d s n, In (d, s, n) (pipeline.summarize xs)
                    <-> n = dq_summary.count d s xs /\ n <> 0%nat)
  /\ ordering.is_sorted pipeline.summary_leb (pipeline.summarize xs) = true.
Proof.
  pose proof (summary_facts.summarize_perm xs) as HP.
  set (kvs := map (fun x => ((quality.dataset (dq.issue x), dq.severity x), tt)) xs) in *.
  destruct (grouping_facts.groupby_grouped pipeline.summary_key_eqb
              summary_facts.summary_key_eqb_eq kvs) as [Hnd Hin].
  split; [|split; [|split]].
  - rewrite (summary_facts.list_sum_perm _ _ (Permutation_map snd HP)), map_map.
    cbn [snd]. change (grouping.total (pd.groupby pipeline.summary_key_eqb kvs)
                       = List.length xs).
    rewrite grouping_facts.groupby_total. unfold kvs. apply length_map.
  - apply (Permutation_NoDup (Permutation_sym (Permutation_map fst HP))).
    rewrite map_map. exact Hnd.
  - intros d s n. split.
    + intros H. apply (Permutation_in _ HP) in H. apply in_map_iff in H.
      destruct H as [[k vs] [E H]]. cbn [fst snd] in E. injection E as -> <-.
      apply Hin in H. destruct H as [-> Hne]. split.
      * unfold kvs. apply summary_facts.values_count.
      * intros E. apply length_zero_iff_nil in E. contradiction.
    + intros [-> Hn]. apply (Permutation_in _ (Permutation_sym HP)).
      apply in_map_iff.
      exists ((d, s), grouping.values pipeline.summary_key_eqb (d, s) kvs).
      cbn [fst snd]. split.
      * f_equal. unfold kvs. apply summary_facts.values_count.
      * apply Hin. split; [reflexivity|]. intros E. apply Hn.
        rewrite <- (summary_facts.values_count d s xs). fold kvs. rewrite E. reflexivity.
  - unfold pipeline.summarize.
    apply (order_facts.sort_values_sorted pipeline.summary_leb).
    apply summary_facts.summary_leb_total.
Qed.

(* ------------------------------------------------------------------ *)
(** ** The KPI table *)

Module kpi_cell_facts.
Import transform kpi_cells.

Lemma kpi_key_eqb_eq (a b : kpi_key) : kpi_key_eqb a b = true <-> a = b.
Proof.
  destruct a as [[e1 m1] t1], b as [[e2 m2] t2]. unfold kpi_key_eqb.
  rewrite !andb_true_iff, !String.eqb_eq. split.
  - intros [[-> ->] Ht]. destruct t1, t2; simpl in Ht; try discriminate; [|reflexivity].
    apply String.eqb_eq in Ht. subst. reflexivity.
  - intros E. injection E as -> -> ->. repeat split.
    destruct t2; simpl; [apply String.eqb_refl|reflexivity].
Qed.

Lemma index_eqb_eq (a b : string * string) : index_eqb a b = true <-> a = b.
Proof.
  destruct a as [a1 a2], b as [b1 b2]. unfold index_eqb. simpl.
  rewrite andb_true_iff, !String.eqb_eq. split; [intros [-> ->]; reflexivity|].
  intros E. injection E as -> ->. auto.
Qed.

(** The rows [groupby] is run on. *)
Lemma keyed (df : list (Fact.t * option string)) :
  map (fun ft : Fact.t * option string =>
         let (f, ty) := ft in
         ((Txn.entity (Fact.txn f), Cal.period_M (ts_date (Txn.date (Fact.txn f))), ty),
          Fact.amount_base f)) df
  = map (fun ft => (key_of ft, Fact.amount_base (fst ft))) df.
Proof. apply map_ext. intros [f ty]. reflexivity. Qed.

Lemma values_amounts (df : list (Fact.t * option string)) (e m t : string) :
  grouping.values kpi_key_eqb (e, m, Some t)
    (map (fun ft => (key_of ft, Fact.amount_base (fst ft))) df)
  = amounts df e m t.
Proof.
  unfold grouping.values, amounts. rewrite summary_facts.filter_map, map_map. reflexivity.
Qed.

(** The rows of [pivot]: one per key, with the sum of its amounts. *)
Lemma groupby_sum_in (df : list (Fact.t * option string)) :
  NoDup (map fst (groupby_sum df))
  /\ forall e m t s,
       In ((e, m, Some t), s) (groupby_sum df)
       <-> s = Qsum (amounts df e m t) /\ amounts df e m t <> [].
Proof.
  unfold groupby_sum. rewrite keyed.
  destruct (grouping_facts.groupby_grouped kpi_key_eqb kpi_key_eqb_eq
              (map (fun ft => (key_of ft, Fact.amount_base (fst ft))) df)) as [Hnd Hin].
  split.
  - rewrite map_map. exact Hnd.
  - intros e m t s. rewrite in_map_iff. split.
    + intros [[k vs] [E H]]. cbn [fst snd] in E. injection E as -> <-.
      apply Hin in H. rewrite values_amounts in H. destruct H as [-> Hne]. auto.
    + intros [-> Hne]. exists ((e, m, Some t), amounts df e m t). split; [reflexivity|].
      apply Hin. rewrite values_amounts. auto.
Qed.

Lemma pivot_dropna_in (pivot : list (kpi_key * Q)) e m t v :
  In (e, m, t, v) (pivot_dropna pivot) <-> In ((e, m, Some t), v) pivot.
Proof.
  unfold pivot_dropna. rewrite in_flat_map. split.
  - intros [[[[e' m'] [t'|]] v'] [H Hin]]; [|destruct Hin].
    destruct Hin as [E|[]]. injection E as -> -> -> ->. exact H.
  - intros H. exists ((e, m, Some t), v). split; [exact H|left; reflexivity].
Qed.

(** The values of a cell: the one row of [pivot] under its key, if any. *)
Lemma cell_values_absent (pivot : list (kpi_key * Q)) e m t :
  ~ In (e, m, Some t) (map fst pivot) ->
  cell_values (pivot_dropna pivot) (e, m) t = [].
Proof.
  unfold cell_values. intros Hn. apply facts.flat_map_nil_iff.
  intros [[[e' m'] t'] v] Hin. apply pivot_dropna_in in Hin.
  destruct (index_eqb (e', m') (e, m) && String.eqb t' t) eqn:E; [|reflexivity].
  exfalso. apply Hn. apply andb_true_iff in E. destruct E as [E1 E2].
  apply index_eqb_eq in E1. apply String.eqb_eq in E2. injection E1 as -> ->. subst t'.
  apply in_map_iff. exists ((e, m, Some t), v). auto.
Qed.

Lemma cell_values_present (pivot : list (kpi_key * Q)) e m t s :
  NoDup (map fst pivot) -> In ((e, m, Some t), s) pivot ->
  cell_values (pivot_dropna pivot) (e, m) t = [s].
Proof.
  induction pivot as [|[[[e' m'] ty] v] pivot IH]; intros Hnd Hin; [destruct Hin|].
  inversion Hnd as [|? ? Hn Hnd']; subst. cbn [map fst] in Hn.
  change (cell_values (pivot_dropna ((e', m', ty, v) :: pivot)) (e, m) t)
    with (cell_values ((match ty with Some t0 => [(e', m', t0, v)] | None => [] end)
                       ++ pivot_dropna pivot) (e, m) t).
  unfold cell_values at 1. rewrite flat_map_app. fold (cell_values (pivot_dropna pivot) (e, m) t).
  destruct Hin as [E|Hin].
  - injection E as -> -> -> ->. rewrite (cell_values_absent pivot e m t Hn).
    unfold index_eqb. cbn. rewrite !String.eqb_refl. reflexivity.
  - rewrite (IH Hnd' Hin).
    assert ((e', m', ty) <> (e, m, Some t)) as Hne.
    { intros E. rewrite E in Hn. apply Hn. apply in_map_iff.
      exists ((e, m, Some t), s). auto. }
    destruct ty as [t'|]; [|reflexivity]. unfold index_eqb. cbn.
    destruct (String.eqb e' e) eqn:E1, (String.eqb m' m) eqn:E2, (String.eqb t' t) eqn:E3;
      try reflexivity.
    apply String.eqb_eq in E1, E2, E3. subst. contradiction.
Qed.

Lemma Qmean_one (s : Q) : (Qmean [s] == s)%Q.
Proof. unfold Qmean, Qsum. simpl. field. Qed.

(** The rows of the pivot table. *)
Lemma pivot_table_in (pivot : list (kpi_key * Q)) e m bt :
  In (e, m, bt) (pivot_table pivot) ->
  (exists t v, In ((e, m, Some t), v) pivot)
  /\ exists cols,
       NoDup cols
       /\ (forall c, In c cols <-> exists e' m' v, In ((e', m', Some c), v) pivot)
       /\ bt = map (fun c => (c, match cell_values (pivot_dropna pivot) (e, m) c with
                                 | [] => 0%Q
                                 | _ => Qmean (cell_values (pivot_dropna pivot) (e, m) c)
                                 end)) cols.
Proof.
  unfold pivot_table. cbv zeta. intros H. apply in_map_iff in H.
  destruct H as [[e0 m0] [E H]]. cbn [fst snd] in E. injection E as -> -> <-.
  split.
  - apply (Permutation_in _ (facts.sort_values_perm _ _)) in H.
    apply (grouping_facts.dedup_in index_eqb index_eqb_eq) in H.
    destruct H as [H _]. apply in_map_iff in H. destruct H as [[[[e' m'] t] v] [E H]].
    injection E as -> ->. apply pivot_dropna_in in H. eauto.
  - eexists. split; [|split; [|reflexivity]].
    + apply (Permutation_NoDup (Permutation_sym (facts.sort_values_perm _ _))).
      apply (grouping_facts.dedup_nodup String.eqb String.eqb_eq).
    + intros c. split.
      * intros Hc. apply (Permutation_in _ (facts.sort_values_perm _ _)) in Hc.
        apply (grouping_facts.dedup_in String.eqb String.eqb_eq) in Hc.
        destruct Hc as [Hc _]. apply in_map_iff in Hc.
        destruct Hc as [[[[e' m'] t] v] [E Hc]]. subst t. apply pivot_dropna_in in Hc. eauto.
      * intros [e' [m' [v Hc]]].
        apply (Permutation_in _ (Permutation_sym (facts.sort_values_perm _ _))).
        apply (grouping_facts.dedup_in String.eqb String.eqb_eq).
        split; [|intros []]. apply in_map_iff. exists (e', m', c, v).
        split; [reflexivity|]. apply pivot_dropna_in. exact Hc.
Qed.

(** The index of the pivot table: the (entity, month) pairs of [pivot]
    that have an account type, each once. *)
Lemma pivot_table_index (pivot : list (kpi_key * Q)) :
  NoDup (map (fun r : string * string * list (string * Q) => (fst (fst r), snd (fst r)))
             (pivot_table pivot))
  /\ forall e m,
       In (e, m) (map (fun r : string * string * list (string * Q) =>
                         (fst (fst r), snd (fst r))) (pivot_table pivot))
       <-> exists t v, In ((e, m, Some t), v) pivot.
Proof.
  unfold pivot_table. cbv zeta. rewrite map_map. cbn [fst snd].
  rewrite (map_ext _ (fun em => em)) by (intros [e m]; reflexivity). rewrite map_id. split.
  - apply (Permutation_NoDup (Permutation_sym (facts.sort_values_perm _ _))).
    apply (grouping_facts.dedup_nodup index_eqb index_eqb_eq).
  - intros e m. split.
    + intros H. apply (Permutation_in _ (facts.sort_values_perm _ _)) in H.
      apply (grouping_facts.dedup_in index_eqb index_eqb_eq) in H.
      destruct H as [H _]. apply in_map_iff in H. destruct H as [[[[e' m'] t] v] [E H]].
      injection E as -> ->. apply pivot_dropna_in in H. eauto.
    + intros [t [v H]].
      apply (Permutation_in _ (Permutation_sym (facts.sort_values_perm _ _))).
      apply (grouping_facts.dedup_in index_eqb index_eqb_eq).
      split; [|intros []]. apply in_map_iff. exists (e, m, t, v).
      split; [reflexivity|]. apply pivot_dropna_in. exact H.
Qed.

(** The default columns. *)
Lemma add_default_keys col bt :
  map fst (add_default col bt)
  = if existsb (fun cv => String.eqb (fst cv) col) bt then map fst bt
    else (map fst bt ++ [col])%list.
Proof.
  unfold add_default. destruct (existsb _ bt); [reflexivity|].
  rewrite map_app. reflexivity.
Qed.

Lemma existsb_col col (bt : list (string * Q)) :
  existsb (fun cv => String.eqb (fst cv) col) bt = true <-> In col (map fst bt).
Proof.
  rewrite existsb_exists, in_map_iff. split.
  - intros [cv [H E]]. apply String.eqb_eq in E. eauto.
  - intros [cv [E H]]. exists cv. split; [exact H|]. apply String.eqb_eq. exact E.
Qed.

Lemma add_default_nodup col bt : NoDup (map fst bt) -> NoDup (map fst (add_default col bt)).
Proof.
  intros H. rewrite add_default_keys. destruct (existsb _ bt) eqn:E; [exact H|].
  apply NoDup_app; [exact H|repeat constructor; intros []|].
  intros x Hx [<-|[]]. apply existsb_col in Hx. congruence.
Qed.

Lemma add_default_has col bt : In col (map fst (add_default col bt)).
Proof.
  rewrite add_default_keys. destruct (existsb _ bt) eqn:E.
  - apply existsb_col. exact E.
  - apply in_or_app. right. left. reflexivity.
Qed.

Lemma add_default_keeps col bt c : In c (map fst bt) -> In c (map fst (add_default col bt)).
Proof.
  intros H. rewrite add_default_keys. destruct (existsb _ bt); [exact H|].
  apply in_or_app. left. exact H.
Qed.

Lemma add_default_in col bt t v :
  In (t, v) (add_default col bt) ->
  In (t, v) bt \/ (v = 0%Q /\ ~ In t (map fst bt)).
Proof.
  unfold add_default. destruct (existsb _ bt) eqn:E; [auto|].
  intros H. apply in_app_or in H. destruct H as [H|[H|[]]]; [auto|].
  injection H as <- <-. right. split; [reflexivity|].
  intros Hin. apply existsb_col in Hin. congruence.
Qed.

Lemma defaults_in bt t v :
  In (t, v) (fold_left (fun acc col => add_default col acc) ["Revenue"; "COGS"; "Expense"] bt) ->
  In (t, v) bt \/ (v = 0%Q /\ ~ In t (map fst bt)).
Proof.
  cbn [fold_left]. intros H.
  apply add_default_in in H. destruct H as [H|[-> Hn]].
  - apply add_default_in in H. destruct H as [H|[-> Hn]].
    + apply add_default_in in H. exact H.
    + right. split; [reflexivity|]. intros Hin. apply Hn. apply add_default_keeps. exact Hin.
  - right. split; [reflexivity|]. intros Hin. apply Hn.
    apply add_default_keeps, add_default_keeps. exact Hin.
Qed.

Lemma col_value_in bt t v :
  NoDup (map fst bt) -> In (t, v) bt -> col_value t bt = v.
Proof.
  unfold col_value. induction bt as [|[c x] bt IH]; intros Hnd Hin; [destruct Hin|].
  inversion Hnd as [|? ? Hn Hnd']; subst. cbn [find fst].
  destruct (String.eqb c t) eqn:E.
  - apply String.eqb_eq in E. subst c. destruct Hin as [H|H]; [injection H as <-; reflexivity|].
    exfalso. apply Hn. apply in_map_iff. exists (t, v). auto.
  - destruct Hin as [H|H]; [injection H as -> _; rewrite String.eqb_refl in E; discriminate|].
    apply IH; assumption.
Qed.

(** The KPI table, up to the order of its rows. *)
Lemma kpi_monthly_perm (fact : list Fact.t) (dim : list Account.t) :
  Permutation (kpi_monthly fact dim)
    (map kpi_row (pivot_table (groupby_sum (merge_accounts fact dim)))).
Proof. unfold kpi_monthly. cbv zeta. apply facts.sort_values_perm. Qed.

Lemma kpi_leb_total (a b : Kpi.t) : kpi_leb a b = false -> kpi_leb b a = true.
Proof. unfold kpi_leb. apply order_facts.index_leb_total. Qed.

End kpi_cell_facts.

Module kpi_results.
Import transform kpi_cells kpi_cell_facts.

Lemma amounts_nonempty (df : list (Fact.t * option string)) e m t :
  amounts df e m t <> []
  <-> exists f, In (f, Some t) df /\ Txn.entity (Fact.txn f) = e
                /\ Cal.period_M (ts_date (Txn.date (Fact.txn f))) = m.
Proof.
  unfold amounts. split.
  - intros H. destruct (filter _ df) as [|[f ty] l] eqn:E; [contradiction|].
    assert (In (f, ty) (filter (fun ft => kpi_key_eqb (e, m, Some t) (key_of ft)) df)) as Hin
      by (rewrite E; left; reflexivity).
    apply filter_In in Hin. destruct Hin as [Hin Hk]. apply kpi_key_eqb_eq in Hk.
    unfold key_of in Hk. cbn [fst snd] in Hk. injection Hk as He Hm Ht. subst ty.
    exists f. auto.
  - intros [f [Hin [<- <-]]] E. apply map_eq_nil in E.
    assert (In (f, Some t)
              (filter (fun ft => kpi_key_eqb (Txn.entity (Fact.txn f),
                                   Cal.period_M (ts_date (Txn.date (Fact.txn f))), Some t)
                                   (key_of ft)) df)) as H.
    { apply filter_In. split; [exact Hin|]. apply kpi_key_eqb_eq. reflexivity. }
    rewrite E in H. destruct H.
Qed.

(** A row of the KPI table comes from a row of the pivot table. *)
Lemma kpi_monthly_in (fact : list Fact.t) (dim : list Account.t) (k : Kpi.t) :
  In k (kpi_monthly fact dim) ->
  exists e m bt,
    In (e, m, bt) (pivot_table (groupby_sum (merge_accounts fact dim)))
    /\ k = kpi_row (e, m, bt).
Proof.
  intros H. apply (Permutation_in _ (kpi_monthly_perm fact dim)) in H.
  apply in_map_iff in H. destruct H as [[[e m] bt] [<- H]]. eauto.
Qed.

Lemma map_fst_cells {A} (f : string -> A) (cols : list string) :
  map fst (map (fun c => (c, f c)) cols) = cols.
Proof. rewrite map_map. cbn [fst]. apply map_id. Qed.

(** The (entity, month) pairs of the KPI rows: those of the joined ledger
    records that have an account type. *)
Lemma row_keys (fact : list Fact.t) (dim : list Account.t) (e m : string) :
  In (e, m) (map row_key (kpi_monthly fact dim))
  <-> exists f t,
        In (f, Some t) (merge_accounts fact dim)
        /\ Txn.entity (Fact.txn f) = e
        /\ Cal.period_M (ts_date (Txn.date (Fact.txn f))) = m.
Proof.
  pose proof (kpi_monthly_perm fact dim) as HP.
  set (df := merge_accounts fact dim) in *.
  destruct (groupby_sum_in df) as [Hnd Hin].
  destruct (pivot_table_index (groupby_sum df)) as [Hind Hidx].
  assert (In (e, m) (map row_key (kpi_monthly fact dim))
          <-> In (e, m) (map (fun r : string * string * list (string * Q) =>
                                (fst (fst r), snd (fst r)))
                             (pivot_table (groupby_sum df)))) as ->.
  { assert (map row_key (map kpi_row (pivot_table (groupby_sum df)))
            = map (fun r : string * string * list (string * Q) => (fst (fst r), snd (fst r)))
                  (pivot_table (groupby_sum df))) as <-.
    { rewrite map_map. apply map_ext. intros [[e0 m0] bt]. reflexivity. }
    split; apply Permutation_in; [|apply Permutation_sym]; apply Permutation_map; exact HP. }
  rewrite Hidx. split.
  - intros [t [v H]]. apply Hin in H. destruct H as [_ H].
    apply amounts_nonempty in H. destruct H as [f H]. exists f, t. exact H.
  - intros [f [t H]]. exists t, (Qsum (amounts df e m t)).
    apply Hin. split; [reflexivity|]. apply amounts_nonempty. exists f. exact H.
Qed.

End kpi_results.

(** X13. The KPI table has one row per (entity, month) in which some ledger
    record has an account type, and no other; its rows are ordered by entity
    and month; every row has the columns Revenue, COGS and Expense, no column
    twice, and its gross profit is round(Revenue + COGS, 2) and its operating
    profit round(gross_profit + Expense, 2). *)
Theorem kpi_rows (fact : list Fact.t) (dim_accounts : list Account.t) :
  ordering.is_sorted transform.kpi_leb (transform.kpi_monthly fact dim_accounts) = true
  /\ NoDup (map kpi_cells.row_key (transform.kpi_monthly fact dim_accounts))
  /\ (forall e m,
        In (e, m) (map kpi_cells.row_key (transform.kpi_monthly fact dim_accounts))
        <-> exists f t,
              In (f, Some t) (transform.merge_accounts fact dim_accounts)
              /\ Txn.entity (Fact.txn f) = e
              /\ Cal.period_M (ts_date (Txn.date (Fact.txn f))) = m)
  /\ Forall (fun k => NoDup (map fst (Kpi.by_type k))
                      /\ incl ["Revenue"; "COGS"; "Expense"] (map fst (Kpi.by_type k))
                      /\ kpi_cells.profits_ok k)
            (transform.kpi_monthly fact dim_accounts).
Proof.
  pose proof (kpi_cell_facts.kpi_monthly_perm fact dim_accounts) as HP.
  set (df := transform.merge_accounts fact dim_accounts) in *.
  destruct (kpi_cell_facts.groupby_sum_in df) as [Hnd Hin].
  destruct (kpi_cell_facts.pivot_table_index (transform.groupby_sum df)) as [Hind Hidx].
  assert (map kpi_cells.row_key
            (map kpi_cells.kpi_row (transform.pivot_table (transform.groupby_sum df)))
          = map (fun r : string * string * list (string * Q) => (fst (fst r), snd (fst r)))
                (transform.pivot_table (transform.groupby_sum df))) as Hkeys.
  { rewrite map_map. apply map_ext. intros [[e m] bt]. reflexivity. }
  split; [|split; [|split]].
  - unfold transform.kpi_monthly. cbv zeta.
    apply (order_facts.sort_values_sorted transform.kpi_leb).
    apply kpi_cell_facts.kpi_leb_total.
  - apply (Permutation_NoDup (Permutation_sym (Permutation_map kpi_cells.row_key HP))).
    rewrite Hkeys. exact Hind.
  - intros e m. apply kpi_results.row_keys.
  - apply Forall_forall. intros k Hk.
    destruct (kpi_results.kpi_monthly_in _ _ _ Hk) as [e [m [bt [Hbt ->]]]].
    destruct (kpi_cell_facts.pivot_table_in _ _ _ _ Hbt) as [_ [cols [Hc [_ ->]]]].
    cbn [kpi_cells.kpi_row Kpi.by_type fold_left]. split; [|split].
    + repeat apply kpi_cell_facts.add_default_nodup.
      rewrite kpi_results.map_fst_cells. exact Hc.
    + intros c [<-|[<-|[<-|[]]]].
      * apply kpi_cell_facts.add_default_keeps, kpi_cell_facts.add_default_keeps,
          kpi_cell_facts.add_default_has.
      * apply kpi_cell_facts.add_default_keeps, kpi_cell_facts.add_default_has.
      * apply kpi_cell_facts.add_default_has.
    + split; reflexivity.
Qed.

(** X14. A cell of the KPI table is the sum of the base amounts of the
    ledger records of its entity and month whose account, in the chart, has
    the account type of its column; reading the column of the row gives that
    cell. *)
Theorem kpi_cell_is_sum (fact : list Fact.t) (dim_accounts : list Account.t) (k : Kpi.t)
    (t : string) (v : Q) :
  In k (transform.kpi_monthly fact dim_accounts) ->
  In (t, v) (Kpi.by_type k) ->
  transform.col_value t (Kpi.by_type k) = v
  /\ (v == transform.Qsum
            (kpi_cells.amounts (transform.merge_accounts fact dim_accounts)
               (Kpi.entity k) (Kpi.month k) t))%Q.
Proof.
  intros Hk Hv.
  set (df := transform.merge_accounts fact dim_accounts).
  destruct (kpi_cell_facts.groupby_sum_in df) as [Hnd Hin].
  destruct (kpi_results.kpi_monthly_in _ _ _ Hk) as [e [m [bt [Hbt ->]]]].
  fold df in Hbt.
  destruct (kpi_cell_facts.pivot_table_in _ _ _ _ Hbt) as [_ [cols [Hc [Hcols ->]]]].
  cbn [kpi_cells.kpi_row Kpi.by_type Kpi.entity Kpi.month] in *. split.
  - apply kpi_cell_facts.col_value_in; [|exact Hv].
    cbn [fold_left]. repeat apply kpi_cell_facts.add_default_nodup.
    rewrite kpi_results.map_fst_cells. exact Hc.
  - apply kpi_cell_facts.defaults_in in Hv.
    rewrite kpi_results.map_fst_cells in Hv.
    destruct (kpi_cells.amounts df e m t) as [|a l] eqn:Ea.
    + (* no record under the key: the cell is the fill value, or the default *)
      assert (~ In (e, m, Some t) (map fst (transform.groupby_sum df))) as Hn.
      { intros H. apply in_map_iff in H. destruct H as [[key s] [E H]].
        cbn [fst] in E. subst key. apply Hin in H. destruct H as [_ H]. contradiction. }
      destruct Hv as [Hv|[-> _]]; [|reflexivity].
      apply in_map_iff in Hv. destruct Hv as [c [E _]]. injection E as -> <-.
      rewrite (kpi_cell_facts.cell_values_absent _ _ _ _ Hn). reflexivity.
    + assert (In ((e, m, Some t), transform.Qsum (a :: l)) (transform.groupby_sum df)) as Hs.
      { apply Hin. rewrite Ea. split; [reflexivity|discriminate]. }
      destruct Hv as [Hv|[_ Hn]].
      * apply in_map_iff in Hv. destruct Hv as [c [E _]]. injection E as -> <-.
        rewrite (kpi_cell_facts.cell_values_present _ _ _ _ _ Hnd Hs).
        apply kpi_cell_facts.Qmean_one.
      * exfalso. apply Hn. apply Hcols. eauto.
Qed.

Lemma kpi_cell_is_sum_witness :
  transform.col_value "Revenue" (Kpi.by_type sample_kpi) = 1000%Q
  /\ (1000 == transform.Qsum
                (kpi_cells.amounts
                   (transform.merge_accounts [fact_revenue; fact_unclassified] dim_revenue)
                   (Kpi.entity sample_kpi) (Kpi.month sample_kpi) "Revenue"))%Q.
Proof.
  apply (kpi_cell_is_sum [fact_revenue; fact_unclassified] dim_revenue sample_kpi
           "Revenue" 1000%Q).
  - left. reflexivity.
  - left. reflexivity.
Defined.

(* ------------------------------------------------------------------ *)
(** ** The month window *)

Module window_facts.
Import window.

Lemma is_digit_in (c : ascii) : Str.is_digit c = true -> In c digits.
Proof.
  destruct c as [[] [] [] [] [] [] [] []]; intros H; try discriminate H;
    unfold digits; repeat (first [left; reflexivity | right]).
Qed.

Lemma year_text :
  forallb (fun a => forallb (fun b => forallb (fun c => forallb (fun d =>
    (Cal.digits_val [a; b; c; d] <? 100)
    || String.eqb (Str.pad0 4 (Str.of_Z (Cal.digits_val [a; b; c; d])))
                  (String a (String b (String c (String d EmptyString)))))
    digits) digits) digits) digits = true.
Proof. vm_compute. reflexivity. Qed.

Lemma month_text :
  forallb (fun a => forallb (fun b =>
    String.eqb (Str.pad0 2 (Str.of_Z (Cal.digits_val [a; b])))
               (String a (String b EmptyString)))
    digits) digits = true.
Proof. vm_compute. reflexivity. Qed.

Lemma year_digits a b c d :
  Str.is_digit a = true -> Str.is_digit b = true -> Str.is_digit c = true ->
  Str.is_digit d = true -> 100 <= Cal.digits_val [a; b; c; d] ->
  Str.pad0 4 (Str.of_Z (Cal.digits_val [a; b; c; d]))
  = String a (String b (String c (String d EmptyString))).
Proof.
  intros Ha Hb Hc Hd Hy. apply is_digit_in in Ha, Hb, Hc, Hd.
  pose proof year_text as H.
  rewrite forallb_forall in H. specialize (H a Ha).
  rewrite forallb_forall in H. specialize (H b Hb).
  rewrite forallb_forall in H. specialize (H c Hc).
  rewrite forallb_forall in H. specialize (H d Hd).
  apply orb_true_iff in H. destruct H as [H|H]; [apply Z.ltb_lt in H; lia|].
  apply String.eqb_eq in H. exact H.
Qed.

Lemma month_digits a b :
  Str.is_digit a = true -> Str.is_digit b = true ->
  Str.pad0 2 (Str.of_Z (Cal.digits_val [a; b])) = String a (String b EmptyString).
Proof.
  intros Ha Hb. apply is_digit_in in Ha, Hb.
  pose proof month_text as H.
  rewrite forallb_forall in H. specialize (H a Ha).
  rewrite forallb_forall in H. specialize (H b Hb).
  apply String.eqb_eq in H. exact H.
Qed.

(** The month string reads back from the date it parses to. *)
Lemma to_datetime_period (s : string) (t : Timestamp) :
  Cal.to_datetime (s ++ "-01") = Some t ->
  exists y m,
    t = Cal.midnight (mkDate y m 1) /\ 1 <= m <= 12
    /\ (100 <= y -> forall d, Cal.period_M (mkDate y m d) = s).
Proof.
  unfold Cal.to_datetime.
  destruct s as [|y1 [|y2 [|y3 [|y4 [|h1 [|m1 [|m2 [|a8 [|a9 [|a10 [|a11 s]]]]]]]]]]];
    cbn [append list_ascii_of_string]; try discriminate.
  destruct (Ascii.eqb h1 "-") eqn:Eh; cbn [andb]; [|discriminate].
  destruct (forallb Str.is_digit _) eqn:Ed; [|discriminate].
  cbn [forallb] in Ed. rewrite !andb_true_iff in Ed.
  destruct Ed as [D1 [D2 [D3 [D4 [D5 [D6 _]]]]]].
  change (Ascii.eqb "-"%char "-"%char) with true. cbn [andb].
  destruct (_ && _) eqn:Er; [|discriminate].
  intros H. injection H as <-.
  rewrite !andb_true_iff in Er. destruct Er as [[[R1 R2] _] _].
  apply Z.leb_le in R1, R2. apply Ascii.eqb_eq in Eh. subst h1.
  exists (Cal.digits_val [y1; y2; y3; y4]), (Cal.digits_val [m1; m2]).
  split; [reflexivity|]. split; [lia|].
  intros Hy d. unfold Cal.period_M. cbn [year month].
  rewrite year_digits, month_digits by assumption. reflexivity.
Qed.

(** A month written YYYY-MM parses, and reads back from every date of the
    month. *)
Lemma canonical_parses (s : string) :
  canonical s = true ->
  exists y m,
    Cal.to_datetime (s ++ "-01") = Some (Cal.midnight (mkDate y m 1))
    /\ 1678 <= y <= 2261 /\ 1 <= m <= 12
    /\ forall d, Cal.period_M (mkDate y m d) = s.
Proof.
  unfold canonical. intros H.
  destruct (Cal.to_datetime (s ++ "-01")) as [t|] eqn:E.
  - destruct (to_datetime_period s t E) as [y [m [-> [Hm Hp]]]].
    exists y, m. split; [reflexivity|].
    assert (1678 <= y <= 2261) as Hy.
    { revert E H. unfold Cal.to_datetime.
      destruct s as [|y1 [|y2 [|y3 [|y4 [|h1 [|m1 [|m2 [|a8 s]]]]]]]];
        cbn [append list_ascii_of_string]; try discriminate.
      destruct (_ && _); [|discriminate].
      destruct (_ && _); [|discriminate].
      intros E H. injection E as <- _.
      rewrite !andb_true_iff in H. destruct H as [[[[_ H1] H2] _] _].
      apply Z.leb_le in H1, H2. lia. }
    split; [exact Hy|]. split; [exact Hm|]. apply Hp. lia.
  - exfalso. revert E H. unfold Cal.to_datetime.
    destruct s as [|y1 [|y2 [|y3 [|y4 [|h1 [|m1 [|m2 [|a8 s]]]]]]]];
      cbn [append list_ascii_of_string]; try discriminate.
    intros E H. rewrite !andb_true_iff in H.
    destruct H as [[[[[Hh Hd] _] _] M1] M2].
    cbn [forallb] in Hd. rewrite !andb_true_iff in Hd.
    destruct Hd as [D1 [D2 [D3 [D4 [D5 [D6 _]]]]]].
    cbn [forallb] in E. rewrite Hh, D1, D2, D3, D4, D5, D6 in E.
    change (Ascii.eqb "-"%char "-"%char) with true in E.
    change (Str.is_digit "0"%char) with true in E.
    change (Str.is_digit "1"%char) with true in E.
    cbn [andb] in E. rewrite M1, M2 in E.
    change (Cal.digits_val ["0"%char; "1"%char]) with 1 in E.
    cbn [andb Z.leb Z.compare] in E.
    destruct (1 <=? Cal.days_in_month _ _) eqn:Ed; [discriminate|].
    apply Z.leb_gt in Ed. unfold Cal.days_in_month in Ed.
    destruct (_ =? 2); [destruct (Cal.is_leap _); lia|].
    destruct (_ || _); lia.
Qed.

End window_facts.

Module window_results.
Import window pipeline.

Ltac compares :=
  repeat match goal with
         | |- context [?a ?= ?b] =>
             let H := fresh "C" in destruct (Z.compare_spec a b) as [H|H|H]
         end.

(** The window of a month holds the timestamps of that month. *)
Lemma in_window_month (y m : Z) (t : Timestamp) :
  1 <= m <= 12 -> well_formed t ->
  in_window (Cal.midnight (mkDate y m 1)) (Cal.month_begin_1 (Cal.midnight (mkDate y m 1))) t
  = true
  <-> year (ts_date t) = y /\ month (ts_date t) = m.
Proof.
  destruct t as [[ty tm td] tt]. unfold well_formed. cbn [ts_date ts_time year month day].
  intros Hm [Htm [Htd Htt]].
  unfold in_window, Cal.ts_geb, Cal.ts_ltb, Cal.ts_compare, Cal.date_compare,
    Cal.month_begin_1, Cal.midnight.
  cbn [ts_date ts_time year month day].
  destruct (m =? 12) eqn:E12; [apply Z.eqb_eq in E12|apply Z.eqb_neq in E12];
    cbn [ts_date ts_time year month day];
    compares; cbn [andb]; split; intros H; try discriminate H; try lia; try reflexivity.
Qed.

End window_results.

(** X15. For a month written YYYY-MM, the window starts at midnight of the
    first day of the month and ends at midnight of the first day of the next
    one; a well-formed timestamp is inside the window exactly when its year
    and month are those of the month string, and such a timestamp prints as
    that month. *)
Theorem month_window_is_month (s : string) :
  window.canonical s = true ->
  exists start end_ y m,
    pipeline._month_window s = py.Ok (start, end_)
    /\ start = Cal.midnight (mkDate y m 1)
    /\ end_ = Cal.midnight (if m =? 12 then mkDate (y + 1) 1 1 else mkDate y (m + 1) 1)
    /\ 1 <= m <= 12
    /\ forall t, window.well_formed t ->
                 (pipeline.in_window start end_ t = true
                  <-> year (ts_date t) = y /\ month (ts_date t) = m)
                 /\ (pipeline.in_window start end_ t = true ->
                     Cal.period_M (ts_date t) = s).
Proof.
  intros H. destruct (window_facts.canonical_parses s H) as [y [m [E [_ [Hm Hp]]]]].
  exists (Cal.midnight (mkDate y m 1)), (Cal.month_begin_1 (Cal.midnight (mkDate y m 1))), y, m.
  split; [unfold pipeline._month_window; rewrite E; reflexivity|].
  split; [reflexivity|]. split; [reflexivity|]. split; [exact Hm|].
  intros t Ht. pose proof (window_results.in_window_month y m t Hm Ht) as Hw.
  split; [exact Hw|].
  intros Hin. apply Hw in Hin. destruct Hin as [<- <-].
  destruct t as [[ty tm td] tt]. apply Hp.
Qed.

Lemma month_window_is_month_witness :
  exists start end_ y m,
    pipeline._month_window "2025-12" = py.Ok (start, end_)
    /\ start = Cal.midnight (mkDate y m 1)
    /\ end_ = Cal.midnight (if m =? 12 then mkDate (y + 1) 1 1 else mkDate y (m + 1) 1)
    /\ 1 <= m <= 12
    /\ forall t, window.well_formed t ->
                 (pipeline.in_window start end_ t = true
                  <-> year (ts_date t) = y /\ month (ts_date t) = m)
                 /\ (pipeline.in_window start end_ t = true ->
                     Cal.period_M (ts_date t) = "2025-12").
Proof.
  apply (month_window_is_month "2025-12"). reflexivity.
Defined.

(* ------------------------------------------------------------------ *)
(** ** A run that returns *)

Module run_results.
Import io_utils pipeline.

(** What curation did, when it returned. *)
Lemma curate_ok settings month coa (v_sales v_exp v_pay v_inv v_fx : option pd.DataFrame)
    (w w' : list Artifact) (outs : list string) :
  run.curate settings month coa v_sales v_exp v_pay v_inv v_fx w = (w', py.Ok outs) ->
  outs = outputs
  /\ exists start end_ rs re ri rp rfx fact,
       _month_window month = py.Ok (start, end_)
       /\ subscript v_sales typed.sale = py.Ok rs
       /\ subscript v_exp typed.expense = py.Ok re
       /\ subscript v_inv typed.inventory = py.Ok ri
       /\ subscript v_pay typed.payroll = py.Ok rp
       /\ copy_fx v_fx = py.Ok rfx
       /\ transform.to_fact_transactions
            (filter (fun r => in_window start end_ (Sale.date r)) rs)
            (filter (fun r => in_window start end_ (Expense.date r)) re)
            (filter (fun r => String.eqb (Payroll.month r) month) rp)
            (filter (fun r => in_window start end_ (Inventory.date r)) ri)
            (transform.fx_to_base rfx (config.base_currency settings))
            (config.base_currency settings) = py.Ok fact
       /\ w' = (w ++ [fact_transactions_parquet fact;
                      dim_accounts_parquet (transform.build_dim_accounts coa);
                      kpi_monthly_parquet
                        (transform.kpi_monthly fact (transform.build_dim_accounts coa))])%list.
Proof.
  unfold run.curate, bind, lift.
  destruct (_month_window month) as [[start end_]|e]; cbv beta iota; [|discriminate].
  destruct (subscript v_sales typed.sale) as [rs|]; cbv beta iota; [|discriminate].
  destruct (subscript v_exp typed.expense) as [re|]; cbv beta iota; [|discriminate].
  destruct (subscript v_inv typed.inventory) as [ri|]; cbv beta iota; [|discriminate].
  destruct (subscript v_pay typed.payroll) as [rp|]; cbv beta iota; [|discriminate].
  destruct (copy_fx v_fx) as [rfx|]; cbv beta iota; [|discriminate].
  destruct (transform.to_fact_transactions _ _ _ _ _ _) as [fact|] eqn:Ef; cbv beta iota;
    [|discriminate].
  unfold write_parquet, write, ret. cbv beta iota. rewrite <- !app_assoc. cbn [app].
  intros H. injection H as <- <-. split; [reflexivity|].
  exists start, end_, rs, re, ri, rp, rfx, fact. repeat split. exact Ef.
Qed.

Lemma missing_file settings month files fail_on w name :
  curated.first_missing files = Some name ->
  run_month settings month files fail_on w = (w, py.Raise (py.FileNotFoundError name)).
Proof.
  unfold curated.first_missing, run_month.
  destruct files as [[c|] [s|] [e|] [p|] [i|] [f|]]; cbn [chart_of_accounts_csv sales_csv
    expenses_csv payroll_csv inventory_movements_csv fx_rates_csv];
    intros H; try discriminate H; injection H as <-; reflexivity.
Qed.

Lemma no_missing_file files :
  curated.first_missing files = None ->
  exists coa sales expenses payroll inventory fx_rates,
    files = run.files coa sales expenses payroll inventory fx_rates.
Proof.
  unfold curated.first_missing.
  destruct files as [[c|] [s|] [e|] [p|] [i|] [f|]]; cbn [chart_of_accounts_csv sales_csv
    expenses_csv payroll_csv inventory_movements_csv fx_rates_csv];
    intros H; try discriminate H.
  exists c, s, e, p, i, f. reflexivity.
Qed.

Lemma no_issues_valid settings sales expenses payroll inventory fx_rates :
  run.issues settings sales expenses payroll inventory fx_rates = [] ->
  run.valid_frame (quality.sales_schema (config.allowed_currencies settings)) sales
  = Some sales
  /\ run.valid_frame (quality.expenses_schema (config.allowed_currencies settings)) expenses
     = Some expenses
  /\ run.valid_frame (quality.payroll_schema (config.allowed_currencies settings)) payroll
     = Some payroll
  /\ run.valid_frame (quality.inventory_schema (config.allowed_currencies settings)) inventory
     = Some inventory
  /\ run.valid_frame (quality.fx_schema (config.allowed_currencies settings)
                        (config.base_currency settings)) fx_rates
     = Some fx_rates.
Proof.
  unfold run.issues, run.batch_issues, run.valid_frame, pa.validate.
  destruct (pa.failure_cases (quality.sales_schema _) sales); [|discriminate].
  destruct (pa.failure_cases (quality.expenses_schema _) expenses); [|discriminate].
  destruct (pa.failure_cases (quality.payroll_schema _) payroll); [|discriminate].
  destruct (pa.failure_cases (quality.inventory_schema _) inventory); [|discriminate].
  destruct (pa.failure_cases (quality.fx_schema _ _) fx_rates); [|discriminate].
  auto.
Qed.

(** A run that returns: every file was there, no batch had an issue, and
    the run went through curation. *)
Lemma run_month_ok settings month files fail_on w outs :
  run_month settings month files fail_on [] = (w, py.Ok outs) ->
  outs = outputs
  /\ exists coa sales expenses payroll inventory fx_rates start end_ rs re ri rp rfx fact,
       files = run.files coa sales expenses payroll inventory fx_rates
       /\ run.issues settings sales expenses payroll inventory fx_rates = []
       /\ _month_window month = py.Ok (start, end_)
       /\ typed.read typed.sale sales = py.Ok rs
       /\ typed.read typed.expense expenses = py.Ok re
       /\ typed.read typed.inventory inventory = py.Ok ri
       /\ typed.read typed.payroll payroll = py.Ok rp
       /\ typed.read typed.fx_rate fx_rates = py.Ok rfx
       /\ transform.to_fact_transactions
            (filter (fun r => in_window start end_ (Sale.date r)) rs)
            (filter (fun r => in_window start end_ (Expense.date r)) re)
            (filter (fun r => String.eqb (Payroll.month r) month) rp)
            (filter (fun r => in_window start end_ (Inventory.date r)) ri)
            (transform.fx_to_base rfx (config.base_currency settings))
            (config.base_currency settings) = py.Ok fact
       /\ w = [dq_exceptions_csv []; dq_summary_csv (dq.SummaryPass "PASS" month);
               fact_transactions_parquet fact;
               dim_accounts_parquet (transform.build_dim_accounts coa);
               kpi_monthly_parquet
                 (transform.kpi_monthly fact (transform.build_dim_accounts coa))].
Proof.
  intros H. destruct (curated.first_missing files) as [name|] eqn:Em.
  { rewrite (missing_file settings month files fail_on [] name Em) in H. discriminate. }
  destruct (no_missing_file files Em) as [coa [sales [expenses [payroll [inventory
    [fx_rates ->]]]]]].
  destruct (run.issues settings sales expenses payroll inventory fx_rates) as [|i l] eqn:Ei.
  2:{ destruct (run_facts.run_month_with_issues settings month coa sales expenses payroll
                  inventory fx_rates fail_on) as [e [He _]].
      - rewrite Ei. discriminate.
      - rewrite He in H. discriminate. }
  rewrite run_facts.run_month_phases in H. unfold bind at 1 in H.
  rewrite (run_facts.dq_phase_without_issues _ _ _ _ _ _ _ fail_on [] Ei) in H.
  destruct (no_issues_valid _ _ _ _ _ _ Ei) as [V1 [V2 [V3 [V4 V5]]]].
  rewrite V1, V2, V3, V4, V5 in H.
  apply curate_ok in H.
  destruct H as [-> [start [end_ [rs [re [ri [rp [rfx [fact H]]]]]]]]].
  split; [reflexivity|].
  exists coa, sales, expenses, payroll, inventory, fx_rates, start, end_, rs, re, ri, rp, rfx, fact.
  cbn [subscript copy_fx app] in H. tauto.
Qed.

End run_results.

(** X16. When an input file does not exist, the run raises
    [FileNotFoundError] for the first missing file in load order (chart of
    accounts, sales, expenses, payroll, inventory movements, FX rates) and
    writes no file; when none is missing every file is read. *)
Theorem missing_file_raises (settings : config.Settings) (month : string)
    (files : io_utils.Files) (fail_on : string) (w : list io_utils.Artifact) :
  match curated.first_missing files with
  | Some name =>
      pipeline.run_month settings month files fail_on w
      = (w, py.Raise (py.FileNotFoundError name))
  | None =>
      exists coa sales expenses payroll inventory fx_rates,
        files = run.files coa sales expenses payroll inventory fx_rates
  end.
Proof.
  destruct (curated.first_missing files) as [name|] eqn:E.
  - apply run_results.missing_file. exact E.
  - apply run_results.no_missing_file. exact E.
Qed.

(** X17. Whatever [fail_on] is, a run returns only when every file exists
    and no batch has a schema violation; it then wrote exactly five files, in
    this order: the empty exceptions log, the summary with status PASS and
    the month, the ledger, the accounts dimension and the KPI table computed
    from that ledger and that dimension. *)
Theorem run_month_returns (settings : config.Settings) (month : string)
    (files : io_utils.Files) (fail_on : string) (w : list io_utils.Artifact)
    (outs : list string) :
  pipeline.run_month settings month files fail_on [] = (w, py.Ok outs) ->
  outs = pipeline.outputs
  /\ exists coa sales expenses payroll inventory fx_rates fact,
       files = run.files coa sales expenses payroll inventory fx_rates
       /\ run.issues settings sales expenses payroll inventory fx_rates = []
       /\ w = [io_utils.dq_exceptions_csv [];
               io_utils.dq_summary_csv (dq.SummaryPass "PASS" month);
               io_utils.fact_transactions_parquet fact;
               io_utils.dim_accounts_parquet (transform.build_dim_accounts coa);
               io_utils.kpi_monthly_parquet
                 (transform.kpi_monthly fact (transform.build_dim_accounts coa))].
Proof.
  intros H. apply run_results.run_month_ok in H.
  destruct H as [-> [coa [sales [expenses [payroll [inventory [fx_rates [start [end_
    [rs [re [ri [rp [rfx [fact H]]]]]]]]]]]]]]].
  split; [reflexivity|].
  exists coa, sales, expenses, payroll, inventory, fx_rates, fact. tauto.
Qed.

Lemma run_month_returns_witness :
  pipeline.outputs = pipeline.outputs
  /\ exists coa sales expenses payroll inventory fx_rates fact,
       files_with sales_frame_1 = run.files coa sales expenses payroll inventory fx_rates
       /\ run.issues config.settings sales expenses payroll inventory fx_rates = []
       /\ fst (pipeline.run_month config.settings "2025-12" (files_with sales_frame_1)
                 "ERROR" [])
          = [io_utils.dq_exceptions_csv [];
             io_utils.dq_summary_csv (dq.SummaryPass "PASS" "2025-12");
             io_utils.fact_transactions_parquet fact;
             io_utils.dim_accounts_parquet (transform.build_dim_accounts coa);
             io_utils.kpi_monthly_parquet
               (transform.kpi_monthly fact (transform.build_dim_accounts coa))].
Proof.
  apply (run_month_returns config.settings "2025-12" (files_with sales_frame_1) "ERROR"
           (fst (pipeline.run_month config.settings "2025-12" (files_with sales_frame_1)
                   "ERROR" []))
           pipeline.outputs).
  vm_compute. reflexivity.
Defined.

Module month_facts.
Import io_utils pipeline.

Lemma get_in cols row name c :
  pd.get cols row name = Some c -> c = pd.NaN \/ In c row.
Proof.
  unfold pd.get. destruct (pd.index_of name cols) as [i|]; [|discriminate].
  simpl. intros H. injection H as <-.
  destruct (nth_in_or_default i row pd.NaN); auto.
Qed.

Lemma sale_date cols row s :
  typed.sale cols row = py.Ok s -> pd.get cols row "date" = Some (pd.VTime (Sale.date s)).
Proof. schema_facts.cells. Qed.

Lemma expense_date cols row e :
  typed.expense cols row = py.Ok e ->
  pd.get cols row "date" = Some (pd.VTime (Expense.date e)).
Proof. schema_facts.cells. Qed.

Lemma inventory_date cols row i :
  typed.inventory cols row = py.Ok i ->
  pd.get cols row "date" = Some (pd.VTime (Inventory.date i)).
Proof. schema_facts.cells. Qed.

(** The dates read from a frame of well-formed timestamps. *)
Lemma read_well_formed {A} (row_of : list string -> list pd.cell -> py.result A)
    (date : A -> Timestamp) (df : pd.DataFrame) (rows : list A) :
  (forall cols row r, row_of cols row = py.Ok r ->
                      pd.get cols row "date" = Some (pd.VTime (date r))) ->
  curated.frame_ok (Some df) ->
  typed.read row_of df = py.Ok rows ->
  Forall (fun r => window.well_formed (date r)) rows.
Proof.
  intros Hd Hok Hr. cbn [curated.frame_ok] in Hok. rewrite Forall_forall in Hok.
  apply (schema_facts.Forall2_right _ _ _ _ (schema_facts.read_rows _ _ _ Hr)).
  intros row r Hin Hrow. apply Hd in Hrow. apply get_in in Hrow.
  destruct Hrow as [E|Hc]; [discriminate|].
  specialize (Hok row Hin). rewrite Forall_forall in Hok. apply (Hok _ Hc).
Qed.

(** A record of the ledger is the transaction of an input row. *)
Lemma ledger_txn sales expenses payroll inventory fx base fact f :
  transform.to_fact_transactions sales expenses payroll inventory fx base = py.Ok fact ->
  In f fact ->
  (exists s, In s sales /\ Fact.txn f = transform.sale_txn s)
  \/ (exists e, In e expenses /\ Fact.txn f = transform.expense_txn e)
  \/ (exists p, In p payroll /\ transform.payroll_txn p = py.Ok (Fact.txn f))
  \/ (exists i d, In i inventory /\ Fact.txn f = transform.inventory_row i d).
Proof.
  intros H Hf. apply ledger_facts.to_fact_transactions_ok in H.
  destruct H as [ps [cs [Hps [Hc ->]]]].
  pose proof (conversion_results.add_fx_amount_base_ok _ _ _ _ Hc) as HF.
  apply in_map_iff in Hf. destruct Hf as [c [<- Hc']].
  apply (Permutation_in _ (facts.sort_values_perm _ cs)) in Hc'.
  destruct (list_facts.Forall2_in_r _ _ _ _ HF Hc') as [r [Hr [Ht _]]].
  cbn [transform.with_txn_id Fact.txn]. rewrite Ht.
  rewrite !in_app_iff in Hr. destruct Hr as [Hr|[Hr|[Hr|Hr]]].
  - apply in_map_iff in Hr. destruct Hr as [s [<- Hin]]. left. eauto.
  - apply in_map_iff in Hr. destruct Hr as [e [<- Hin]]. right. left. eauto.
  - destruct (list_facts.Forall2_in_r _ _ _ _ (unifier_facts.mapM_ok _ _ _ Hps) Hr)
      as [p [Hin Hp]].
    right. right. left. eauto.
  - apply unifier_facts.inventory_txns_in in Hr. destruct Hr as [i [d [Hin ->]]].
    right. right. right. eauto.
Qed.

Lemma merge_accounts_fst fact dim f ty :
  In (f, ty) (transform.merge_accounts fact dim) -> In f fact.
Proof.
  unfold transform.merge_accounts. intros H. apply in_flat_map in H.
  destruct H as [f' [Hf H]].
  destruct (filter _ dim) as [|a l].
  - destruct H as [E|[]]. injection E as -> _. exact Hf.
  - apply in_map_iff in H. destruct H as [a' [E _]]. injection E as -> _. exact Hf.
Qed.

(** The month of a payroll record is the month of its row. *)
Lemma payroll_txn_month (p : Payroll.t) (t : Txn.t) :
  transform.payroll_txn p = py.Ok t -> window.canonical (Payroll.month p) = true ->
  Cal.period_M (ts_date (Txn.date t)) = Payroll.month p.
Proof.
  unfold transform.payroll_txn, transform.payroll_date. intros H Hy.
  destruct (window_facts.canonical_parses _ Hy) as [y [m [E [_ [_ Hp]]]]].
  rewrite E in H. cbn [py.bind] in H. injection H as <-. cbn [Txn.date].
  unfold Cal.month_end_0. cbn [ts_date Cal.midnight]. apply Hp.
Qed.

End month_facts.

(** X18. A run for a month written YYYY-MM that returns wrote a ledger and
    a KPI table of that month only: with input timestamps that are well
    formed, every ledger record is dated in the month [month] and every KPI
    row is a row of that month. *)
Theorem run_month_single_month (settings : config.Settings) (month : string)
    (files : io_utils.Files) (fail_on : string) (w : list io_utils.Artifact)
    (outs : list string) :
  pipeline.run_month settings month files fail_on [] = (w, py.Ok outs) ->
  curated.frame_ok (io_utils.sales_csv files) ->
  curated.frame_ok (io_utils.expenses_csv files) ->
  curated.frame_ok (io_utils.inventory_movements_csv files) ->
  window.canonical month = true ->
  Forall (fun f => Cal.period_M (ts_date (Txn.date (Fact.txn f))) = month) (curated.ledger w)
  /\ Forall (fun k => Kpi.month k = month) (kpi_written w).
Proof.
  intros H Hs He Hi Hy. apply run_results.run_month_ok in H.
  destruct H as [_ [coa [sales [expenses [payroll [inventory [fx_rates [start [end_
    [rs [re [ri [rp [rfx [fact H]]]]]]]]]]]]]]].
  destruct H as [Efiles [_ [Hw [Rs [Re [Ri [Rp [_ [Hf Ew]]]]]]]]]. subst files w.
  cbn [io_utils.sales_csv io_utils.expenses_csv io_utils.inventory_movements_csv run.files]
    in Hs, He, Hi.
  cbn [curated.ledger kpi_written flat_map app]. rewrite !app_nil_r.
  assert (forall t, window.well_formed t -> pipeline.in_window start end_ t = true ->
                    Cal.period_M (ts_date t) = month) as Hwin.
  { unfold pipeline._month_window in Hw.
    destruct (window_facts.canonical_parses _ Hy) as [y [m [E [_ [Hm Hp]]]]].
    rewrite E in Hw. injection Hw as <- <-.
    intros t Ht Hin. apply (window_results.in_window_month y m t Hm Ht) in Hin.
    destruct Hin as [Hyear Hmonth]. rewrite <- (Hp (day (ts_date t))).
    destruct (ts_date t) as [ty tm td]. simpl in Hyear, Hmonth. subst. reflexivity. }
  assert (Forall (fun f => Cal.period_M (ts_date (Txn.date (Fact.txn f))) = month) fact)
    as Hfact.
  { apply Forall_forall. intros f Hin.
    destruct (month_facts.ledger_txn _ _ _ _ _ _ _ _ Hf Hin)
      as [[s [Hin' ->]]|[[e [Hin' ->]]|[[p [Hin' Hp]]|[i [d [Hin' ->]]]]]];
      apply filter_In in Hin'; destruct Hin' as [Hin' Hcond].
    - apply Hwin; [|exact Hcond].
      pose proof (month_facts.read_well_formed typed.sale Sale.date sales rs
                    month_facts.sale_date Hs Rs) as Hwf.
      rewrite Forall_forall in Hwf. apply Hwf. exact Hin'.
    - apply Hwin; [|exact Hcond].
      pose proof (month_facts.read_well_formed typed.expense Expense.date expenses re
                    month_facts.expense_date He Re) as Hwf.
      rewrite Forall_forall in Hwf. apply Hwf. exact Hin'.
    - apply String.eqb_eq in Hcond.
      rewrite (month_facts.payroll_txn_month p _ Hp); [exact Hcond|].
      rewrite Hcond. exact Hy.
    - apply Hwin; [|exact Hcond].
      pose proof (month_facts.read_well_formed typed.inventory Inventory.date inventory ri
                    month_facts.inventory_date Hi Ri) as Hwf.
      rewrite Forall_forall in Hwf. apply Hwf. exact Hin'. }
  split; [exact Hfact|].
  apply Forall_forall. intros k Hk.
  assert (In (Kpi.entity k, Kpi.month k)
             (map kpi_cells.row_key
                  (transform.kpi_monthly fact (transform.build_dim_accounts coa)))) as Hrow.
  { apply in_map_iff. exists k. split; [reflexivity|exact Hk]. }
  apply kpi_results.row_keys in Hrow. destruct Hrow as [f [t [Hin [_ <-]]]].
  apply month_facts.merge_accounts_fst in Hin.
  rewrite Forall_forall in Hfact. apply Hfact. exact Hin.
Qed.

Lemma run_month_single_month_witness :
  Forall (fun f => Cal.period_M (ts_date (Txn.date (Fact.txn f))) = "2025-12")
         (curated.ledger
            (fst (pipeline.run_month config.settings "2025-12" (files_with sales_frame_1)
                    "ERROR" [])))
  /\ Forall (fun k => Kpi.month k = "2025-12")
            (kpi_written
               (fst (pipeline.run_month config.settings "2025-12" (files_with sales_frame_1)
                       "ERROR" []))).
Proof.
  apply (run_month_single_month config.settings "2025-12" (files_with sales_frame_1) "ERROR"
           (fst (pipeline.run_month config.settings "2025-12" (files_with sales_frame_1)
                   "ERROR" []))
           pipeline.outputs).
  - vm_compute. reflexivity.
  - vm_compute. repeat constructor; intros E; discriminate E.
  - vm_compute. repeat constructor; intros E; discriminate E.
  - vm_compute. repeat constructor; intros E; discriminate E.
  - reflexivity.
Defined.

(* ------------------------------------------------------------------ *)
(** ** Severities of the schema checks *)

Module severity_results.
Import severity.

Lemma failure_check_names (s : pa.DataFrameSchema) (df : pd.DataFrame) (fc : pa.FailureCase) :
  In fc (pa.failure_cases s df) -> In (pa.check fc) (check_names s).
Proof.
  intros H. apply facts.in_failure_cases in H. revert H.
  unfold pa.collected, check_names. rewrite !in_app_iff. intros [H|[H|H]].
  - left. unfold pa.strict_failures in H. destruct (pa.strict s); [|destruct H].
    apply in_flat_map in H. destruct H as [c [_ H]].
    destruct (existsb _ (pa.columns s)); [destruct H|]. destruct H as [<-|[]]. reflexivity.
  - right. rewrite in_app_iff. left. apply in_flat_map in H. destruct H as [[name col] [Hin H]].
    apply in_flat_map. exists (name, col). split; [exact Hin|]. cbn [snd].
    unfold pa.column_failures in H. destruct (pd.column df name) as [cells|].
    + right. rewrite in_app_iff.
      rewrite !in_app_iff in H. destruct H as [H|[H|H]].
      * left. unfold pa.dtype_failures, dtype_checks in *. cbv zeta in H.
        destruct (forallb _ cells); [destruct H|].
        destruct (pa.coerce col).
        -- apply in_app_iff in H. destruct H as [H|[<-|[]]].
           ++ apply in_flat_map in H. destruct H as [ic [_ H]].
              destruct (pa.has_dtype _ _); [destruct H|]. destruct H as [<-|[]].
              left. reflexivity.
           ++ right. left. reflexivity.
        -- destruct H as [<-|[]]. left. reflexivity.
      * right. left. symmetry. eapply severity_facts.null_failures_check. exact H.
      * right. right. unfold pa.check_failures in H. apply in_flat_map in H.
        destruct H as [c [Hc H]]. apply in_flat_map in H. destruct H as [ic [_ H]].
        destruct (pa.check_cell c (snd ic)); [destruct H|]. destruct H as [<-|[]].
        cbn [pa.check]. apply in_map. exact Hc.
    + destruct H as [<-|[]]. left. reflexivity.
  - right. rewrite in_app_iff. right. unfold pa.frame_check_failures in H.
    apply in_flat_map in H. destruct H as [f [Hf H]].
    destruct (pa.check_fn f df); [destruct H|]. destruct H as [<-|[]].
    cbn [pa.check]. apply in_map. exact Hf.
Qed.

(** On every check name of the five schemas, under the default settings,
    the patterns of [_tag_severity] select the blocking checks. *)
Lemma default_names :
  forallb (fun s => forallb (fun n => String.eqb (of_check n) (expected n)) (check_names s))
          (schemas.all (config.allowed_currencies config.settings)
                       (config.base_currency config.settings)) = true.
Proof. vm_compute. reflexivity. Qed.

End severity_results.

(** X19. Under the default settings, every failure case of any of the five
    schemas carries one of the check names of the schema, and an issue under
    such a name is tagged ERROR exactly when the name is that of a type check
    or a coercion, of a duplicated key or of the payroll identity; a missing
    value, a value outside its allowed set or range, and a missing or
    unexpected column are tagged WARN. *)
Theorem severity_of_failures (s : pa.DataFrameSchema) :
  In s (schemas.all (config.allowed_currencies config.settings)
                    (config.base_currency config.settings)) ->
  (forall df fc, In fc (pa.failure_cases s df) -> In (pa.check fc) (severity.check_names s))
  /\ (forall fc dataset,
        In (pa.check fc) (severity.check_names s) ->
        pipeline._tag_severity [quality.issue_of dataset fc]
        = [dq.mkDqException (quality.issue_of dataset fc)
             (severity.expected (pa.check fc))]).
Proof.
  intros Hs. split.
  - intros df fc. apply severity_results.failure_check_names.
  - intros fc dataset Hfc. rewrite severity_facts.tag_severity_one.
    cbn [quality.issue_of quality.check]. f_equal. f_equal.
    pose proof severity_results.default_names as H.
    rewrite forallb_forall in H. specialize (H s Hs).
    rewrite forallb_forall in H. specialize (H _ Hfc).
    apply String.eqb_eq in H. exact H.
Qed.

Lemma severity_of_failures_witness :
  In (pa.check severity.dup_failure)
     (severity.check_names (quality.sales_schema ["USD"; "TZS"; "EUR"]))
  /\ pipeline._tag_severity [quality.issue_of "sales" severity.dup_failure]
     = [dq.mkDqException (quality.issue_of "sales" severity.dup_failure) "ERROR"]
  /\ pipeline._tag_severity [quality.issue_of "fx_rates" severity.dtype_failure]
     = [dq.mkDqException (quality.issue_of "fx_rates" severity.dtype_failure) "ERROR"].
Proof.
  destruct (severity_of_failures (quality.sales_schema ["USD"; "TZS"; "EUR"])
              (or_introl eq_refl)) as [Hn Ht].
  destruct (severity_of_failures (quality.fx_schema ["USD"; "TZS"; "EUR"] "USD")
              (or_intror (or_intror (or_intror (or_intror (or_introl eq_refl))))))
    as [_ Ht'].
  assert (In severity.dup_failure
             (pa.failure_cases (quality.sales_schema ["USD"; "TZS"; "EUR"]) sales_frame_dup))
    as Hin by (vm_compute; left; reflexivity).
  split; [exact (Hn _ _ Hin)|]. split.
  - apply (Ht severity.dup_failure "sales"). exact (Hn _ _ Hin).
  - apply (Ht' severity.dtype_failure "fx_rates").
    vm_compute. repeat (first [left; reflexivity | right]).
Defined.

(* ------------------------------------------------------------------ *)
(** ** The command line *)

(** X20. When the command [run] returns, a run that started from an empty
    curated directory printed the DQ status PASS, the completion line and the
    five outputs, and nothing else: the summary of DQ issues is never
    printed by a command that returns. *)
Theorem cli_run_prints_pass (curated : string -> string) (month : string)
    (files : io_utils.Files) (fail_on : string) (w : list io_utils.Artifact)
    (lines : list string) :
  cli.run curated month files fail_on [] = (w, py.Ok lines) ->
  lines = ["[bold green]DQ status:[/bold green] PASS";
           "[bold green]ETL complete[/bold green]";
           " - dq_exceptions: " ++ curated "dq_exceptions.csv";
           " - dq_summary: " ++ curated "dq_summary.csv";
           " - fact: " ++ curated "fact_transactions.parquet";
           " - dim_accounts: " ++ curated "dim_accounts.parquet";
           " - kpi: " ++ curated "kpi_monthly.parquet"].
Proof.
  unfold cli.run, io_utils.bind.
  destruct (pipeline.run_month config.settings month files fail_on [])
    as [w' [outs|e]] eqn:E; [|discriminate].
  apply run_results.run_month_ok in E.
  destruct E as [-> [coa [sales [expenses [payroll [inventory [fx_rates [start [end_
    [rs [re [ri [rp [rfx [fact H]]]]]]]]]]]]]]].
  destruct H as [_ [_ [_ [_ [_ [_ [_ [_ [_ ->]]]]]]]]].
  intros H. injection H as _ <-. reflexivity.
Qed.

Lemma cli_run_prints_pass_witness :
  ["[bold green]DQ status:[/bold green] PASS";
   "[bold green]ETL complete[/bold green]";
   " - dq_exceptions: data/curated/dq_exceptions.csv";
   " - dq_summary: data/curated/dq_summary.csv";
   " - fact: data/curated/fact_transactions.parquet";
   " - dim_accounts: data/curated/dim_accounts.parquet";
   " - kpi: data/curated/kpi_monthly.parquet"]
  = ["[bold green]DQ status:[/bold green] PASS";
     "[bold green]ETL complete[/bold green]";
     " - dq_exceptions: " ++ (fun f => "data/curated/" ++ f) "dq_exceptions.csv";
     " - dq_summary: " ++ (fun f => "data/curated/" ++ f) "dq_summary.csv";
     " - fact: " ++ (fun f => "data/curated/" ++ f) "fact_transactions.parquet";
     " - dim_accounts: " ++ (fun f => "data/curated/" ++ f) "dim_accounts.parquet";
     " - kpi: " ++ (fun f => "data/curated/" ++ f) "kpi_monthly.parquet"].
Proof.
  apply (cli_run_prints_pass (fun f => "data/curated/" ++ f) "2025-12"
           (files_with sales_frame_1) "ERROR"
           (fst (cli.run (fun f => "data/curated/" ++ f) "2025-12"
                   (files_with sales_frame_1) "ERROR" []))).
  vm_compute. reflexivity.
Defined.

(* ------------------------------------------------------------------ *)
(** ** A duplicated FX key; a run with violations *)

Module failure_facts.
Import transform conversion conversion_facts.

(** The merge grows the frame when a record matches two FX rows. *)
Lemma merged_longer (fx : list Fx.t) (df : list Txn.t) (r : Txn.t) :
  In r df -> (2 <= List.length (fx_rows_for fx r))%nat ->
  (List.length df < List.length (flat_map (merged_rows fx) df))%nat.
Proof.
  induction df as [|r0 df IH]; intros Hin H2; [destruct Hin|].
  cbn [flat_map]. rewrite length_app. cbn [List.length].
  destruct Hin as [->|Hin].
  - pose proof (merged_length_ge fx df) as Hge.
    assert (2 <= List.length (merged_rows fx r))%nat; [|lia].
    unfold merged_rows. destruct (fx_rows_for fx r) as [|f l]; [simpl in H2; lia|].
    rewrite length_map. exact H2.
  - pose proof (merged_rows_length fx r0). specialize (IH Hin H2). lia.
Qed.

Import io_utils pipeline.

(** Curation of a run with an invalid batch raises on the month or on the
    first [None]. *)
Lemma curate_invalid (settings : config.Settings) (month : string) (coa : list Coa.t)
    (sales expenses payroll inventory fx_rates : pd.DataFrame) (w : list Artifact) :
  run.issues settings sales expenses payroll inventory fx_rates <> [] ->
  exists e,
    run.curate settings month coa
      (run.valid_frame (quality.sales_schema (config.allowed_currencies settings)) sales)
      (run.valid_frame (quality.expenses_schema (config.allowed_currencies settings)) expenses)
      (run.valid_frame (quality.payroll_schema (config.allowed_currencies settings)) payroll)
      (run.valid_frame (quality.inventory_schema (config.allowed_currencies settings))
         inventory)
      (run.valid_frame (quality.fx_schema (config.allowed_currencies settings)
                          (config.base_currency settings)) fx_rates) w
    = (w, py.Raise e)
    /\ (e = py.DateParseError \/ e = py.TypeError_NoneType
        \/ e = py.AttributeError_NoneType).
Proof.
  intros Hi.
  pose proof (run_facts.issues_some_none settings sales expenses payroll inventory fx_rates Hi)
    as Hnone.
  unfold run.curate, io_utils.bind, io_utils.lift, pipeline._month_window.
  destruct (Cal.to_datetime (month ++ "-01")) as [start|];
    [|eexists; split; [reflexivity|auto]].
  cbv beta iota.
  destruct (run.valid_frame (quality.sales_schema _) sales) as [d1|] eqn:E1;
    [|eexists; split; [reflexivity|auto]].
  destruct (typed_facts.valid_sales_read _ _ _ E1) as [r1 R1].
  cbn [pipeline.subscript]. rewrite R1. cbv beta iota.
  destruct (run.valid_frame (quality.expenses_schema _) expenses) as [d2|] eqn:E2;
    [|eexists; split; [reflexivity|auto]].
  destruct (typed_facts.valid_expenses_read _ _ _ E2) as [r2 R2].
  cbn [pipeline.subscript]. rewrite R2. cbv beta iota.
  destruct (run.valid_frame (quality.inventory_schema _) inventory) as [d3|] eqn:E3;
    [|eexists; split; [reflexivity|auto]].
  destruct (typed_facts.valid_inventory_read _ _ _ E3) as [r3 R3].
  cbn [pipeline.subscript]. rewrite R3. cbv beta iota.
  destruct (run.valid_frame (quality.payroll_schema _) payroll) as [d4|] eqn:E4;
    [|eexists; split; [reflexivity|auto]].
  destruct (typed_facts.valid_payroll_read _ _ _ E4) as [r4 R4].
  cbn [pipeline.subscript]. rewrite R4. cbv beta iota.
  destruct (run.valid_frame (quality.fx_schema _ _) fx_rates) as [d5|] eqn:E5;
    [|eexists; split; [reflexivity|auto]].
  exfalso. decompose [or] Hnone; discriminate.
Qed.

End failure_facts.

(** X21. When the batch has a record in a foreign currency and some record
    matches two or more FX rows on (day, currency), the conversion does not
    return duplicated records: the assignment of the rates raises, the mask
    computed before the merge no longer fitting the merged frame. *)
Theorem duplicated_fx_key_raises (df : list Txn.t) (fx : list Fx.t) (base : string)
    (r : Txn.t) :
  existsb (conversion.is_foreign base) df = true ->
  In r df -> (2 <= List.length (conversion.fx_rows_for fx r))%nat ->
  transform.add_fx_amount_base df fx base = py.Raise py.AssertionError.
Proof.
  intros Hf Hin H2.
  destruct (conversion_facts.add_fx_amount_base_cases df fx base) as [[_ [_ H]]|[H _]];
    [exact H|].
  specialize (H Hf). pose proof (failure_facts.merged_longer fx df r Hin H2). lia.
Qed.

Lemma duplicated_fx_key_raises_witness :
  transform.add_fx_amount_base [txn_usd; txn_eur] [fx_eur; fx_tzs; fx_eur] "USD"
  = py.Raise py.AssertionError.
Proof.
  apply (duplicated_fx_key_raises [txn_usd; txn_eur] [fx_eur; fx_tzs; fx_eur] "USD" txn_eur).
  - reflexivity.
  - right. left. reflexivity.
  - simpl. lia.
Defined.

(** X22. A run in which some batch has a schema violation never returns,
    whatever [fail_on] is, and writes the two DQ reports and no other file:
    it raises what the threshold raises, and when the threshold lets the run
    go on it raises on the month when that does not parse, and otherwise on
    the first [None] that stands for an invalid batch. *)
Theorem violations_stop_the_run (settings : config.Settings) (month : string)
    (coa : list Coa.t) (sales expenses payroll inventory fx_rates : pd.DataFrame)
    (fail_on : string) :
  run.issues settings sales expenses payroll inventory fx_rates <> [] ->
  exists e,
    pipeline.run_month settings month
      (run.files coa sales expenses payroll inventory fx_rates) fail_on []
    = (run.dq_reports settings sales expenses payroll inventory fx_rates, py.Raise e)
    /\ map io_utils.artifact_name
           (run.dq_reports settings sales expenses payroll inventory fx_rates)
       = ["dq_exceptions.csv"; "dq_summary.csv"]
    /\ match run.threshold settings sales expenses payroll inventory fx_rates fail_on with
       | py.Raise e' => e = e'
       | py.Ok _ => e = py.DateParseError \/ e = py.TypeError_NoneType
                    \/ e = py.AttributeError_NoneType
       end.
Proof.
  intros Hi. rewrite run_facts.run_month_phases. unfold io_utils.bind at 1.
  rewrite (run_facts.dq_phase_with_issues _ _ _ _ _ _ _ fail_on [] Hi). cbn [app].
  destruct (run.threshold settings sales expenses payroll inventory fx_rates fail_on)
    as [[]|e'].
  - destruct (failure_facts.curate_invalid settings month coa sales expenses payroll inventory
                fx_rates (run.dq_reports settings sales expenses payroll inventory fx_rates)
                Hi) as [e [He Hc]].
    exists e. rewrite He. repeat split. exact Hc.
  - exists e'. repeat split.
Qed.

Lemma violations_stop_the_run_witness :
  exists e,
    pipeline.run_month config.settings "2025-12"
      (run.files chart_1 sales_frame_null expenses_frame_1 payroll_frame_1 inventory_frame_1
         fx_frame_1) "ERROR" []
    = (run.dq_reports config.settings sales_frame_null expenses_frame_1 payroll_frame_1
         inventory_frame_1 fx_frame_1, py.Raise e)
    /\ map io_utils.artifact_name
           (run.dq_reports config.settings sales_frame_null expenses_frame_1 payroll_frame_1
              inventory_frame_1 fx_frame_1)
       = ["dq_exceptions.csv"; "dq_summary.csv"]
    /\ match run.threshold config.settings sales_frame_null expenses_frame_1 payroll_frame_1
               inventory_frame_1 fx_frame_1 "ERROR" with
       | py.Raise e' => e = e'
       | py.Ok _ => e = py.DateParseError \/ e = py.TypeError_NoneType
                    \/ e = py.AttributeError_NoneType
       end.
Proof.
  apply (violations_stop_the_run config.settings "2025-12" chart_1 sales_frame_null
           expenses_frame_1 payroll_frame_1 inventory_frame_1 fx_frame_1 "ERROR").
  vm_compute. discriminate.
Defined.
